(** * mapchete.index: tile output indexing

    A shallow embedding of [mapchete/index.py]: the path resolver
    [_tile_path], the index writer [VectorFileWriter] and the generator
    [zoom_index_gen], followed by the properties of the indexing engine.

    Conventions of the embedding.
    - Python strings are [string]; [str] of an integer is its decimal
      rendering ([pretty] on [Z]).
    - A Python [dict] is an insertion-ordered association list ([odict]):
      assigning an existing key keeps the key's position and replaces its
      value, assigning a new key appends.  The order matters because the
      writer re-emits [self.existing.values()].
    - The file system is a finite map from paths to the features stored in
      the file at that path; a file opened for writing buffers its records
      and stores them when it is closed.
    - Exceptions are values; fallible code returns a sum [exn + A].
    - The collaborators ([mapchete.io.path_is_remote], the process object
      [mp], fiona's failure behaviour) are parameters of the model. *)

From Stdlib Require Import Ascii String.
From stdpp Require Import base gmap strings list pretty.

Open Scope string_scope.
Open Scope list_scope.

(** ** Python primitives used by the module *)

Module Py.

(** [s.split(c)] for a one-character separator. The result is never empty. *)
Fixpoint split (c : ascii) (s : string) : list string :=
match s with
| EmptyString => [EmptyString]
| String a s' =>
    if decide (a = c) then EmptyString :: split c s'
    else match split c s' with
         | [] => [String a EmptyString]
         | h :: t => String a h :: t
         end
end.

(** [sep.join(l)] *)
Fixpoint join (sep : string) (l : list string) : string :=
match l with
| [] => ""
| [x] => x
| x :: rest => x +:+ sep +:+ join sep rest
end.

(** [l[-n:]] for a positive [n]: the last [n] elements, or all of [l] when it
  is shorter. *)
Definition last_n {A} (n : nat) (l : list A) : list A :=
drop (length l - n) l.

(** [s.startswith(c)] and [s.endswith(c)] for a one-character argument. *)
Definition startswith (s : string) (c : ascii) : bool :=
match s with
| String a _ => bool_decide (a = c)
| EmptyString => false
end.

Fixpoint endswith (s : string) (c : ascii) : bool :=
match s with
| EmptyString => false
| String a EmptyString => bool_decide (a = c)
| String _ s' => endswith s' c
end.

(** Truth value of a string. *)
Definition truthy (s : string) : bool :=
match s with EmptyString => false | _ => true end.

(** [os.path.join(a, b)] (posixpath, two arguments). *)
Definition os_path_join (a b : string) : string :=
if startswith b "/"%char then b
else if negb (truthy a) || endswith a "/"%char then a +:+ b
else a +:+ "/" +:+ b.

(** [str(n)] for an integer. *)
Definition str_int (n : Z) : string := pretty n.

(** [any(l)] *)
Definition any (l : list bool) : bool := existsb id l.

End Py.

(** ** Path helpers *)

(** [_index_file_path(out_dir, zoom, ext)] *)
Definition _index_file_path (out_dir : string) (zoom : Z) (ext : string) : string :=
  Py.os_path_join out_dir (Py.str_int zoom +:+ "." +:+ ext).

(** [_tile_path(orig_path, basepath, for_gdal)].  [basepath] is [None] or a
    string; the conditional expression tests its truth value, so the empty
    string behaves as [None].  [path_is_remote] is [mapchete.io]'s. *)
Definition _tile_path (path_is_remote : string -> bool)
    (orig_path : string) (basepath : option string) (for_gdal : bool) : string :=
  let path :=
    match basepath with
    | Some b =>
        if Py.truthy b
        then Py.os_path_join b (Py.join "/" (Py.last_n 3 (Py.split "/"%char orig_path)))
        else orig_path
    | None => orig_path
    end in
  if for_gdal && path_is_remote path then "/vsicurl/" +:+ path else path.

(** ** Exceptions *)

Inductive exn_class :=
  | ValueError | NotImplementedError | KeyError | OSError
  | GeneratorExit | KeyboardInterrupt.

Record exn := Exn { exn_cls : exn_class; exn_msg : string }.

(** [isinstance(e, Exception)]: [GeneratorExit] and [KeyboardInterrupt]
    derive from [BaseException] only. *)
Definition is_Exception (e : exn) : bool :=
  match exn_cls e with
  | GeneratorExit | KeyboardInterrupt => false
  | _ => true
  end.

(** ** Insertion-ordered dictionaries *)

Module OD.
Section odict.
Context {K V : Type} `{EqDecision K}.

Definition odict := list (K * V).

(** [d[k] = v] *)
Fixpoint set (k : K) (v : V) (d : odict) : odict :=
  match d with
  | [] => [(k, v)]
  | (k', v') :: d' =>
      if decide (k = k') then (k, v) :: d' else (k', v') :: set k v d'
  end.

(** [d.get(k)] *)
Fixpoint get (k : K) (d : odict) : option V :=
  match d with
  | [] => None
  | (k', v') :: d' => if decide (k = k') then Some v' else get k d'
  end.

(** [k in d.keys()] *)
Definition mem (k : K) (d : odict) : bool :=
  match get k d with Some _ => true | None => false end.

Definition keys (d : odict) : list K := d.*1.
Definition values (d : odict) : list V := d.*2.
End odict.
Arguments odict : clear implicits.
End OD.

(** ** Features, tiles and schemas *)

(** A property value of a feature. *)
Inductive Value := VStr (s : string) | VInt (n : Z) | VNone.

#[global] Instance Value_eq_dec : EqDecision Value.
Proof. solve_decision. Defined.

Definition CRS := string.

(** Coordinates are carried around and never computed with. *)
Definition Polygon := list (Z * Z).

Record Geometry := { gtype : string; coordinates : list (list (Z * Z)) }.

(** [shapely.geometry.mapping] of a polygon without holes. *)
Definition mapping (p : Polygon) : Geometry :=
  {| gtype := "Polygon"; coordinates := [p] |}.

(** A record of a vector file: [{"geometry": ..., "properties": {...}}]. *)
Record Feature := { geometry : Geometry; properties : OD.odict string Value }.

(** The tiles of the grid library: [tile.id] is the tuple
    [(zoom, row, col)]; [tile.bbox] is the bounding polygon in the CRS of
    the pyramid the tile belongs to. *)
Module Tile.
Record t := { zoom : Z; row : Z; col : Z; crs : CRS; bbox : Polygon }.
Definition id (tile : t) : Z * Z * Z := (zoom tile, row tile, col tile).
End Tile.

(** [str] of a tuple of three integers. *)
Definition str_id (i : Z * Z * Z) : string :=
  let '(z, r, c) := i in
  "(" +:+ Py.str_int z +:+ ", " +:+ Py.str_int r +:+ ", " +:+ Py.str_int c +:+ ")".

Record Schema := { schema_geometry : string; schema_properties : OD.odict string string }.

Definition spatial_schema : Schema :=
  {| schema_geometry := "Polygon";
     schema_properties :=
       [("tile_id", "str:254"); ("zoom", "int"); ("row", "int"); ("col", "int")] |}.

(** ** The outside world: file system and fiona *)

(** The files of the file system that hold features, by path. *)
Abbreviation FS := (gmap string (list Feature)).

(** What the environment decides: which paths are remote, and which file
    operations fail with which exception. *)
Record Env := {
  path_is_remote : string -> bool;
  read_fault : string -> option exn;             (* fiona.open(path) *)
  open_fault : string -> option exn;             (* fiona.open(path, "w", ...) *)
  write_fault : string -> Feature -> option exn; (* collection.write(record) *)
  close_fault : string -> option exn             (* collection.close() *)
}.

(** A collection opened for writing. *)
Record Collection := {
  c_path : string;
  c_driver : string;
  c_crs : CRS;
  c_schema : Schema;
  c_records : list Feature
}.

Definition c_append (c : Collection) (rs : list Feature) : Collection :=
  {| c_path := c_path c; c_driver := c_driver c; c_crs := c_crs c;
     c_schema := c_schema c; c_records := c_records c ++ rs |}.

(** [collection.writerecords(records)]: the first failing record stops it. *)
Fixpoint writerecords (env : Env) (c : Collection) (rs : list Feature) : exn + Collection :=
  match rs with
  | [] => inr c
  | r :: rs' =>
      match write_fault env (c_path c) r with
      | Some e => inl e
      | None => writerecords env (c_append c [r]) rs'
      end
  end.

(** ** The index writer *)

Module VectorFileWriter.

Record t := {
  path : string;
  driver : string;
  existing : OD.odict Value Feature;
  new_entries : nat;
  fieldname : string;
  file_obj : Collection
}.

(** [{f["properties"]["tile_id"]: f for f in src}]; a feature without a
    [tile_id] property raises [KeyError]. *)
Fixpoint load_existing (src : list Feature) (acc : OD.odict Value Feature)
    : exn + OD.odict Value Feature :=
  match src with
  | [] => inr acc
  | f :: src' =>
      match OD.get "tile_id" (properties f) with
      | None => inl (Exn KeyError "tile_id")
      | Some k => load_existing src' (OD.set k f acc)
      end
  end.

(** The schema of the file: the fixed one with [schema["properties"][fieldname] = "str:254"]. *)
Definition schema_for (fieldname : string) : Schema :=
  {| schema_geometry := schema_geometry spatial_schema;
     schema_properties := OD.set fieldname "str:254" (schema_properties spatial_schema) |}.

(** [VectorFileWriter(out_path=..., crs=..., fieldname=..., driver=...)].
    Returns the file system it leaves and the writer or the exception. *)
Definition __init__ (env : Env) (fs : FS)
    (out_path : string) (crs : CRS) (fieldname driver : string) : FS * (exn + t) :=
  if negb (bool_decide (driver ∈ ["GeoJSON"; "GPKG"]))
  then (fs, inl (Exn ValueError "only GeoJSON and GPKG are allowed"))
  else
    let loaded : FS * (exn + OD.odict Value Feature) :=
      match fs !! out_path with
      | Some feats =>                                  (* os.path.isfile *)
          match read_fault env out_path with
          | Some e => (fs, inl e)
          | None =>
              match load_existing feats [] with
              | inl e => (fs, inl e)
              | inr d => (delete out_path fs, inr d)   (* os.remove *)
              end
          end
      | None => (fs, inr [])
      end in
    match loaded with
    | (fs1, inl e) => (fs1, inl e)
    | (fs1, inr existing) =>
        match open_fault env out_path with
        | Some e => (fs1, inl e)
        | None =>
            let fs2 := <[out_path := []]> fs1 in
            let c := {| c_path := out_path; c_driver := driver; c_crs := crs;
                        c_schema := schema_for fieldname; c_records := [] |} in
            match writerecords env c (OD.values existing) with
            | inl e => (fs2, inl e)
            | inr c' =>
                (fs2, inr {| path := out_path; driver := driver;
                             existing := existing; new_entries := 0;
                             fieldname := fieldname; file_obj := c' |})
            end
        end
    end.

Definition __repr__ (self : t) : string :=
  "VectorFileWriter(" +:+ driver self +:+ ", " +:+ path self +:+ ")".

Definition entry_exists (self : t) (tile : Tile.t) : bool :=
  OD.mem (VStr (str_id (Tile.id tile))) (existing self).

(** The record [write] builds.  It is a dict display, so the entry for
    [self.fieldname], which comes last, replaces a fixed key of the same
    name. *)
Definition new_record (fieldname : string) (tile : Tile.t) (tile_path : string) : Feature :=
  {| geometry := mapping (Tile.bbox tile);
     properties :=
       OD.set fieldname (VStr tile_path)
         [("tile_id", VStr (str_id (Tile.id tile)));
          ("zoom", VStr (Py.str_int (Tile.zoom tile)));
          ("row", VStr (Py.str_int (Tile.row tile)));
          ("col", VStr (Py.str_int (Tile.col tile)))] |}.

Definition write (env : Env) (self : t) (tile : Tile.t) (tile_path : string) : exn + t :=
  if entry_exists self tile then inr self
  else
    let r := new_record (fieldname self) tile tile_path in
    match write_fault env (c_path (file_obj self)) r with
    | Some e => inl e
    | None =>
        inr {| path := path self; driver := driver self;
               existing := existing self;
               new_entries := new_entries self + 1;
               fieldname := fieldname self;
               file_obj := c_append (file_obj self) [r] |}
    end.

(** [self.file_obj.close()]: stores the buffered records at the path. *)
Definition close (env : Env) (fs : FS) (self : t) : FS * option exn :=
  match close_fault env (c_path (file_obj self)) with
  | Some e => (fs, Some e)
  | None => (<[c_path (file_obj self) := c_records (file_obj self)]> fs, None)
  end.

End VectorFileWriter.

Abbreviation Writer := VectorFileWriter.t.

(** ** The generator *)

(** What iterating [tiles_from_geom(...)] does: stop, produce a tile, or raise. *)
Inductive TileIter :=
  | it_stop
  | it_yield (tile : Tile.t) (rest : TileIter)
  | it_raise (e : exn).

(** The parts of the process object [mp] the generator uses. *)
Record Mapchete := {
  output_pyramid_crs : CRS;                      (* mp.config.output_pyramid.crs *)
  tiles_from_geom : Z -> exn + TileIter;         (* tiles_from_geom(area_at_zoom(zoom), zoom) *)
  output_get_path : Tile.t -> exn + string;      (* mp.config.output.get_path *)
  output_tiles_exist : Tile.t -> exn + bool      (* mp.config.output.tiles_exist *)
}.

Record Args := {
  mp : Mapchete;
  out_dir : string;
  zoom : Z;
  geojson : bool;
  gpkg : bool;
  txt : bool;
  vrt : bool;
  fieldname : string;
  basepath : option string;
  for_gdal : bool
}.

(** What an observer of the run sees. *)
Inductive Event :=
  | EvOpen (writer_path : string)                    (* a writer joined index_writers *)
  | EvWrite (writer_path : string) (tile : Tile.t) (tile_path : string)  (* index.write(tile, tile_path) *)
  | EvClose (writer_path : string)                   (* writer.close() was called *)
  | EvLogError (e : exn) (writer : string).          (* logger.error(...) *)

Inductive GenState :=
  | Created
  | Suspended (index_writers : list Writer) (it : TileIter)
  | Finished.

Inductive Outcome :=
  | Yield (tile : Tile.t)
  | StopIteration
  | Raise (e : exn).

(** [VectorFileWriter(driver=driver, out_path=_index_file_path(out_dir, zoom, ext),
    crs=mp.config.output_pyramid.crs, fieldname=fieldname)] *)
Definition new_writer (env : Env) (args : Args) (fs : FS) (driver ext : string)
    : FS * (exn + Writer) :=
  VectorFileWriter.__init__ env fs
    (_index_file_path (out_dir args) (zoom args) ext)
    (output_pyramid_crs (mp args)) (fieldname args) driver.

(** [if flag: index_writers.append(VectorFileWriter(...))] *)
Definition append_writer (env : Env) (args : Args) (flag : bool) (driver ext : string)
    (fs : FS) (index_writers : list Writer)
    : FS * list Writer * list Event * option exn :=
  if flag then
    match new_writer env args fs driver ext with
    | (fs', inl e) => (fs', index_writers, [], Some e)
    | (fs', inr w) =>
        (fs', index_writers ++ [w], [EvOpen (VectorFileWriter.path w)], None)
    end
  else (fs, index_writers, [], None).

(** Lines 85-99: the writers of the enabled formats, GeoJSON first. *)
Definition open_writers (env : Env) (args : Args) (fs : FS)
    : FS * list Writer * list Event * option exn :=
  let '(fs1, ws1, evs1, r1) :=
    append_writer env args (geojson args) "GeoJSON" "geojson" fs [] in
  match r1 with
  | Some e => (fs1, ws1, evs1, Some e)
  | None =>
      let '(fs2, ws2, evs2, r2) :=
        append_writer env args (gpkg args) "GPKG" "gpkg" fs1 ws1 in
      (fs2, ws2, evs1 ++ evs2, r2)
  end.

(** [for index in index_writers: index.write(tile, tile_path)] *)
Fixpoint write_all (env : Env) (ws : list Writer) (tile : Tile.t) (tile_path : string)
    : list Writer * list Event * option exn :=
  match ws with
  | [] => ([], [], None)
  | w :: ws' =>
      let ev := EvWrite (VectorFileWriter.path w) tile tile_path in
      match VectorFileWriter.write env w tile tile_path with
      | inl e => (w :: ws', [ev], Some e)
      | inr w' =>
          let '(ws'', evs, r) := write_all env ws' tile tile_path in
          (w' :: ws'', ev :: evs, r)
      end
  end.

(** The loop of the [finally] clause.  [except Exception] catches what
    derives from [Exception]; anything else leaves the loop. *)
Fixpoint close_all (env : Env) (fs : FS) (ws : list Writer)
    : FS * list Event * option exn :=
  match ws with
  | [] => (fs, [], None)
  | w :: ws' =>
      let ev := EvClose (VectorFileWriter.path w) in
      match VectorFileWriter.close env fs w with
      | (fs', None) =>
          let '(fs'', evs, r) := close_all env fs' ws' in
          (fs'', ev :: evs, r)
      | (fs', Some e) =>
          if is_Exception e then
            let '(fs'', evs, r) := close_all env fs' ws' in
            (fs'', ev :: EvLogError e (VectorFileWriter.__repr__ w) :: evs, r)
          else (fs', [ev], Some e)
      end
  end.

(** Leaving the [try] statement: the [finally] clause runs, then the
    exception in flight (if any) continues unless the clause raised itself;
    without one the generator returns. *)
Definition finally_ (env : Env) (fs : FS) (ws : list Writer) (in_flight : option exn)
    : FS * GenState * list Event * Outcome :=
  let '(fs', evs, r) := close_all env fs ws in
  (fs', Finished, evs,
   match r, in_flight with
   | Some e', _ => Raise e'
   | None, Some e => Raise e
   | None, None => StopIteration
   end).

Definition prepend (evs : list Event) (r : FS * GenState * list Event * Outcome)
    : FS * GenState * list Event * Outcome :=
  let '(fs, st, evs', o) := r in (fs, st, evs ++ evs', o).

(** One round of the [for] loop, from asking the tile iterator for its next
    item up to the [yield]. *)
Definition resume (env : Env) (args : Args) (fs : FS) (ws : list Writer) (it : TileIter)
    : FS * GenState * list Event * Outcome :=
  match it with
  | it_stop => finally_ env fs ws None
  | it_raise e => finally_ env fs ws (Some e)
  | it_yield tile rest =>
      match output_get_path (mp args) tile with
      | inl e => finally_ env fs ws (Some e)
      | inr orig_path =>
          let tile_path :=
            _tile_path (path_is_remote env) orig_path (basepath args) (for_gdal args) in
          match output_tiles_exist (mp args) tile with
          | inl e => finally_ env fs ws (Some e)
          | inr false => (fs, Suspended ws rest, [], Yield tile)
          | inr true =>
              let '(ws', evs, r) := write_all env ws tile tile_path in
              match r with
              | Some e => prepend evs (finally_ env fs ws' (Some e))
              | None => (fs, Suspended ws' rest, evs, Yield tile)
              end
          end
      end
  end.

(** Calling [zoom_index_gen(...)] builds the generator object and runs none
    of the body. *)
Definition zoom_index_gen (args : Args) (fs : FS) : FS * GenState := (fs, Created).

(** [next(gen)] *)
Definition next (env : Env) (args : Args) (fs : FS) (st : GenState)
    : FS * GenState * list Event * Outcome :=
  match st with
  | Created =>
      if negb (Py.any [geojson args; gpkg args; vrt args])
      then (fs, Finished, [],
            Raise (Exn ValueError "one of 'geojson', 'gpkg' or 'vrt' must be provided"))
      else if vrt args
      then (fs, Finished, [],
            Raise (Exn NotImplementedError "writing VRTs is not yet enabled"))
      else
        let '(fs1, ws, evs, r) := open_writers env args fs in
        match r with
        | Some e => prepend evs (finally_ env fs1 ws (Some e))
        | None =>
            match tiles_from_geom (mp args) (zoom args) with
            | inl e => prepend evs (finally_ env fs1 ws (Some e))
            | inr it => prepend evs (resume env args fs1 ws it)
            end
        end
  | Suspended ws it => resume env args fs ws it
  | Finished => (fs, Finished, [], StopIteration)
  end.

(** [gen.close()], also what dropping the last reference to a suspended
    generator does: [GeneratorExit] is raised at the [yield]; it is not
    caught by the body, so the [finally] clause runs and [close] returns,
    unless the clause let another exception out. *)
Definition gen_close (env : Env) (fs : FS) (st : GenState)
    : FS * GenState * list Event * option exn :=
  match st with
  | Created | Finished => (fs, Finished, [], None)
  | Suspended ws _ =>
      match finally_ env fs ws (Some (Exn GeneratorExit "")) with
      | (fs', st', evs, Raise e) =>
          (fs', st', evs,
           match exn_cls e with GeneratorExit => None | _ => Some e end)
      | (fs', st', evs, _) => (fs', st', evs, None)
      end
  end.

(** ** Consumers *)

(** [for tile in gen: ...] to the end: the tiles received, and how the
    iteration ended ([None]: normally).  [fuel] bounds the number of
    [next] calls. *)
Fixpoint drain (fuel : nat) (env : Env) (args : Args) (fs : FS) (st : GenState)
    : option (FS * GenState * list Event * list Tile.t * option exn) :=
  match fuel with
  | 0 => None
  | S fuel' =>
      match next env args fs st with
      | (fs', st', evs, Yield tile) =>
          match drain fuel' env args fs' st' with
          | Some (fs'', st'', evs', tiles, r) =>
              Some (fs'', st'', evs ++ evs', tile :: tiles, r)
          | None => None
          end
      | (fs', st', evs, StopIteration) => Some (fs', st', evs, [], None)
      | (fs', st', evs, Raise e) => Some (fs', st', evs, [], Some e)
      end
  end.

(** A complete run: call the generator function and iterate to the end. *)
Definition run (fuel : nat) (env : Env) (args : Args) (fs : FS) :=
  let '(fs0, st0) := zoom_index_gen args fs in drain fuel env args fs0 st0.




(** The writers a trace saw opened, and those it saw closed, in order. *)
Definition opened (evs : list Event) : list string :=
  omap (fun ev => match ev with EvOpen p => Some p | _ => None end) evs.

Definition closed (evs : list Event) : list string :=
  omap (fun ev => match ev with EvClose p => Some p | _ => None end) evs.

Definition writes (evs : list Event) : list (string * Tile.t * string) :=
  omap (fun ev => match ev with EvWrite p t tp => Some (p, t, tp) | _ => None end) evs.

Definition log_errors (evs : list Event) : list (exn * string) :=
  omap (fun ev => match ev with EvLogError e w => Some (e, w) | _ => None end) evs.

(** The tiles an iterator produces, when it does not raise. *)
Fixpoint tiles_of (it : TileIter) : option (list Tile.t) :=
  match it with
  | it_stop => Some []
  | it_yield tile rest => cons tile <$> tiles_of rest
  | it_raise _ => None
  end.

Fixpoint of_tiles (l : list Tile.t) : TileIter :=
  match l with
  | [] => it_stop
  | tile :: l' => it_yield tile (of_tiles l')
  end.

(** ** Notions used to state the properties *)

(** A path segment: a string without a slash. *)
Definition segment (s : string) : Prop := Py.split "/"%char s = [s].

(** The trailing [<zoom>/<row>/<col>.<ext>] part of a canonical tile path. *)
Definition tail3 (z r c : string) : string := z +:+ "/" +:+ r +:+ "/" +:+ c.

(** A canonical tile path: the three trailing segments, the first one not
    empty, possibly below a directory. *)
Definition canonical (orig_path z r c : string) : Prop :=
  segment z /\ segment r /\ segment c /\ z <> "" /\
  (orig_path = tail3 z r c \/ exists dir, orig_path = dir +:+ "/" +:+ tail3 z r c).

(** [base] with everything but the trailing part of the path replaced. *)
Definition rebased (base z r c : string) : string :=
  base +:+ (if Py.endswith base "/"%char then "" else "/") +:+ tail3 z r c.

(** The [tile_id] property of a stored feature, and a tile's id as the
    writer stores and looks it up. *)
Definition tile_id_of (f : Feature) : option Value := OD.get "tile_id" (properties f).

Definition tile_key (tile : Tile.t) : Value := VStr (str_id (Tile.id tile)).

(** The features of the file at a path ([[]] when there is none). *)
Definition content (fs : FS) (p : string) : list Feature := default [] (fs !! p).

(** The names of the fixed fields of the schema. *)
Definition fixed_fields : list string := OD.keys (schema_properties spatial_schema).

(** ** Example data *)

Definition env_ok : Env :=
  {| path_is_remote := fun s => String.prefix "http://" s || String.prefix "https://" s;
     read_fault := fun _ => None;
     open_fault := fun _ => None;
     write_fault := fun _ _ => None;
     close_fault := fun _ => None |}.

Definition square (x y : Z) : Polygon :=
  [(x, y); (x + 1, y); (x + 1, y + 1); (x, y + 1); (x, y)]%Z.

Definition tile_at (r c : Z) : Tile.t :=
  {| Tile.zoom := 5; Tile.row := r; Tile.col := c;
     Tile.crs := "EPSG:4326"; Tile.bbox := square c r |}.

Definition tile_path_of (tile : Tile.t) : string :=
  "/out/" +:+ Py.str_int (Tile.zoom tile) +:+ "/" +:+ Py.str_int (Tile.row tile)
  +:+ "/" +:+ Py.str_int (Tile.col tile) +:+ ".tif".

(** A process whose area covers four tiles of zoom 5, three with output. *)
Definition has_output (tile : Tile.t) : bool :=
  negb (bool_decide (Tile.id tile = (5, 1, 1)%Z)).

Definition four_tiles : list Tile.t :=
  [tile_at 0 0; tile_at 0 1; tile_at 1 0; tile_at 1 1].

Definition mp_ex : Mapchete :=
  {| output_pyramid_crs := "EPSG:4326";
     tiles_from_geom := fun _ => inr (of_tiles four_tiles);
     output_get_path := fun tile => inr (tile_path_of tile);
     output_tiles_exist := fun tile => inr (has_output tile) |}.

Definition args_ex : Args :=
  {| mp := mp_ex; out_dir := "/out"; zoom := 5;
     geojson := true; gpkg := false; txt := false; vrt := false;
     fieldname := "location"; basepath := None; for_gdal := true |}.

(** ** Notions about snapshots and artifacts *)

(** Every feature carries a [tile_id]; no two features share one. *)
Definition has_ids (feats : list Feature) : Prop :=
  Forall (fun f => is_Some (tile_id_of f)) feats.

Definition distinct_ids (feats : list Feature) : Prop :=
  NoDup (tile_id_of <$> feats).

(** A snapshot as [__init__] builds it: every record is filed under its own
    [tile_id], and keys do not repeat. *)
Definition snapshot_wf (d : OD.odict Value Feature) : Prop :=
  NoDup (OD.keys d) /\ forall k f, (k, f) ∈ d -> tile_id_of f = Some k.

(** What [write] leaves when the file accepts the record. *)
Definition write_ok (self : Writer) (tile : Tile.t) (tile_path : string) : Writer :=
  if VectorFileWriter.entry_exists self tile then self
  else
    {| VectorFileWriter.path := VectorFileWriter.path self;
       VectorFileWriter.driver := VectorFileWriter.driver self;
       VectorFileWriter.existing := VectorFileWriter.existing self;
       VectorFileWriter.new_entries := VectorFileWriter.new_entries self + 1;
       VectorFileWriter.fieldname := VectorFileWriter.fieldname self;
       VectorFileWriter.file_obj :=
         c_append (VectorFileWriter.file_obj self)
           [VectorFileWriter.new_record (VectorFileWriter.fieldname self) tile tile_path] |}.

(** Successive [write] calls on one writer; the first exception ends them. *)
Fixpoint write_seq (env : Env) (self : Writer) (offers : list (Tile.t * string))
    : exn + Writer :=
  match offers with
  | [] => inr self
  | (tile, tile_path) :: rest =>
      match VectorFileWriter.write env self tile tile_path with
      | inl e => inl e
      | inr self' => write_seq env self' rest
      end
  end.

Definition feed (self : Writer) (offers : list (Tile.t * string)) : Writer :=
  foldl (fun w o => write_ok w o.1 o.2) self offers.

(** The records of the artifact a writer holds, and whether one of them
    carries the id of a tile. *)
Definition records (self : Writer) : list Feature :=
  c_records (VectorFileWriter.file_obj self).

Definition in_artifact (self : Writer) (tile : Tile.t) : Prop :=
  Some (tile_key tile) ∈ tile_id_of <$> records self.

(** The record of a tile as the specification words it, for a given
    reprojection of polygons between reference systems. *)
Definition reproject_if_needed (reproject : CRS -> CRS -> Polygon -> Polygon)
    (src dst : CRS) (p : Polygon) : Polygon :=
  if decide (src = dst) then p else reproject src dst p.

Definition record_as_specified (reproject : CRS -> CRS -> Polygon -> Polygon)
    (self : Writer) (tile : Tile.t) (tile_path : string) (r : Feature) : Prop :=
  geometry r =
    mapping (reproject_if_needed reproject (Tile.crs tile)
               (c_crs (VectorFileWriter.file_obj self)) (Tile.bbox tile)) /\
  OD.get "tile_id" (properties r) = Some (VStr (str_id (Tile.id tile))) /\
  OD.get "zoom" (properties r) = Some (VStr (Py.str_int (Tile.zoom tile))) /\
  OD.get "row" (properties r) = Some (VStr (Py.str_int (Tile.row tile))) /\
  OD.get "col" (properties r) = Some (VStr (Py.str_int (Tile.col tile))) /\
  OD.get (VectorFileWriter.fieldname self) (properties r) = Some (VStr tile_path).

(** A reprojection that is not the identity: it swaps the axes. *)
Definition swap_axes (src dst : CRS) (p : Polygon) : Polygon :=
  (fun xy => (xy.2, xy.1)) <$> p.

(** A writer on a new file, as [__init__] builds it. *)
Definition writer_ex (crs : CRS) (fieldname : string) : Writer :=
  {| VectorFileWriter.path := "/out/5.geojson";
     VectorFileWriter.driver := "GeoJSON";
     VectorFileWriter.existing := [];
     VectorFileWriter.new_entries := 0;
     VectorFileWriter.fieldname := fieldname;
     VectorFileWriter.file_obj :=
       {| c_path := "/out/5.geojson"; c_driver := "GeoJSON"; c_crs := crs;
          c_schema := VectorFileWriter.schema_for fieldname; c_records := [] |} |}.

(** An index of an earlier run: tile (5, 0, 0), stored under another path. *)
Definition old_feature : Feature :=
  VectorFileWriter.new_record "location" (tile_at 0 0) "/elsewhere/5/0/0.tif".

Definition fs_old : FS := {[ "/out/5.geojson" := [old_feature] ]}.

(** The writer [__init__] builds over that index. *)
Definition writer_old : Writer :=
  {| VectorFileWriter.path := "/out/5.geojson";
     VectorFileWriter.driver := "GeoJSON";
     VectorFileWriter.existing := [(tile_key (tile_at 0 0), old_feature)];
     VectorFileWriter.new_entries := 0;
     VectorFileWriter.fieldname := "location";
     VectorFileWriter.file_obj :=
       {| c_path := "/out/5.geojson"; c_driver := "GeoJSON"; c_crs := "EPSG:4326";
          c_schema := VectorFileWriter.schema_for "location";
          c_records := [old_feature] |} |}.


(** The log entries the [finally] clause writes for a list of writers: one
    for each writer whose [close] fails. *)
Definition close_failures (env : Env) (ws : list Writer) : list (exn * string) :=
  omap (fun w => (fun e => (e, VectorFileWriter.__repr__ w))
                   <$> close_fault env (c_path (VectorFileWriter.file_obj w))) ws.


Definition args_both : Args :=
  {| mp := mp_ex; out_dir := "/out"; zoom := 5;
     geojson := true; gpkg := true; txt := false; vrt := false;
     fieldname := "location"; basepath := None; for_gdal := true |}.

Definition args_none : Args :=
  {| mp := mp_ex; out_dir := "/out"; zoom := 5;
     geojson := false; gpkg := false; txt := true; vrt := false;
     fieldname := "location"; basepath := None; for_gdal := true |}.

Definition args_vrt : Args :=
  {| mp := mp_ex; out_dir := "/out"; zoom := 5;
     geojson := true; gpkg := true; txt := false; vrt := true;
     fieldname := "location"; basepath := None; for_gdal := true |}.

(** The offers a run makes to its writers: the tiles with output, each with
    its resolved path, in the order of the enumeration. *)
Definition resolved (env : Env) (args : Args) (gp : Tile.t -> string) (tile : Tile.t) : string :=
  _tile_path (path_is_remote env) (gp tile) (basepath args) (for_gdal args).

Definition offers_of (env : Env) (args : Args) (gp : Tile.t -> string)
    (ex : Tile.t -> bool) (tiles : list Tile.t) : list (Tile.t * string) :=
  (fun tile => (tile, resolved env args gp tile)) <$> List.filter ex tiles.

(** The [write] calls of the loop, for writers at the paths [ps]. *)
Definition loop_writes (env : Env) (args : Args) (gp : Tile.t -> string)
    (ex : Tile.t -> bool) (ps : list string) (tiles : list Tile.t)
    : list (string * Tile.t * string) :=
  tiles ≫= fun tile =>
    if ex tile then (fun p => (p, tile, resolved env args gp tile)) <$> ps else [].

(** The process answers for these tiles, without raising. *)
Definition answers (m : Mapchete) (gp : Tile.t -> string) (ex : Tile.t -> bool)
    (tiles : list Tile.t) : Prop :=
  Forall (fun tile => output_get_path m tile = inr (gp tile) /\
                      output_tiles_exist m tile = inr (ex tile)) tiles.

(** The paths of the index files of a run, GeoJSON first. *)
Definition index_paths (args : Args) : list string :=
  (if geojson args then [_index_file_path (out_dir args) (zoom args) "geojson"] else [])
  ++ (if gpkg args then [_index_file_path (out_dir args) (zoom args) "gpkg"] else []).

(** No file operation fails. *)
Definition no_faults (env : Env) : Prop :=
  (forall p, read_fault env p = None) /\
  (forall p, open_fault env p = None) /\
  (forall p r, write_fault env p r = None) /\
  (forall p, close_fault env p = None).

(** A writer as [__init__] leaves it, for the arguments of a run. *)
Definition opened_on (args : Args) (fs : FS) (w : Writer) : Prop :=
  c_path (VectorFileWriter.file_obj w) = VectorFileWriter.path w /\
  VectorFileWriter.fieldname w = fieldname args /\
  records w = OD.values (VectorFileWriter.existing w) /\
  VectorFileWriter.load_existing (content fs (VectorFileWriter.path w)) []
    = inr (VectorFileWriter.existing w).

(** The file system after every writer has stored its records. *)
Definition stored (fs : FS) (ws : list Writer) : FS :=
  foldl (fun fs w => <[c_path (VectorFileWriter.file_obj w) := records w]> fs) fs ws.

Definition args_tile_id : Args :=
  {| mp := mp_ex; out_dir := "/out"; zoom := 5;
     geojson := true; gpkg := false; txt := false; vrt := false;
     fieldname := "tile_id"; basepath := None; for_gdal := true |}.

(** An index of an earlier run that holds one tile outside the area of
    [mp_ex]. *)
Definition fs_other : FS :=
  {[ "/out/5.geojson" :=
       [VectorFileWriter.new_record "location" (tile_at 2 2) "/out/5/2/2.tif"] ]}.


(** ** Notions used for further properties of the module *)

(** The last feature of a file that carries the id [k]. *)
Fixpoint last_with (k : Value) (feats : list Feature) : option Feature :=
  match feats with
  | [] => None
  | f :: rest =>
      match last_with k rest with
      | Some g => Some g
      | None => if decide (tile_id_of f = Some k) then Some f else None
      end
  end.

(** An index with two records for tile (5, 0, 0). *)
Definition fs_dup : FS :=
  {[ "/out/5.geojson" :=
       [old_feature;
        VectorFileWriter.new_record "location" (tile_at 0 1) "/out/5/0/1.tif";
        VectorFileWriter.new_record "location" (tile_at 0 0) "/out/5/0/0.tif"] ]}.

(** A file that is not an index: a layer without a [tile_id] field. *)
Definition foreign_feature (n : Z) : Feature :=
  {| geometry := mapping (square n 0); properties := [("name", VStr "parcel"); ("nr", VInt n)] |}.

Definition fs_foreign : FS :=
  {[ "/out/5.geojson" := [foreign_feature 1; foreign_feature 2] ]}.

(** An environment in which the GeoJSON index cannot be read. *)
Definition env_read_fails : Env :=
  {| path_is_remote := path_is_remote env_ok;
     read_fault := fun p =>
       if decide (p = "/out/5.geojson") then Some (Exn OSError "corrupt") else None;
     open_fault := fun _ => None;
     write_fault := fun _ _ => None;
     close_fault := fun _ => None |}.


(** The arguments of a run with another value for the [txt] flag. *)
Definition with_txt (b : bool) (args : Args) : Args :=
  {| mp := mp args; out_dir := out_dir args; zoom := zoom args;
     geojson := geojson args; gpkg := gpkg args; txt := b; vrt := vrt args;
     fieldname := fieldname args; basepath := basepath args;
     for_gdal := for_gdal args |}.

(** An enumeration that produces some tiles and goes on as [rest]. *)
Fixpoint tiles_then (tiles : list Tile.t) (rest : TileIter) : TileIter :=
  match tiles with
  | [] => rest
  | tile :: tiles' => it_yield tile (tiles_then tiles' rest)
  end.

(** A process whose enumeration fails after two tiles. *)
Definition mp_breaks : Mapchete :=
  {| output_pyramid_crs := "EPSG:4326";
     tiles_from_geom := fun _ =>
       inr (tiles_then [tile_at 0 0; tile_at 0 1] (it_raise (Exn OSError "grid")));
     output_get_path := fun tile => inr (tile_path_of tile);
     output_tiles_exist := fun tile => inr (has_output tile) |}.

Definition args_breaks : Args :=
  {| mp := mp_breaks; out_dir := "/out"; zoom := 5;
     geojson := true; gpkg := false; txt := false; vrt := false;
     fieldname := "location"; basepath := None; for_gdal := true |}.

(** * mapchete.formats and mapchete.cli.default.convert *)

(** ** More Python primitives *)

Module PyOs.

(** [s.rfind(c)] for a one-character argument: the last index of [c], or -1. *)
Fixpoint rfind_from (c : ascii) (s : string) (i last : Z) : Z :=
  match s with
  | EmptyString => last
  | String a s' => rfind_from c s' (i + 1) (if decide (a = c) then i else last)
  end.

Definition rfind (s : string) (c : ascii) : Z := rfind_from c s 0 (-1).

(** [s[:n]] and [s[n:]] for [0 <= n]. *)
Fixpoint str_take (n : nat) (s : string) : string :=
  match n, s with
  | S n', String a s' => String a (str_take n' s')
  | _, _ => EmptyString
  end.

Fixpoint str_drop (n : nat) (s : string) : string :=
  match n, s with
  | S n', String _ s' => str_drop n' s'
  | _, _ => s
  end.

(** [s[i:i+1] != "."] *)
Definition not_dot_at (s : string) (i : Z) : bool :=
  match String.get (Z.to_nat i) s with
  | Some a => negb (bool_decide (a = "."%char))
  | None => true
  end.

(** [os.path.splitext(p)] (posixpath): the extension starts at the last
    dot, when that dot comes after the last slash and after a character of
    the file name that is not a dot. *)
Definition splitext (p : string) : string * string :=
  let sepIndex := rfind p "/" in
  let dotIndex := rfind p "." in
  if bool_decide (sepIndex < dotIndex)%Z
     && existsb (not_dot_at p) (seqZ (sepIndex + 1) (dotIndex - (sepIndex + 1)))
  then (str_take (Z.to_nat dotIndex) p, str_drop (Z.to_nat dotIndex) p)
  else (p, EmptyString).

End PyOs.

(** ** The driver registry of mapchete.formats *)

Module Formats.

(** The exceptions of these modules; [Raised] is whatever loading an entry
    point raises. *)
Inductive error :=
  | MapcheteDriverError (msg : string)
  | TypeError (msg : string)
  | IndexError
  | KeyError (key : string)
  | Raised (e : exn).

(** The [METADATA] dict of a driver module, with the keys these functions
    read (strings and a list of strings); [None] is a missing key. *)
Record Metadata := {
  driver_name : option string;
  file_extensions : option (list string);
  mode : option string
}.

(** A loaded driver module: its [METADATA], if it has one, and whether it
    has the classes the loaders ask for. *)
Record Driver := {
  METADATA : option Metadata;
  OutputDataReader : bool;
  OutputDataWriter : bool;
  InputData : bool
}.

(** What [v.load()] gives for the entry points, in the order of
    [pkg_resources.iter_entry_points]. *)
Abbreviation EntryPoints := (list (exn + Driver)).

Abbreviation Table := (OD.odict string (list string)).

(** The loop over [metadata["file_extensions"]].  For an extension that is
    in the table, [_FILE_EXT_TO_DRIVER[ext] + driver_name] adds a string to
    a list: that raises [TypeError], which the [except Exception: pass]
    around the loop swallows, and the loop is over. *)
Fixpoint register (name : string) (exts : list string) (t : Table) : Table :=
  match exts with
  | [] => t
  | ext :: rest =>
      if OD.mem ext t then t
      else register name rest (OD.set ext [name] t)
  end.

(** The [try] statement for one driver; a missing key is swallowed too. *)
Definition register_driver (d : Driver) (t : Table) : Table :=
  match METADATA d with
  | None => t
  | Some m =>
      match driver_name m with
      | None => t
      | Some name =>
          match file_extensions m with
          | None => t
          | Some exts => register name exts t
          end
      end
  end.

(** The loop over the entry points; loading is outside the [try]. *)
Fixpoint scan (eps : EntryPoints) (t : Table) : Table * option exn :=
  match eps with
  | [] => (t, None)
  | inl e :: _ => (t, Some e)
  | inr d :: rest => scan rest (register_driver d t)
  end.

(** [_file_ext_to_driver()]: the global [_FILE_EXT_TO_DRIVER] before the
    call is [cache]; the result is the global after the call and what the
    call returns or raises. *)
Definition _file_ext_to_driver (eps : EntryPoints) (cache : Table) : Table * (error + Table) :=
  match cache with
  | _ :: _ => (cache, inr cache)
  | [] =>
      match scan eps [] with
      | (t, Some e) => (t, inl (Raised e))
      | ([], None) => ([], inl (MapcheteDriverError "no drivers could be found"))
      | (t, None) => (t, inr t)
      end
  end.

(** [driver_from_file(input_file)]; the boolean tells whether the warning
    about more than one driver was issued. *)
Definition driver_from_file (eps : EntryPoints) (cache : Table) (input_file : string)
    : Table * (error + string * bool) :=
  match Py.split "." (PyOs.splitext input_file).2 with
  | _ :: file_ext :: _ =>
      match _file_ext_to_driver eps cache with
      | (c1, inl e) => (c1, inl e)
      | (c1, inr t1) =>
          if negb (OD.mem file_ext t1)
          then (c1, inl (MapcheteDriverError
                           ("no driver could be found for file extension " +:+ file_ext)))
          else
            match _file_ext_to_driver eps c1 with
            | (c2, inl e) => (c2, inl e)
            | (c2, inr t2) =>
                match OD.get file_ext t2 with
                | None => (c2, inl (KeyError file_ext))
                | Some [] => (c2, inl IndexError)
                | Some (d0 :: ds) => (c2, inr (d0, bool_decide (1 < length (d0 :: ds))))
                end
            end
      end
  | _ => (cache, inl IndexError)
  end.

(** [available_output_formats()] and [available_input_formats()]: the
    names of the drivers whose mode is among [modes]. *)
Fixpoint available_formats (modes : list string) (eps : EntryPoints) (acc : list string)
    : error + list string :=
  match eps with
  | [] => inr acc
  | inl e :: _ => inl (Raised e)
  | inr d :: rest =>
      match METADATA d with
      | None => available_formats modes rest acc
      | Some m =>
          match mode m with
          | None => inl (KeyError "mode")
          | Some md =>
              if bool_decide (md ∈ modes)
              then match driver_name m with
                   | None => inl (KeyError "driver_name")
                   | Some name => available_formats modes rest (acc ++ [name])
                   end
              else available_formats modes rest acc
          end
      end
  end.

Definition available_output_formats (eps : EntryPoints) : error + list string :=
  available_formats ["w"; "rw"] eps [].

Definition available_input_formats (eps : EntryPoints) : error + list string :=
  available_formats ["r"; "rw"] eps [].

End Formats.

(** ** mapchete.cli.default.convert *)

Module Convert.

Record OutputInfo := { type : string; driver : option string }.

(** [_get_output_info(output)] *)
Definition _get_output_info (output : string) : Formats.error + OutputInfo :=
  let file_ext := (PyOs.splitext output).2 in
  if negb (Py.truthy file_ext)
  then inr {| type := "TileDirectory"; driver := None |}
  else if decide (file_ext = ".tif")
  then inr {| type := "SingleFile"; driver := Some "GTiff" |}
  else inl (Formats.TypeError "Output file extension not recognized: %s").

End Convert.

(** ** Notions and example data for the registry *)

(** A file name: its last character-run has no slash, and [c] is one of its
    characters other than a dot. *)
Definition char_free (c : ascii) (s : string) : Prop := Py.split c s = [s].

Definition gtiff_driver : Formats.Driver :=
  {| Formats.METADATA :=
       Some {| Formats.driver_name := Some "GTiff";
               Formats.file_extensions := Some ["tif"; "tiff"];
               Formats.mode := Some "rw" |};
     Formats.OutputDataReader := true; Formats.OutputDataWriter := true;
     Formats.InputData := true |}.

Definition raster_file_driver : Formats.Driver :=
  {| Formats.METADATA :=
       Some {| Formats.driver_name := Some "raster_file";
               Formats.file_extensions := Some ["vrt"; "tif"; "jp2"];
               Formats.mode := Some "r" |};
     Formats.OutputDataReader := false; Formats.OutputDataWriter := false;
     Formats.InputData := true |}.

Definition plain_module : Formats.Driver :=
  {| Formats.METADATA := None;
     Formats.OutputDataReader := false; Formats.OutputDataWriter := false;
     Formats.InputData := false |}.

Definition eps_ex : Formats.EntryPoints :=
  [inr plain_module; inr gtiff_driver; inr raster_file_driver].

(** ** Output parameters (mapchete.formats) *)

Module FormatsParams.

(** The values of a parameter dict: strings, integers, [None] and nested
    dicts. *)
#[warnings="-register-all"] Inductive value :=
  | Str (s : string)
  | Int (n : Z)
  | NoneValue
  | Dict (items : list (string * value)).

Section params.
(** [pyramid_dict grid tile_size metatiling pixelbuffer] is
    [BufferedTilePyramid(grid=..., tile_size=..., metatiling=...,
    pixelbuffer=...).to_dict()], or what it raises. *)
Context (pyramid_dict : value -> value -> value -> value -> Formats.error + value).

(** The keys [params_to_dump] leaves out of the driver part. *)
Definition not_dumped : list string := ["path"; "grid"; "pixelbuffer"; "metatiling"].

(** [params_to_dump(params)]: the pair of the values under ["pyramid"] and
    ["driver"]. *)
Definition params_to_dump (params : OD.odict string value)
    : Formats.error + (value * OD.odict string value) :=
  match OD.get "grid" params with
  | None => inl (Formats.KeyError "grid")
  | Some grid =>
      match pyramid_dict grid
              (default (Int 256) (OD.get "tile_size" params))
              (default (Int 1) (OD.get "metatiling" params))
              (default (Int 0) (OD.get "pixelbuffer" params)) with
      | inl e => inl e
      | inr pyramid =>
          inr (pyramid,
               List.filter (fun kv => negb (bool_decide (kv.1 ∈ not_dumped))) params)
      end
  end.
End params.

(** A stand-in for the pyramid that records what it was built from. *)
Definition pyramid_of_args (grid tile_size metatiling pixelbuffer : value)
    : Formats.error + value :=
  inr (Dict [("grid", grid); ("tile_size", tile_size);
             ("metatiling", metatiling); ("pixelbuffer", pixelbuffer)]).

Definition params_ex : OD.odict string value :=
  [("path", Str "/out"); ("format", Str "GTiff"); ("grid", Str "geodetic");
   ("tile_size", Int 512); ("bands", Int 3)].

End FormatsParams.

(** Every entry point loads, and a [METADATA] has a mode and a name. *)
Definition well_formed_drivers (eps : Formats.EntryPoints) : Prop :=
  Forall (fun ep =>
            match ep with
            | inl _ => False
            | inr d =>
                match Formats.METADATA d with
                | None => True
                | Some m => is_Some (Formats.mode m) /\ is_Some (Formats.driver_name m)
                end
            end) eps.

(** The names of the drivers whose mode is among [modes]. *)
Definition names_with_mode (modes : list string) (eps : Formats.EntryPoints) : list string :=
  omap (fun ep =>
          match ep with
          | inl _ => None
          | inr d =>
              m ← Formats.METADATA d;
              md ← Formats.mode m;
              if bool_decide (md ∈ modes) then Formats.driver_name m else None
          end) eps.

(** * Properties *)

(** ** Strings and paths *)

#[local] Arguments String.append !s1 s2 : simpl nomatch.

Lemma string_app_assoc (a b c : string) : (a +:+ b) +:+ c = a +:+ (b +:+ c).
Proof. induction a as [|x a IH]; simpl; [done | by rewrite IH]. Qed.

Lemma split_nonempty c s : Py.split c s <> [].
Proof.
  destruct s as [|a s]; simpl; [done |].
  destruct (decide (a = c)); [done |].
  by destruct (Py.split c s).
Qed.

Lemma split_app_sep c p q :
  Py.split c (p +:+ String c q) = Py.split c p ++ Py.split c q.
Proof.
  induction p as [|a p IH]; simpl.
  - by rewrite decide_True.
  - destruct (decide (a = c)); [by rewrite IH |].
    rewrite IH. pose proof (split_nonempty c p).
    by destruct (Py.split c p).
Qed.

Lemma segment_head a s : segment (String a s) -> a <> "/"%char.
Proof.
  unfold segment. simpl. intros H ->.
  rewrite decide_True in H by done.
  injection H as H. by apply (split_nonempty "/"%char s).
Qed.

Lemma split_tail3 z r c :
  segment z -> segment r -> segment c ->
  Py.split "/"%char (tail3 z r c) = [z; r; c].
Proof.
  unfold segment, tail3. intros Hz Hr Hc. simpl.
  rewrite split_app_sep, Hz. simpl.
  by rewrite split_app_sep, Hr, Hc.
Qed.

Lemma last_3_app {A} (l : list A) x y z : Py.last_n 3 (l ++ [x; y; z]) = [x; y; z].
Proof.
  unfold Py.last_n. rewrite length_app. simpl.
  replace (length l + 3 - 3) with (length l) by lia.
  apply drop_app_length.
Qed.

Lemma canonical_tail orig_path z r c :
  canonical orig_path z r c ->
  Py.join "/" (Py.last_n 3 (Py.split "/"%char orig_path)) = tail3 z r c.
Proof.
  intros (Hz & Hr & Hc & _ & [-> | [dir ->]]).
  - by rewrite split_tail3.
  - simpl. rewrite split_app_sep, split_tail3 by done.
    by rewrite last_3_app.
Qed.

Lemma join_rebased base z r c :
  segment z -> z <> "" -> Py.truthy base = true ->
  Py.os_path_join base (tail3 z r c) = rebased base z r c.
Proof.
  intros Hz Hne Hb. unfold Py.os_path_join, rebased.
  destruct z as [|a z]; [done |].
  apply segment_head in Hz. simpl.
  rewrite bool_decide_false by done. rewrite Hb. simpl.
  by destruct (Py.endswith base "/").
Qed.

(** C9.  [_tile_path] is a function of its arguments.  For a canonical
    path, a given base path (a non-empty string) takes the place of
    everything but the last three slash-separated segments; the result gets
    the prefix "/vsicurl/" exactly when [for_gdal] is set and the path,
    after the replacement, is remote, and is that path otherwise. *)
Theorem tile_path_resolution
    (remote : string -> bool) (orig_path z r c : string)
    (basepath : option string) (for_gdal : bool) :
  canonical orig_path z r c ->
  let path :=
    match basepath with
    | Some base => if Py.truthy base then rebased base z r c else orig_path
    | None => orig_path
    end in
  _tile_path remote orig_path basepath for_gdal =
    if for_gdal && remote path then "/vsicurl/" +:+ path else path.
Proof.
  intros Hc. unfold _tile_path.
  destruct basepath as [base|]; [|done].
  destruct (Py.truthy base) eqn:Hb; [|done].
  rewrite (canonical_tail _ _ _ _ Hc).
  destruct Hc as (Hz & _ & _ & Hne & _).
  by rewrite join_rebased.
Qed.

Lemma tile_path_resolution_witness :
  canonical "/out/5/3/7.tif" "5" "3" "7.tif" /\
  _tile_path (String.prefix "http://") "/out/5/3/7.tif" (Some "http://host/base") true
  = "/vsicurl/http://host/base/5/3/7.tif".
Proof.
  assert (H : canonical "/out/5/3/7.tif" "5" "3" "7.tif").
  { repeat split; try reflexivity; try discriminate. right. by exists "/out". }
  split; [exact H |].
  exact (tile_path_resolution (String.prefix "http://") _ _ _ _
           (Some "http://host/base") true H).
Defined.

Example run_ex :
  match run 5 env_ok args_ex ∅ with
  | Some (fs', st', evs, tiles, r) =>
      length (content fs' "/out/5.geojson") = 3 /\ length tiles = 4 /\ r = None /\
      st' = Finished /\ closed evs = ["/out/5.geojson"]
  | None => False
  end.
Proof. vm_compute. done. Qed.

(** ** Ordered dictionaries *)

Section od_lemmas.
Context {K V : Type} `{EqDecision K}.
Implicit Types (d : OD.odict K V) (k : K) (v : V).

Lemma od_get_set_eq k v d : OD.get k (OD.set k v d) = Some v.
Proof.
  induction d as [|[k' v'] d IH]; simpl.
  - by rewrite decide_True.
  - destruct (decide (k = k')); simpl.
    + by rewrite decide_True.
    + by rewrite decide_False.
Qed.

Lemma od_get_set_ne k k' v d : k <> k' -> OD.get k' (OD.set k v d) = OD.get k' d.
Proof.
  intros Hne. induction d as [|[k0 v0] d IH]; simpl.
  - by rewrite decide_False.
  - destruct (decide (k = k0)) as [->|]; simpl.
    + by rewrite !decide_False.
    + by rewrite IH.
Qed.

Lemma od_get_None k d : OD.get k d = None <-> k ∉ OD.keys d.
Proof.
  unfold OD.keys. induction d as [|[k' v'] d IH]; simpl.
  - split; [intros _; apply not_elem_of_nil | done].
  - rewrite not_elem_of_cons. destruct (decide (k = k')) as [->|Hne].
    + split; [done | by intros [? _]].
    + rewrite IH. split; [by intros ? | by intros [_ ?]].
Qed.

Lemma od_mem_keys k d : OD.mem k d = true <-> k ∈ OD.keys d.
Proof.
  unfold OD.mem. destruct (OD.get k d) eqn:Hg.
  - split; [intros _ | done].
    destruct (decide (k ∈ OD.keys d)) as [|Hn]; [done |].
    apply od_get_None in Hn. congruence.
  - apply od_get_None in Hg. split; [done | by intros ?].
Qed.

Lemma od_mem_false k d : OD.mem k d = false <-> k ∉ OD.keys d.
Proof. rewrite <- od_mem_keys. by destruct (OD.mem k d). Qed.

Lemma od_set_fresh k v d : k ∉ OD.keys d -> OD.set k v d = d ++ [(k, v)].
Proof.
  unfold OD.keys. induction d as [|[k' v'] d IH]; simpl; [done |].
  rewrite not_elem_of_cons. intros [Hne Hnin].
  by rewrite decide_False, IH.
Qed.

Lemma od_get_elem k v d : OD.get k d = Some v -> (k, v) ∈ d.
Proof.
  induction d as [|[k' v'] d IH]; simpl; [done |].
  destruct (decide (k = k')) as [->|].
  - intros [= ->]. apply list_elem_of_here.
  - intros. apply list_elem_of_further. auto.
Qed.

Lemma od_elem_get k v d : NoDup (OD.keys d) -> (k, v) ∈ d -> OD.get k d = Some v.
Proof.
  unfold OD.keys. induction d as [|[k' v'] d IH]; simpl.
  - intros _ H. by apply elem_of_nil in H.
  - rewrite NoDup_cons. intros [Hnin Hnd] Hin.
    apply elem_of_cons in Hin as [[= -> ->] | Hin].
    + by rewrite decide_True.
    + destruct (decide (k = k')) as [->|]; [|auto].
      exfalso. apply Hnin. apply list_elem_of_fmap. by exists (k', v).
Qed.

Lemma od_keys_app d1 d2 : OD.keys (d1 ++ d2) = OD.keys d1 ++ OD.keys d2.
Proof. apply fmap_app. Qed.

Lemma od_values_app d1 d2 : OD.values (d1 ++ d2) = OD.values d1 ++ OD.values d2.
Proof. apply fmap_app. Qed.

Lemma od_set_elem k v k' v' d :
  (k', v') ∈ OD.set k v d -> (k', v') = (k, v) \/ (k', v') ∈ d.
Proof.
  induction d as [|[k0 v0] d IH]; simpl.
  - intros H. apply list_elem_of_singleton in H. by left.
  - destruct (decide (k = k0)) as [->|].
    + intros H. apply elem_of_cons in H as [H|H]; [by left |].
      right. by apply list_elem_of_further.
    + intros H. apply elem_of_cons in H as [H|H].
      * right. rewrite H. apply list_elem_of_here.
      * destruct (IH H) as [?|?]; [by left |].
        right. by apply list_elem_of_further.
Qed.

Lemma od_set_keys_NoDup k v d : NoDup (OD.keys d) -> NoDup (OD.keys (OD.set k v d)).
Proof.
  unfold OD.keys. induction d as [|[k0 v0] d IH]; simpl.
  - intros _. apply NoDup_singleton.
  - rewrite NoDup_cons. intros [Hnin Hnd].
    destruct (decide (k = k0)) as [->|Hne]; simpl.
    + by apply NoDup_cons.
    + apply NoDup_cons. split; [|auto].
      intros Hin. apply list_elem_of_fmap in Hin as [[k1 v1] [Heq Hin]].
      simpl in Heq. subst k1.
      apply od_set_elem in Hin as [[= <- _]|Hin]; [done |].
      apply Hnin. apply list_elem_of_fmap. by exists (k0, v1).
Qed.
End od_lemmas.

(** ** The writer *)

Lemma c_append_nil c : c_append c [] = c.
Proof. destruct c. unfold c_append. simpl. by rewrite app_nil_r. Qed.

Lemma c_append_app c rs1 rs2 : c_append (c_append c rs1) rs2 = c_append c (rs1 ++ rs2).
Proof. unfold c_append. simpl. by rewrite app_assoc. Qed.

Lemma writerecords_inr env c rs c' :
  writerecords env c rs = inr c' -> c' = c_append c rs.
Proof.
  revert c. induction rs as [|r rs IH]; intros c; simpl.
  - intros [= <-]. by rewrite c_append_nil.
  - destruct (write_fault env (c_path c) r); [done |].
    intros H. apply IH in H. by rewrite H, c_append_app.
Qed.

Lemma writerecords_ok env c rs :
  (forall r, write_fault env (c_path c) r = None) ->
  writerecords env c rs = inr (c_append c rs).
Proof.
  revert c. induction rs as [|r rs IH]; intros c Hok; simpl.
  - by rewrite c_append_nil.
  - rewrite Hok, IH by done. by rewrite c_append_app.
Qed.

Lemma load_existing_wf feats acc d :
  VectorFileWriter.load_existing feats acc = inr d ->
  snapshot_wf acc -> snapshot_wf d.
Proof.
  revert acc. induction feats as [|f feats IH]; intros acc; simpl.
  - by intros [= <-].
  - destruct (OD.get "tile_id" (properties f)) as [k|] eqn:Hk; [|done].
    intros Hl [Hnd Hown]. apply (IH _ Hl). split.
    + by apply od_set_keys_NoDup.
    + intros k' f' Hin. apply od_set_elem in Hin as [[= -> ->]|Hin]; [done | auto].
Qed.

Lemma load_existing_from feats acc d k f :
  VectorFileWriter.load_existing feats acc = inr d ->
  (k, f) ∈ d -> (k, f) ∈ acc \/ f ∈ feats.
Proof.
  revert acc. induction feats as [|f0 feats IH]; intros acc; simpl.
  - intros [= <-]. by left.
  - destruct (OD.get "tile_id" (properties f0)) as [k0|]; [|done].
    intros Hl Hin. destruct (IH _ Hl Hin) as [Hacc|Hf].
    + apply od_set_elem in Hacc as [[= -> ->]|Hacc]; [|by left].
      right. apply list_elem_of_here.
    + right. by apply list_elem_of_further.
Qed.

Lemma load_existing_has_ids feats acc d :
  VectorFileWriter.load_existing feats acc = inr d -> has_ids feats.
Proof.
  revert acc. induction feats as [|f feats IH]; intros acc; simpl.
  - intros _. apply Forall_nil_2.
  - destruct (OD.get "tile_id" (properties f)) as [k|] eqn:Hk; [|done].
    intros Hl. apply Forall_cons_2; [by exists k | exact (IH _ Hl)].
Qed.

(** With distinct ids, new to the accumulator, loading appends the features
    in order. *)
Lemma load_existing_distinct feats acc :
  has_ids feats -> distinct_ids feats ->
  (forall f k, f ∈ feats -> tile_id_of f = Some k -> k ∉ OD.keys acc) ->
  exists d, VectorFileWriter.load_existing feats acc = inr d /\
    OD.values d = OD.values acc ++ feats /\
    OD.keys d = OD.keys acc ++ omap tile_id_of feats.
Proof.
  unfold has_ids, distinct_ids. revert acc.
  induction feats as [|f feats IH]; intros acc Hids Hnd Hfresh; simpl.
  - exists acc. by rewrite !app_nil_r.
  - apply Forall_cons in Hids as [[k Hk] Hids].
    rewrite fmap_cons in Hnd. apply NoDup_cons in Hnd as [Hnin Hnd].
    unfold tile_id_of in Hk. rewrite Hk.
    assert (Hkacc : k ∉ OD.keys acc).
    { apply (Hfresh f); [apply list_elem_of_here | done]. }
    rewrite (od_set_fresh _ _ _ Hkacc).
    destruct (IH (acc ++ [(k, f)]) Hids Hnd) as (d & Hd & Hv & Hks).
    { intros f' k' Hin' Hk'. rewrite od_keys_app. simpl.
      rewrite elem_of_app, list_elem_of_singleton. intros [Hin| ->].
      - apply (Hfresh f' k'); [by apply list_elem_of_further | done | done].
      - apply Hnin. apply list_elem_of_fmap. exists f'. split; [|done].
        rewrite Hk'. unfold tile_id_of. by rewrite Hk. }
    exists d. split; [done |].
    rewrite Hv, Hks, od_keys_app, od_values_app. simpl.
    fold (tile_id_of f). unfold tile_id_of at 2. rewrite Hk. simpl.
    by rewrite <- !app_assoc.
Qed.

(** What a successful construction leaves behind. *)
Lemma init_inr env fs out_path crs fieldname driver fs1 w :
  VectorFileWriter.__init__ env fs out_path crs fieldname driver = (fs1, inr w) ->
  exists d,
    VectorFileWriter.load_existing (content fs out_path) [] = inr d /\
    w = {| VectorFileWriter.path := out_path; VectorFileWriter.driver := driver;
           VectorFileWriter.existing := d; VectorFileWriter.new_entries := 0;
           VectorFileWriter.fieldname := fieldname;
           VectorFileWriter.file_obj :=
             {| c_path := out_path; c_driver := driver; c_crs := crs;
                c_schema := VectorFileWriter.schema_for fieldname;
                c_records := OD.values d |} |} /\
    fs1 = <[out_path := []]> (delete out_path fs).
Proof.
  unfold VectorFileWriter.__init__, content.
  destruct (negb _); [done |].
  destruct (fs !! out_path) as [feats|] eqn:Hfs; simpl.
  - destruct (read_fault env out_path); [done |].
    destruct (VectorFileWriter.load_existing feats []) as [e|d] eqn:Hd; [done |].
    destruct (open_fault env out_path); [done |].
    destruct (writerecords _ _ _) as [e|c'] eqn:Hw; [done |].
    intros [= <- <-]. exists d. apply writerecords_inr in Hw. by subst c'.
  - destruct (open_fault env out_path); [done |].
    intros [= <- <-]. exists []. by rewrite (delete_id _ _ Hfs).
Qed.

Lemma init_ok env fs out_path crs fieldname driver d :
  driver ∈ ["GeoJSON"; "GPKG"] ->
  read_fault env out_path = None -> open_fault env out_path = None ->
  (forall r, write_fault env out_path r = None) ->
  VectorFileWriter.load_existing (content fs out_path) [] = inr d ->
  VectorFileWriter.__init__ env fs out_path crs fieldname driver =
    (<[out_path := []]> (delete out_path fs),
     inr {| VectorFileWriter.path := out_path; VectorFileWriter.driver := driver;
            VectorFileWriter.existing := d; VectorFileWriter.new_entries := 0;
            VectorFileWriter.fieldname := fieldname;
            VectorFileWriter.file_obj :=
              {| c_path := out_path; c_driver := driver; c_crs := crs;
                 c_schema := VectorFileWriter.schema_for fieldname;
                 c_records := OD.values d |} |}).
Proof.
  intros Hdrv Hr Ho Hw. unfold VectorFileWriter.__init__, content.
  rewrite bool_decide_true by done. simpl.
  destruct (fs !! out_path) as [feats|] eqn:Hfs; simpl.
  - intros Hd. rewrite Hr, Hd, Ho. by rewrite writerecords_ok.
  - intros [= <-]. rewrite Ho. simpl. by rewrite (delete_id _ _ Hfs).
Qed.

Lemma write_inr env self tile tile_path self' :
  VectorFileWriter.write env self tile tile_path = inr self' ->
  self' = write_ok self tile tile_path.
Proof.
  unfold VectorFileWriter.write, write_ok.
  destruct (VectorFileWriter.entry_exists self tile); [by intros [= <-] |].
  destruct (write_fault env _ _); [done | by intros [= <-]].
Qed.

Lemma write_no_fault env self tile tile_path :
  (forall r, write_fault env (c_path (VectorFileWriter.file_obj self)) r = None) ->
  VectorFileWriter.write env self tile tile_path = inr (write_ok self tile tile_path).
Proof.
  intros Hok. unfold VectorFileWriter.write, write_ok.
  destruct (VectorFileWriter.entry_exists self tile); [done |].
  by rewrite Hok.
Qed.

Lemma write_existing env self tile tile_path :
  tile_key tile ∈ OD.keys (VectorFileWriter.existing self) ->
  VectorFileWriter.write env self tile tile_path = inr self.
Proof.
  intros Hin. unfold VectorFileWriter.write, VectorFileWriter.entry_exists.
  fold (tile_key tile). by rewrite (proj2 (od_mem_keys _ _) Hin).
Qed.

Lemma write_ok_existing self tile tile_path :
  VectorFileWriter.existing (write_ok self tile tile_path) = VectorFileWriter.existing self.
Proof. unfold write_ok. by destruct (VectorFileWriter.entry_exists self tile). Qed.

Lemma write_ok_fieldname self tile tile_path :
  VectorFileWriter.fieldname (write_ok self tile tile_path) = VectorFileWriter.fieldname self.
Proof. unfold write_ok. by destruct (VectorFileWriter.entry_exists self tile). Qed.

Lemma write_ok_path self tile tile_path :
  VectorFileWriter.path (write_ok self tile tile_path) = VectorFileWriter.path self /\
  c_path (VectorFileWriter.file_obj (write_ok self tile tile_path))
  = c_path (VectorFileWriter.file_obj self).
Proof. unfold write_ok. by destruct (VectorFileWriter.entry_exists self tile). Qed.

Lemma write_ok_records self tile tile_path :
  records (write_ok self tile tile_path) =
  records self ++
    (if VectorFileWriter.entry_exists self tile then []
     else [VectorFileWriter.new_record (VectorFileWriter.fieldname self) tile tile_path]).
Proof.
  unfold write_ok, records.
  destruct (VectorFileWriter.entry_exists self tile); simpl; [by rewrite app_nil_r | done].
Qed.

Lemma write_seq_inr env self offers self' :
  write_seq env self offers = inr self' -> self' = feed self offers.
Proof.
  unfold feed. revert self. induction offers as [|[tile tp] offers IH]; intros self; simpl.
  - by intros [= <-].
  - destruct (VectorFileWriter.write env self tile tp) as [e|w] eqn:Hw; [done |].
    apply write_inr in Hw. subst w. apply IH.
Qed.

(** The offers a writer with snapshot [d] turns into records. *)
Lemma feed_shape self offers :
  VectorFileWriter.existing (feed self offers) = VectorFileWriter.existing self /\
  VectorFileWriter.fieldname (feed self offers) = VectorFileWriter.fieldname self /\
  VectorFileWriter.path (feed self offers) = VectorFileWriter.path self /\
  c_path (VectorFileWriter.file_obj (feed self offers))
    = c_path (VectorFileWriter.file_obj self) /\
  records (feed self offers) =
    records self ++
    ((fun o => VectorFileWriter.new_record (VectorFileWriter.fieldname self) o.1 o.2)
       <$> List.filter (fun o => negb (VectorFileWriter.entry_exists self o.1)) offers).
Proof.
  unfold feed. revert self. induction offers as [|[tile tp] offers IH]; intros self; simpl.
  - by rewrite app_nil_r.
  - destruct (IH (write_ok self tile tp)) as (He & Hf & Hp & Hc & Hr).
    rewrite He, Hf, Hp, Hc, Hr.
    rewrite write_ok_existing, write_ok_fieldname, write_ok_records.
    destruct (write_ok_path self tile tp) as [-> ->].
    do 4 (split; [done |]).
    assert (Hex : forall t, VectorFileWriter.entry_exists (write_ok self tile tp) t
                          = VectorFileWriter.entry_exists self t).
    { intros t. unfold VectorFileWriter.entry_exists. by rewrite write_ok_existing. }
    rewrite <- app_assoc. f_equal.
    rewrite (List.filter_ext _ (fun o => negb (VectorFileWriter.entry_exists self o.1)))
      by (intros o; by rewrite Hex).
    by destruct (VectorFileWriter.entry_exists self tile).
Qed.

Lemma new_record_tile_id fieldname tile tile_path :
  fieldname <> "tile_id" ->
  tile_id_of (VectorFileWriter.new_record fieldname tile tile_path) = Some (tile_key tile).
Proof.
  intros Hne. unfold tile_id_of, VectorFileWriter.new_record. cbn [properties].
  by rewrite od_get_set_ne.
Qed.

Lemma elem_of_list_filter {A} (P : A -> bool) (l : list A) x :
  x ∈ List.filter P l <-> x ∈ l /\ P x = true.
Proof. rewrite !list_elem_of_In. apply filter_In. Qed.

Lemma NoDup_fmap_list_filter {A B} (f : A -> B) (P : A -> bool) (l : list A) :
  NoDup (f <$> l) -> NoDup (f <$> List.filter P l).
Proof.
  induction l as [|a l IH]; simpl; [done |].
  rewrite NoDup_cons. intros [Hnin Hnd].
  destruct (P a); simpl; [|auto].
  apply NoDup_cons. split; [|auto].
  intros Hin. apply Hnin.
  apply list_elem_of_fmap in Hin as (x & -> & Hx).
  apply elem_of_list_filter in Hx as [Hx _].
  apply list_elem_of_fmap. by exists x.
Qed.

Lemma snapshot_ids d :
  snapshot_wf d -> tile_id_of <$> OD.values d = Some <$> OD.keys d.
Proof.
  intros [_ Hown]. unfold OD.values, OD.keys.
  induction d as [|[k f] d IH]; simpl; [done |].
  rewrite (Hown k f) by apply list_elem_of_here.
  f_equal. apply IH. intros k' f' Hin. apply Hown. by apply list_elem_of_further.
Qed.

Lemma init_snapshot_wf env fs out_path crs fieldname driver fs1 w :
  VectorFileWriter.__init__ env fs out_path crs fieldname driver = (fs1, inr w) ->
  snapshot_wf (VectorFileWriter.existing w) /\
  records w = OD.values (VectorFileWriter.existing w) /\
  VectorFileWriter.fieldname w = fieldname.
Proof.
  intros Hinit. destruct (init_inr _ _ _ _ _ _ _ _ Hinit) as (d & Hd & -> & _).
  simpl. split; [|done].
  apply (load_existing_wf _ _ _ Hd). split; [apply NoDup_nil_2 |].
  intros ?? H. by apply elem_of_nil in H.
Qed.

(** The ids in the artifact of a writer fed distinct tiles are distinct. *)
Lemma feed_distinct_ids w0 offers :
  snapshot_wf (VectorFileWriter.existing w0) ->
  records w0 = OD.values (VectorFileWriter.existing w0) ->
  VectorFileWriter.fieldname w0 <> "tile_id" ->
  NoDup (tile_key <$> offers.*1) ->
  distinct_ids (records (feed w0 offers)).
Proof.
  intros Hwf Hrec Hfn Hnd. unfold distinct_ids.
  destruct (feed_shape w0 offers) as (_ & _ & _ & _ & ->).
  rewrite Hrec, fmap_app, (snapshot_ids _ Hwf), <- list_fmap_compose.
  apply NoDup_app. split; [|split].
  - apply (NoDup_fmap_2 Some). apply Hwf.
  - intros x Hx1 Hx2.
    apply list_elem_of_fmap in Hx1 as (k & -> & Hk).
    apply list_elem_of_fmap in Hx2 as (o & Ho & Hin). simpl in Ho.
    rewrite new_record_tile_id in Ho by done. injection Ho as ->.
    apply elem_of_list_filter in Hin as [_ Hin].
    apply negb_true_iff in Hin.
    unfold VectorFileWriter.entry_exists in Hin. fold (tile_key o.1) in Hin.
    by apply od_mem_false in Hin.
  - rewrite (list_fmap_ext _ (fun o => Some (tile_key o.1)))
      by (intros; simpl; by apply new_record_tile_id).
    change (fun o : Tile.t * string => Some (tile_key o.1))
      with (Some ∘ (tile_key ∘ fst : Tile.t * string -> Value)).
    rewrite list_fmap_compose. apply (NoDup_fmap_2 Some).
    apply NoDup_fmap_list_filter. by rewrite list_fmap_compose.
Qed.

(** C1, as stated, fails: a tile appended earlier in the same run is not
    recognised.  On a new file, the second [write] for tile (5, 0, 0) finds
    its id in the artifact and still appends: two records with one id. *)
Lemma second_write_appends_again :
  let w0 := writer_ex "EPSG:4326" "location" in
  let tile := tile_at 0 0 in
  let w1 := write_ok w0 tile "/out/5/0/0.tif" in
  let w2 := write_ok w1 tile "/out/5/0/0.tif" in
  VectorFileWriter.__init__ env_ok ∅ "/out/5.geojson" "EPSG:4326" "location" "GeoJSON"
    = ({[ "/out/5.geojson" := [] ]}, inr w0) /\
  VectorFileWriter.write env_ok w0 tile "/out/5/0/0.tif" = inr w1 /\
  in_artifact w1 tile /\
  VectorFileWriter.write env_ok w1 tile "/out/5/0/0.tif" = inr w2 /\
  w2 <> w1 /\
  length (records w1) = 1 /\ length (records w2) = 2 /\
  ~ distinct_ids (records w2).
Proof.
  cbv zeta. split; [by vm_compute |]. split; [by vm_compute |].
  split; [vm_compute; apply list_elem_of_here |].
  split; [by vm_compute |]. split; [by vm_compute |].
  split; [done |]. split; [done |].
  vm_compute. intros H. apply NoDup_cons in H as [H _].
  apply H, list_elem_of_here.
Qed.

(** C1, amended.  For a writer built over an artifact: at any point of the
    run, a [write] for a tile whose id is a key of the snapshot loaded from
    the artifact changes nothing, so the number of entries stays; and when
    the tiles offered in the run have pairwise distinct ids (the path field
    not being [tile_id] itself), no two entries of the artifact share a
    [tile_id]. *)
Theorem no_duplication env fs out_path crs fieldname driver fs1 w0 :
  VectorFileWriter.__init__ env fs out_path crs fieldname driver = (fs1, inr w0) ->
  (forall offers w tile tile_path,
      write_seq env w0 offers = inr w ->
      tile_key tile ∈ OD.keys (VectorFileWriter.existing w0) ->
      VectorFileWriter.write env w tile tile_path = inr w /\
      in_artifact w tile) /\
  (forall offers w,
      fieldname <> "tile_id" ->
      NoDup (tile_key <$> offers.*1) ->
      write_seq env w0 offers = inr w ->
      distinct_ids (records w)).
Proof.
  intros Hinit. destruct (init_snapshot_wf _ _ _ _ _ _ _ _ Hinit) as (Hwf & Hrec & Hfn).
  split.
  - intros offers w tile tp Hseq Hin. apply write_seq_inr in Hseq. subst w.
    destruct (feed_shape w0 offers) as (He & _ & _ & _ & Hr).
    split.
    + apply write_existing. by rewrite He.
    + unfold in_artifact. rewrite Hr, Hrec, fmap_app, (snapshot_ids _ Hwf).
      apply elem_of_app. left. apply list_elem_of_fmap. by exists (tile_key tile).
  - intros offers w Hne Hnd Hseq. apply write_seq_inr in Hseq. subst w.
    apply feed_distinct_ids; [done | done | by rewrite Hfn | done].
Qed.

Lemma no_duplication_witness :
  let offers := [(tile_at 0 1, "/out/5/0/1.tif"); (tile_at 0 0, "/out/5/0/0.tif")] in
  let w := feed writer_old offers in
  write_seq env_ok writer_old offers = inr w /\
  (VectorFileWriter.write env_ok w (tile_at 0 0) "/out/5/0/0.tif" = inr w /\
   in_artifact w (tile_at 0 0)) /\
  distinct_ids (records w) /\ length (records w) = 2.
Proof.
  cbv zeta.
  assert (Hinit : VectorFileWriter.__init__ env_ok fs_old "/out/5.geojson"
                    "EPSG:4326" "location" "GeoJSON"
                  = ({[ "/out/5.geojson" := [] ]}, inr writer_old))
    by (vm_compute; reflexivity).
  pose proof (no_duplication _ _ _ _ _ _ _ _ Hinit) as [Hnoop Huniq].
  set (offers := [(tile_at 0 1, "/out/5/0/1.tif"); (tile_at 0 0, "/out/5/0/0.tif")]).
  assert (Hseq : write_seq env_ok writer_old offers = inr (feed writer_old offers))
    by (vm_compute; reflexivity).
  split; [exact Hseq |]. split; [|split].
  - apply (Hnoop offers _ (tile_at 0 0) "/out/5/0/0.tif" Hseq).
    vm_compute. apply list_elem_of_here.
  - apply (Huniq offers _); [discriminate | | exact Hseq].
    vm_compute. apply NoDup_cons. split.
    + intros H. apply list_elem_of_singleton in H. discriminate.
    + apply NoDup_singleton.
  - reflexivity.
Defined.

(** C3.  First write wins.  For a tile whose id is a key of the snapshot
    loaded when the writer was built, at any point of the run (after any
    successful [write] calls, for this tile or others): [write] for that tile
    leaves the writer as it is, whatever path it is given; the snapshot
    still files the old record under that id; the artifact is the records
    of the snapshot, in their order, followed by the new records of the
    offered tiles that were not in the snapshot, so the old record, which
    comes from the file that existed before, is still in it; it is the only
    record with that id (the path field not being [tile_id] itself); and
    when the file is closed without failure, the file holds exactly these
    records. *)
Theorem first_write_wins env fs out_path crs fieldname driver fs1 w0 tile f offers w :
  VectorFileWriter.__init__ env fs out_path crs fieldname driver = (fs1, inr w0) ->
  OD.get (tile_key tile) (VectorFileWriter.existing w0) = Some f ->
  write_seq env w0 offers = inr w ->
  (forall tile_path, VectorFileWriter.write env w tile tile_path = inr w) /\
  f ∈ content fs out_path /\
  tile_id_of f = Some (tile_key tile) /\
  OD.get (tile_key tile) (VectorFileWriter.existing w) = Some f /\
  records w =
    OD.values (VectorFileWriter.existing w0) ++
    ((fun o => VectorFileWriter.new_record fieldname o.1 o.2)
       <$> List.filter
             (fun o => negb (OD.mem (tile_key o.1) (VectorFileWriter.existing w0)))
             offers) /\
  f ∈ records w /\
  (fieldname <> "tile_id" ->
   forall g, g ∈ records w -> tile_id_of g = Some (tile_key tile) -> g = f) /\
  (close_fault env out_path = None ->
   forall fs2, exists fs3,
     VectorFileWriter.close env fs2 w = (fs3, None) /\
     content fs3 out_path = records w /\
     f ∈ content fs3 out_path).
Proof.
  intros Hinit Hget Hseq. apply write_seq_inr in Hseq. subst w.
  destruct (init_snapshot_wf _ _ _ _ _ _ _ _ Hinit) as (Hwf & Hrec & Hfn).
  destruct (init_inr _ _ _ _ _ _ _ _ Hinit) as (d & Hd & Hw0 & _).
  destruct (feed_shape w0 offers) as (He & _ & _ & Hcp & Hr).
  assert (Hexd : VectorFileWriter.existing w0 = d) by by subst w0.
  assert (Hpath : c_path (VectorFileWriter.file_obj w0) = out_path) by by subst w0.
  rewrite Hfn, Hrec in Hr. unfold VectorFileWriter.entry_exists in Hr.
  rewrite Hexd in *. fold tile_key in Hr.
  change (fun o : Tile.t * string =>
            negb (OD.mem (VStr (str_id (Tile.id o.1))) d))
    with (fun o : Tile.t * string => negb (OD.mem (tile_key o.1) d)) in Hr.
  destruct Hwf as [Hnd Hown].
  pose proof (od_get_elem _ _ _ Hget) as Hin.
  assert (Hfrec : f ∈ records (feed w0 offers)).
  { rewrite Hr. apply elem_of_app. left. apply list_elem_of_fmap.
    by exists (tile_key tile, f). }
  assert (Hkey : tile_key tile ∈ OD.keys d).
  { apply list_elem_of_fmap. by exists (tile_key tile, f). }
  split; [|split; [|split; [|split; [|split; [|split; [|split]]]]]].
  - intros tile_path. apply write_existing. by rewrite He.
  - destruct (load_existing_from _ _ _ _ _ Hd Hin) as [H|H]; [|done].
    by apply elem_of_nil in H.
  - by apply Hown.
  - by rewrite He.
  - done.
  - done.
  - intros Hne g Hg Hid. rewrite Hr in Hg. apply elem_of_app in Hg as [Hg|Hg].
    + apply list_elem_of_fmap in Hg as [[k g'] [-> Hg]]. simpl in *.
      pose proof (Hown _ _ Hg) as Hk. rewrite Hid in Hk. injection Hk as <-.
      apply (od_elem_get _ _ _ Hnd) in Hg. congruence.
    + apply list_elem_of_fmap in Hg as (o & -> & Ho).
      apply elem_of_list_filter in Ho as [_ Ho]. apply negb_true_iff in Ho.
      rewrite new_record_tile_id in Hid by done.
      assert (Hk : tile_key o.1 = tile_key tile) by congruence.
      rewrite Hk in Ho. apply od_mem_false in Ho. done.
  - intros Hc fs2. unfold VectorFileWriter.close. rewrite Hcp, Hpath, Hc.
    eexists. split; [reflexivity |].
    assert (Hcont : content (<[out_path := c_records (VectorFileWriter.file_obj
                                              (feed w0 offers))]> fs2) out_path
                    = records (feed w0 offers)).
    { unfold content. by rewrite lookup_insert_eq. }
    split; [done | by rewrite Hcont].
Qed.

Lemma first_write_wins_witness :
  let offers := [(tile_at 0 1, "/out/5/0/1.tif"); (tile_at 0 0, "/out/5/0/0.tif")] in
  let w := feed writer_old offers in
  VectorFileWriter.__init__ env_ok fs_old "/out/5.geojson" "EPSG:4326" "location" "GeoJSON"
    = ({[ "/out/5.geojson" := [] ]}, inr writer_old) /\
  write_seq env_ok writer_old offers = inr w /\
  VectorFileWriter.write env_ok w (tile_at 0 0) "/out/5/0/0.tif" = inr w /\
  old_feature ∈ content fs_old "/out/5.geojson" /\
  records w = [old_feature;
               VectorFileWriter.new_record "location" (tile_at 0 1) "/out/5/0/1.tif"] /\
  (forall g, g ∈ records w -> tile_id_of g = Some (tile_key (tile_at 0 0)) ->
             g = old_feature) /\
  exists fs3,
    VectorFileWriter.close env_ok {[ "/out/5.geojson" := [] ]} w = (fs3, None) /\
    content fs3 "/out/5.geojson" = records w /\
    old_feature ∈ content fs3 "/out/5.geojson".
Proof.
  cbv zeta.
  set (offers := [(tile_at 0 1, "/out/5/0/1.tif"); (tile_at 0 0, "/out/5/0/0.tif")]).
  assert (Hinit : VectorFileWriter.__init__ env_ok fs_old "/out/5.geojson"
                    "EPSG:4326" "location" "GeoJSON"
                  = ({[ "/out/5.geojson" := [] ]}, inr writer_old))
    by (vm_compute; reflexivity).
  assert (Hget : OD.get (tile_key (tile_at 0 0)) (VectorFileWriter.existing writer_old)
                 = Some old_feature)
    by (vm_compute; reflexivity).
  assert (Hseq : write_seq env_ok writer_old offers = inr (feed writer_old offers))
    by (vm_compute; reflexivity).
  destruct (first_write_wins env_ok fs_old "/out/5.geojson" "EPSG:4326" "location"
              "GeoJSON" _ writer_old (tile_at 0 0) old_feature offers _
              Hinit Hget Hseq)
    as (Hnoop & Hold & _ & _ & Hrec & _ & Huniq & Hclose).
  split; [exact Hinit |]. split; [exact Hseq |]. split; [apply Hnoop |].
  split; [exact Hold |]. split; [rewrite Hrec; reflexivity |].
  split; [apply Huniq; discriminate |].
  apply Hclose. reflexivity.
Defined.

(** ** The record of a tile *)

(** C5, as stated, fails.  [write] never reprojects: a writer opened for
    EPSG:3857 stores the polygon of a tile of an EPSG:4326 pyramid as it is.
    And when the path field carries the name of a fixed field, its value
    takes that field's place. *)
Lemma write_record_not_as_specified :
  let tile := tile_at 0 1 in
  (let w := writer_ex "EPSG:3857" "location" in
   let r := VectorFileWriter.new_record "location" tile "/out/5/0/1.tif" in
   VectorFileWriter.write env_ok w tile "/out/5/0/1.tif"
     = inr (write_ok w tile "/out/5/0/1.tif") /\
   records (write_ok w tile "/out/5/0/1.tif") = [r] /\
   geometry r = mapping (Tile.bbox tile) /\
   ~ record_as_specified swap_axes w tile "/out/5/0/1.tif" r) /\
  (let w := writer_ex "EPSG:4326" "tile_id" in
   let r := VectorFileWriter.new_record "tile_id" tile "/out/5/0/1.tif" in
   VectorFileWriter.write env_ok w tile "/out/5/0/1.tif"
     = inr (write_ok w tile "/out/5/0/1.tif") /\
   records (write_ok w tile "/out/5/0/1.tif") = [r] /\
   OD.get "tile_id" (properties r) = Some (VStr "/out/5/0/1.tif") /\
   ~ record_as_specified swap_axes w tile "/out/5/0/1.tif" r).
Proof.
  cbv zeta. split.
  - split; [by vm_compute |]. split; [by vm_compute |]. split; [by vm_compute |].
    intros [Hgeo _]. vm_compute in Hgeo. discriminate.
  - split; [by vm_compute |]. split; [by vm_compute |]. split; [by vm_compute |].
    intros (_ & Hid & _). vm_compute in Hid. discriminate.
Qed.

(** C5, amended.  A [write] for a tile that is not in the snapshot, accepted
    by the file, appends one record: its geometry is the tile's bounding
    polygon as the tile has it, whatever the CRS of the writer; the property
    named by [fieldname] is the path; each of [tile_id], [zoom], [row] and
    [col] that is not [fieldname] is the string of the tile's id, zoom, row
    and column, while the schema declares [zoom], [row] and [col] as
    integers. *)
Theorem write_record env self tile tile_path :
  VectorFileWriter.entry_exists self tile = false ->
  write_fault env (c_path (VectorFileWriter.file_obj self))
    (VectorFileWriter.new_record (VectorFileWriter.fieldname self) tile tile_path) = None ->
  exists self' r,
    VectorFileWriter.write env self tile tile_path = inr self' /\
    records self' = records self ++ [r] /\
    VectorFileWriter.new_entries self' = VectorFileWriter.new_entries self + 1 /\
    geometry r = mapping (Tile.bbox tile) /\
    OD.get (VectorFileWriter.fieldname self) (properties r) = Some (VStr tile_path) /\
    (VectorFileWriter.fieldname self <> "tile_id" ->
     OD.get "tile_id" (properties r) = Some (VStr (str_id (Tile.id tile)))) /\
    (VectorFileWriter.fieldname self <> "zoom" ->
     OD.get "zoom" (properties r) = Some (VStr (Py.str_int (Tile.zoom tile)))) /\
    (VectorFileWriter.fieldname self <> "row" ->
     OD.get "row" (properties r) = Some (VStr (Py.str_int (Tile.row tile)))) /\
    (VectorFileWriter.fieldname self <> "col" ->
     OD.get "col" (properties r) = Some (VStr (Py.str_int (Tile.col tile)))) /\
    OD.get "zoom" (schema_properties spatial_schema) = Some "int" /\
    OD.get "row" (schema_properties spatial_schema) = Some "int" /\
    OD.get "col" (schema_properties spatial_schema) = Some "int".
Proof.
  intros Hex Hok. unfold VectorFileWriter.write. rewrite Hex, Hok.
  eexists _, _. split; [reflexivity |].
  unfold records, VectorFileWriter.new_record. cbn [VectorFileWriter.file_obj
    VectorFileWriter.new_entries c_append c_records geometry properties].
  split; [done |]. split; [done |]. split; [done |].
  split; [apply od_get_set_eq |].
  repeat split; try reflexivity.
  all: intros Hne; cbn [properties]; by rewrite od_get_set_ne.
Qed.

Lemma write_record_witness :
  let w := writer_ex "EPSG:3857" "location" in
  let tile := tile_at 0 1 in
  exists self' r,
    VectorFileWriter.write env_ok w tile "/out/5/0/1.tif" = inr self' /\
    records self' = [r] /\
    geometry r = mapping (square 1 0) /\
    OD.get "location" (properties r) = Some (VStr "/out/5/0/1.tif") /\
    OD.get "tile_id" (properties r) = Some (VStr "(5, 0, 1)") /\
    OD.get "zoom" (properties r) = Some (VStr "5") /\
    OD.get "row" (properties r) = Some (VStr "0") /\
    OD.get "col" (properties r) = Some (VStr "1").
Proof.
  cbv zeta.
  destruct (write_record env_ok (writer_ex "EPSG:3857" "location") (tile_at 0 1)
              "/out/5/0/1.tif" eq_refl eq_refl)
    as (self' & r & Hw & Hr & _ & Hg & Hf & Hid & Hz & Hrow & Hcol & _).
  exists self', r. split; [exact Hw |]. split; [exact Hr |]. split; [exact Hg |].
  split; [exact Hf |]. split; [apply Hid; discriminate |].
  split; [apply Hz; discriminate |]. split; [apply Hrow; discriminate |].
  apply Hcol; discriminate.
Defined.

(** ** The generator: requested formats *)

Lemma drain_S fuel env args fs st :
  drain (S fuel) env args fs st =
    match next env args fs st with
    | (fs', st', evs, Yield tile) =>
        match drain fuel env args fs' st' with
        | Some (fs'', st'', evs', tiles, r) =>
            Some (fs'', st'', evs ++ evs', tile :: tiles, r)
        | None => None
        end
    | (fs', st', evs, StopIteration) => Some (fs', st', evs, [], None)
    | (fs', st', evs, Raise e) => Some (fs', st', evs, [], Some e)
    end.
Proof. reflexivity. Qed.

Lemma next_no_format env args fs :
  Py.any [geojson args; gpkg args; vrt args] = false ->
  next env args fs Created =
    (fs, Finished, [],
     Raise (Exn ValueError "one of 'geojson', 'gpkg' or 'vrt' must be provided")).
Proof. intros Hany. unfold next. by rewrite Hany. Qed.

Lemma next_vrt env args fs :
  vrt args = true ->
  next env args fs Created =
    (fs, Finished, [],
     Raise (Exn NotImplementedError "writing VRTs is not yet enabled")).
Proof.
  intros Hv. unfold next, Py.any. simpl. rewrite Hv.
  by destruct (geojson args), (gpkg args).
Qed.

(** C7.  When none of [geojson], [gpkg] and [vrt] is set, whatever [txt]
    is, the generator raises [ValueError] at its first step: no writer has
    been opened, no event has happened, and the file system is as it was. *)
Theorem no_format_requested env args fs :
  geojson args = false -> gpkg args = false -> vrt args = false ->
  next env args fs Created =
    (fs, Finished, [],
     Raise (Exn ValueError "one of 'geojson', 'gpkg' or 'vrt' must be provided")) /\
  forall fuel,
    run (S fuel) env args fs =
      Some (fs, Finished, [], [],
            Some (Exn ValueError "one of 'geojson', 'gpkg' or 'vrt' must be provided")).
Proof.
  intros Hj Hp Hv.
  assert (Hn : next env args fs Created =
    (fs, Finished, [],
     Raise (Exn ValueError "one of 'geojson', 'gpkg' or 'vrt' must be provided"))).
  { apply next_no_format. by rewrite Hj, Hp, Hv. }
  split; [done |]. intros fuel. unfold run, zoom_index_gen. by rewrite drain_S, Hn.
Qed.

Lemma no_format_requested_witness :
  txt args_none = true /\
  run 1 env_ok args_none fs_old =
    Some (fs_old, Finished, [], [],
          Some (Exn ValueError "one of 'geojson', 'gpkg' or 'vrt' must be provided")).
Proof.
  split; [reflexivity |].
  exact (proj2 (no_format_requested env_ok args_none fs_old eq_refl eq_refl eq_refl) 0).
Defined.

(** C8.  When [vrt] is set, with or without other formats, the generator
    raises [NotImplementedError] at its first step: no writer has been
    opened and the file system is as it was, so no index file was made. *)
Theorem vrt_not_implemented env args fs :
  vrt args = true ->
  next env args fs Created =
    (fs, Finished, [],
     Raise (Exn NotImplementedError "writing VRTs is not yet enabled")) /\
  forall fuel,
    run (S fuel) env args fs =
      Some (fs, Finished, [], [],
            Some (Exn NotImplementedError "writing VRTs is not yet enabled")).
Proof.
  intros Hv.
  assert (Hn : next env args fs Created =
    (fs, Finished, [],
     Raise (Exn NotImplementedError "writing VRTs is not yet enabled"))).
  { by apply next_vrt. }
  split; [done |]. intros fuel. unfold run, zoom_index_gen. by rewrite drain_S, Hn.
Qed.

Lemma vrt_not_implemented_witness :
  geojson args_vrt = true /\
  run 1 env_ok args_vrt ∅ =
    Some (∅, Finished, [], [],
          Some (Exn NotImplementedError "writing VRTs is not yet enabled")).
Proof.
  split; [reflexivity |].
  exact (proj2 (vrt_not_implemented env_ok args_vrt ∅ eq_refl) 0).
Defined.

(** ** The generator: cleanup *)

Lemma opened_app evs1 evs2 : opened (evs1 ++ evs2) = opened evs1 ++ opened evs2.
Proof. apply omap_app. Qed.

Lemma closed_app evs1 evs2 : closed (evs1 ++ evs2) = closed evs1 ++ closed evs2.
Proof. apply omap_app. Qed.

Lemma writes_app evs1 evs2 : writes (evs1 ++ evs2) = writes evs1 ++ writes evs2.
Proof. apply omap_app. Qed.

Lemma write_all_trace env ws tile tile_path ws' evs r :
  write_all env ws tile tile_path = (ws', evs, r) ->
  VectorFileWriter.path <$> ws' = VectorFileWriter.path <$> ws /\
  opened evs = [] /\ closed evs = [].
Proof.
  revert ws' evs r. induction ws as [|w ws IH]; intros ws' evs r; simpl.
  - by intros [= <- <- <-].
  - destruct (VectorFileWriter.write env w tile tile_path) as [e|w'] eqn:Hw.
    + by intros [= <- <- <-].
    + destruct (write_all env ws tile tile_path) as [[ws'' evs''] r''].
      intros [= <- <- <-]. destruct (IH _ _ _ eq_refl) as (Hp & Ho & Hc).
      apply write_inr in Hw. subst w'.
      rewrite !fmap_cons, Hp. by destruct (write_ok_path w tile tile_path) as [-> _].
Qed.

Lemma close_all_trace env fs ws fs' evs r :
  close_all env fs ws = (fs', evs, r) ->
  opened evs = [] /\ writes evs = [].
Proof.
  revert fs fs' evs r. induction ws as [|w ws IH]; intros fs fs' evs r; simpl.
  - by intros [= <- <- <-].
  - destruct (VectorFileWriter.close env fs w) as [fs1 [e|]].
    + destruct (is_Exception e).
      * destruct (close_all env fs1 ws) as [[fs2 evs2] r2] eqn:Hc.
        intros [= <- <- <-]. apply (IH _ _ _ _ Hc).
      * by intros [= <- <- <-].
    + destruct (close_all env fs1 ws) as [[fs2 evs2] r2] eqn:Hc.
      intros [= <- <- <-]. apply (IH _ _ _ _ Hc).
Qed.

Lemma append_writer_trace env args flag driver ext fs ws0 fs1 ws evs r :
  append_writer env args flag driver ext fs ws0 = (fs1, ws, evs, r) ->
  VectorFileWriter.path <$> ws = (VectorFileWriter.path <$> ws0) ++ opened evs /\
  closed evs = [].
Proof.
  unfold append_writer. destruct flag.
  - destruct (new_writer env args fs driver ext) as [fs' [e|w]].
    + intros [= <- <- <- <-]. by rewrite app_nil_r.
    + intros [= <- <- <- <-]. by rewrite fmap_app.
  - intros [= <- <- <- <-]. by rewrite app_nil_r.
Qed.

Lemma open_writers_trace env args fs fs1 ws evs r :
  open_writers env args fs = (fs1, ws, evs, r) ->
  opened evs = VectorFileWriter.path <$> ws /\ closed evs = [].
Proof.
  unfold open_writers.
  destruct (append_writer env args (geojson args) "GeoJSON" "geojson" fs [])
    as [[[fs1' ws1] evs1] r1] eqn:H1.
  apply append_writer_trace in H1 as [Hp1 Hc1]. simpl in Hp1.
  destruct r1 as [e|].
  - by intros [= <- <- <- <-].
  - destruct (append_writer env args (gpkg args) "GPKG" "gpkg" fs1' ws1)
      as [[[fs2 ws2] evs2] r2] eqn:H2.
    apply append_writer_trace in H2 as [Hp2 Hc2].
    intros [= <- <- <- <-]. by rewrite opened_app, closed_app, Hp2, Hp1, Hc1, Hc2.
Qed.

Section cleanup.
Context (env : Env) (args : Args).

(** What fails when a file is closed is an [Exception], as I/O errors are. *)
Hypothesis close_faults :
  forall p e, close_fault env p = Some e -> is_Exception e = true.

Lemma close_all_attempts fs ws :
  exists fs' evs,
    close_all env fs ws = (fs', evs, None) /\
    closed evs = VectorFileWriter.path <$> ws /\
    log_errors evs = close_failures env ws.
Proof.
  revert fs. induction ws as [|w ws IH]; intros fs; simpl.
  - by exists fs, [].
  - unfold VectorFileWriter.close, close_failures. simpl.
    destruct (close_fault env (c_path (VectorFileWriter.file_obj w))) as [e|] eqn:He.
    + rewrite (close_faults _ _ He).
      destruct (IH fs) as (fs' & evs & -> & Hc & Hl).
      eexists _, _. split; [reflexivity |]. simpl. by rewrite Hc, Hl.
    + destruct (IH (<[c_path (VectorFileWriter.file_obj w) :=
                        c_records (VectorFileWriter.file_obj w)]> fs))
        as (fs' & evs & -> & Hc & Hl).
      eexists _, _. split; [reflexivity |]. simpl. by rewrite Hc, Hl.
Qed.

Lemma finally_spec fs ws in_flight :
  exists fs' evs,
    finally_ env fs ws in_flight =
      (fs', Finished, evs,
       match in_flight with Some e => Raise e | None => StopIteration end) /\
    opened evs = [] /\
    closed evs = VectorFileWriter.path <$> ws /\
    log_errors evs = close_failures env ws.
Proof.
  unfold finally_.
  destruct (close_all_attempts fs ws) as (fs' & evs & Hc & Hcl & Hl).
  pose proof (close_all_trace _ _ _ _ _ _ Hc) as [Ho _].
  rewrite Hc. by exists fs', evs.
Qed.

(** One round of the loop: either it suspends again, with the same
    writers open and nothing closed, or it finishes after one close
    attempt per writer. *)
Lemma resume_inv fs ws it fs' st' evs o :
  resume env args fs ws it = (fs', st', evs, o) ->
  opened evs = [] /\
  match st' with
  | Created => False
  | Suspended ws' _ =>
      VectorFileWriter.path <$> ws' = VectorFileWriter.path <$> ws /\
      closed evs = [] /\ exists tile, o = Yield tile
  | Finished =>
      closed evs = VectorFileWriter.path <$> ws /\ forall tile, o <> Yield tile
  end.
Proof.
  assert (Hfin : forall in_flight fs' st' evs o,
    finally_ env fs ws in_flight = (fs', st', evs, o) ->
    opened evs = [] /\
    match st' with
    | Created => False
    | Suspended _ _ => False
    | Finished =>
        closed evs = VectorFileWriter.path <$> ws /\ forall tile, o <> Yield tile
    end).
  { intros inf fs0 st0 evs0 o0 H.
    destruct (finally_spec fs ws inf) as (fs1 & evs1 & H1 & Ho & Hc & _).
    rewrite H1 in H. injection H as <- <- <- <-.
    split; [done |]. split; [done |]. by destruct inf. }
  assert (Hfin' : forall in_flight fs' st' evs o,
    finally_ env fs ws in_flight = (fs', st', evs, o) ->
    opened evs = [] /\
    match st' with
    | Created => False
    | Suspended ws' _ =>
        VectorFileWriter.path <$> ws' = VectorFileWriter.path <$> ws /\
        closed evs = [] /\ exists tile, o = Yield tile
    | Finished =>
        closed evs = VectorFileWriter.path <$> ws /\ forall tile, o <> Yield tile
    end).
  { intros inf fs0 st0 evs0 o0 H. destruct (Hfin _ _ _ _ _ H) as [Ho Hs].
    split; [done |]. by destruct st0. }
  unfold resume. destruct it as [|tile rest|e]; [by apply Hfin' | | by apply Hfin'].
  destruct (output_get_path (mp args) tile) as [e|orig_path]; [by apply Hfin' |].
  destruct (output_tiles_exist (mp args) tile) as [e|[|]]; [by apply Hfin' | |].
  - destruct (write_all env ws tile _) as [[ws' evs1] r] eqn:Hw.
    apply write_all_trace in Hw as (Hp & Ho1 & Hc1).
    destruct r as [e|].
    + destruct (finally_spec fs ws' (Some e)) as (fs1 & evs2 & H1 & Ho & Hc & _).
      rewrite H1. simpl. intros [= <- <- <- <-].
      rewrite opened_app, closed_app, Ho1, Hc1, Ho, Hc, Hp. by split.
    + intros [= <- <- <- <-]. split; [done |]. split; [done |]. split; [done |].
      by exists tile.
  - intros [= <- <- <- <-]. split; [done |]. split; [done |]. split; [done |].
    by exists tile.
Qed.





End cleanup.



(** ** The generator: the loop *)

Lemma write_all_ok env ws tile tile_path :
  (forall p r, write_fault env p r = None) ->
  write_all env ws tile tile_path =
    ((fun w => write_ok w tile tile_path) <$> ws,
     (fun w => EvWrite (VectorFileWriter.path w) tile tile_path) <$> ws,
     None).
Proof.
  intros Hok. induction ws as [|w ws IH]; simpl; [done |].
  by rewrite write_no_fault, IH.
Qed.

Lemma writes_of_write_events (ws : list Writer) tile tile_path :
  writes ((fun w => EvWrite (VectorFileWriter.path w) tile tile_path) <$> ws)
  = (fun p => (p, tile, tile_path)) <$> (VectorFileWriter.path <$> ws).
Proof. induction ws as [|w ws IH]; simpl; [done | by f_equal]. Qed.

Lemma write_ok_paths (ws : list Writer) tile tile_path :
  VectorFileWriter.path <$> ((fun w => write_ok w tile tile_path) <$> ws)
  = VectorFileWriter.path <$> ws.
Proof.
  induction ws as [|w ws IH]; [done |].
  rewrite !fmap_cons, IH. by destruct (write_ok_path w tile tile_path) as [-> _].
Qed.

Lemma feed_cons w o offers : feed w (o :: offers) = feed (write_ok w o.1 o.2) offers.
Proof. done. Qed.

(** Iterating a suspended generator to the end, when nothing raises: every
    tile is received, the writers have been fed the tiles with output, and
    the [finally] clause closes them. *)
Lemma drain_loop env args gp ex tiles ws fs :
  answers (mp args) gp ex tiles ->
  (forall p r, write_fault env p r = None) ->
  exists evs,
    writes evs = loop_writes env args gp ex (VectorFileWriter.path <$> ws) tiles /\
    opened evs = [] /\ closed evs = [] /\
    drain (S (length tiles)) env args fs (Suspended ws (of_tiles tiles)) =
      let '(fs', evs_c, r) :=
        close_all env fs ((fun w => feed w (offers_of env args gp ex tiles)) <$> ws) in
      Some (fs', Finished, evs ++ evs_c, tiles, r).
Proof.
  intros Hans Hok. revert ws. unfold answers in Hans.
  induction Hans as [|tile tiles [Hgp Hex] _ IH]; intros ws.
  - exists []. do 3 (split; [done |]).
    rewrite drain_S. cbn [next of_tiles resume finally_ length offers_of List.filter fmap list_fmap].
    assert (Hid : (fun w => feed w []) <$> ws = ws).
    { change (fun w => feed w []) with (@id Writer). apply list_fmap_id. }
    rewrite Hid. unfold finally_.
    by destruct (close_all env fs ws) as [[fs' evs_c] [e|]].
  - rewrite drain_S. cbn [next of_tiles resume length].
    rewrite Hgp, Hex. fold (resolved env args gp tile).
    unfold loop_writes, offers_of. cbn [List.filter]. rewrite bind_cons.
    destruct (ex tile).
    + rewrite write_all_ok by done.
      destruct (IH ((fun w => write_ok w tile (resolved env args gp tile)) <$> ws))
        as (evs & Hw & Ho & Hc & Hd).
      rewrite write_ok_paths in Hw. rewrite Hd.
      exists (((fun w => EvWrite (VectorFileWriter.path w) tile (resolved env args gp tile))
                 <$> ws) ++ evs).
      split; [|split; [|split]].
      * by rewrite writes_app, writes_of_write_events, Hw.
      * rewrite opened_app, Ho, app_nil_r. clear. by induction ws.
      * rewrite closed_app, Hc, app_nil_r. clear. by induction ws.
      * rewrite fmap_cons, <- list_fmap_compose.
        rewrite (list_fmap_ext
                   ((fun w => feed w (offers_of env args gp ex tiles))
                      ∘ (fun w => write_ok w tile (resolved env args gp tile)))
                   (fun w => feed w ((tile, resolved env args gp tile)
                                       :: ((fun tile0 => (tile0, resolved env args gp tile0))
                                             <$> List.filter ex tiles))) ws)
          by done.
        clear IH Hd.
        destruct (close_all env fs _) as [[fs' evs_c] r].
        by rewrite app_assoc.
    + destruct (IH ws) as (evs & Hw & Ho & Hc & Hd).
      rewrite Hd. exists evs. do 3 (split; [done |]).
      unfold offers_of. by destruct (close_all env fs _) as [[fs' evs_c] r].
Qed.

(** The first [next] opens the writers and enters the loop. *)
Lemma drain_created fuel env args fs fs1 ws evs0 it :
  Py.any [geojson args; gpkg args; vrt args] = true -> vrt args = false ->
  open_writers env args fs = (fs1, ws, evs0, None) ->
  tiles_from_geom (mp args) (zoom args) = inr it ->
  drain (S fuel) env args fs Created =
    match drain (S fuel) env args fs1 (Suspended ws it) with
    | Some (fs', st', evs, tiles, r) => Some (fs', st', evs0 ++ evs, tiles, r)
    | None => None
    end.
Proof.
  intros Hany Hv Ho Hit. rewrite !drain_S. unfold next.
  rewrite Hany, Hv, Ho, Hit. simpl.
  destruct (resume env args fs1 ws it) as [[[fs2 st2] evs2] [tile| |e]]; simpl; [|done..].
  destruct (drain fuel env args fs2 st2) as [[[[[fs3 st3] evs3] tiles] r]|]; [|done].
  by rewrite app_assoc.
Qed.




(** ** The artifact of a run *)

Lemma startswith_name s x y c :
  Py.startswith (s +:+ String "." x) c = Py.startswith (s +:+ String "." y) c.
Proof. by destruct s. Qed.

Lemma index_file_path_ext out_dir zoom :
  _index_file_path out_dir zoom "geojson" <> _index_file_path out_dir zoom "gpkg".
Proof.
  unfold _index_file_path, Py.os_path_join.
  rewrite (startswith_name _ "geojson" "gpkg").
  destruct (Py.startswith _ _).
  - intros H. by apply String.app_inj in H.
  - destruct (negb (Py.truthy out_dir) || Py.endswith out_dir "/").
    + intros H. apply String.app_inj in H. by apply String.app_inj in H.
    + intros H. apply String.app_inj in H. simpl in H. injection H as H.
      by apply String.app_inj in H.
Qed.

Lemma index_paths_NoDup args : NoDup (index_paths args).
Proof.
  unfold index_paths. destruct (geojson args), (gpkg args); simpl.
  - apply NoDup_cons. split; [|apply NoDup_singleton].
    intros H. apply list_elem_of_singleton in H. by apply index_file_path_ext in H.
  - apply NoDup_singleton.
  - apply NoDup_singleton.
  - apply NoDup_nil_2.
Qed.

Lemma load_existing_total feats acc :
  has_ids feats -> exists d, VectorFileWriter.load_existing feats acc = inr d.
Proof.
  intros H. revert acc. induction H as [|f feats [k Hk] _ IH]; intros acc; simpl.
  - by exists acc.
  - unfold tile_id_of in Hk. rewrite Hk. apply IH.
Qed.

Lemma content_init fs p q :
  p <> q -> content (<[p := []]> (delete p fs)) q = content fs q.
Proof. intros Hne. unfold content. by rewrite lookup_insert_ne, lookup_delete_ne. Qed.

(** Without faults, over files whose features carry ids, the writers of
    the requested formats are opened. *)
Lemma open_writers_ok env args fs :
  no_faults env ->
  (forall p, p ∈ index_paths args -> has_ids (content fs p)) ->
  exists fs1 ws evs,
    open_writers env args fs = (fs1, ws, evs, None) /\
    VectorFileWriter.path <$> ws = index_paths args /\
    Forall (opened_on args fs) ws.
Proof.
  intros (Hr & Ho & Hw & _) Hids. unfold open_writers, append_writer, new_writer.
  set (p1 := _index_file_path (out_dir args) (zoom args) "geojson").
  set (p2 := _index_file_path (out_dir args) (zoom args) "gpkg").
  assert (Hne : p1 <> p2) by apply index_file_path_ext.
  unfold index_paths in *. fold p1 p2 in Hids |- *.
  assert (Hdrv1 : "GeoJSON" ∈ ["GeoJSON"; "GPKG"]) by apply list_elem_of_here.
  assert (Hdrv2 : "GPKG" ∈ ["GeoJSON"; "GPKG"])
    by apply list_elem_of_further, list_elem_of_here.
  destruct (geojson args), (gpkg args); simpl in *.
  - destruct (load_existing_total (content fs p1) []) as [d1 Hd1].
    { apply Hids, list_elem_of_here. }
    destruct (load_existing_total (content fs p2) []) as [d2 Hd2].
    { apply Hids, list_elem_of_further, list_elem_of_here. }
    rewrite (init_ok env fs p1 _ _ _ d1) by done.
    rewrite (init_ok env _ p2 _ _ _ d2) by (try done; by rewrite content_init).
    eexists _, _, _. split; [reflexivity |]. split; [done |].
    apply Forall_cons_2; [done |]. by apply Forall_cons_2.
  - destruct (load_existing_total (content fs p1) []) as [d1 Hd1].
    { apply Hids, list_elem_of_here. }
    rewrite (init_ok env fs p1 _ _ _ d1) by done.
    eexists _, _, _. split; [reflexivity |]. split; [done |].
    by apply Forall_cons_2.
  - destruct (load_existing_total (content fs p2) []) as [d2 Hd2].
    { apply Hids, list_elem_of_here. }
    rewrite (init_ok env fs p2 _ _ _ d2) by done.
    eexists _, _, _. split; [reflexivity |]. split; [done |].
    by apply Forall_cons_2.
  - by eexists _, _, _.
Qed.

Lemma close_all_ok env fs ws :
  (forall p, close_fault env p = None) ->
  exists evs, close_all env fs ws = (stored fs ws, evs, None).
Proof.
  intros Hok. revert fs. induction ws as [|w ws IH]; intros fs; simpl.
  - by exists [].
  - unfold VectorFileWriter.close. rewrite Hok.
    destruct (IH (<[c_path (VectorFileWriter.file_obj w) :=
                      c_records (VectorFileWriter.file_obj w)]> fs)) as [evs ->].
    by eexists.
Qed.

Lemma stored_lookup_ne (fs : FS) ws p :
  p ∉ (fun w => c_path (VectorFileWriter.file_obj w)) <$> ws ->
  stored fs ws !! p = fs !! p.
Proof.
  unfold stored. revert fs. induction ws as [|w ws IH]; intros fs; simpl; [done |].
  rewrite not_elem_of_cons. intros [Hne Hnin].
  rewrite IH by done. by rewrite lookup_insert_ne.
Qed.

Lemma stored_lookup (fs : FS) ws w :
  NoDup ((fun w => c_path (VectorFileWriter.file_obj w)) <$> ws) ->
  w ∈ ws ->
  stored fs ws !! c_path (VectorFileWriter.file_obj w) = Some (records w).
Proof.
  unfold stored. revert fs. induction ws as [|w0 ws IH]; intros fs Hnd Hin.
  - by apply elem_of_nil in Hin.
  - rewrite fmap_cons in Hnd. apply NoDup_cons in Hnd as [Hnin Hnd]. simpl.
    apply elem_of_cons in Hin as [->|Hin].
    + fold (stored (<[c_path (VectorFileWriter.file_obj w0) := records w0]> fs) ws).
      rewrite stored_lookup_ne by done. apply lookup_insert_eq.
    + by apply IH.
Qed.

(** The artifacts a run leaves: for each requested format, the records of
    the snapshot followed by one new record for every tile with output whose
    id is not in the snapshot. *)
Lemma run_content env args fs tiles gp ex :
  no_faults env ->
  Py.any [geojson args; gpkg args; vrt args] = true -> vrt args = false ->
  tiles_from_geom (mp args) (zoom args) = inr (of_tiles tiles) ->
  answers (mp args) gp ex tiles ->
  (forall p, p ∈ index_paths args -> has_ids (content fs p)) ->
  exists fs' evs,
    run (S (length tiles)) env args fs = Some (fs', Finished, evs, tiles, None) /\
    forall p, p ∈ index_paths args ->
      exists d,
        VectorFileWriter.load_existing (content fs p) [] = inr d /\
        content fs' p =
          OD.values d ++
          ((fun o => VectorFileWriter.new_record (fieldname args) o.1 o.2)
             <$> List.filter (fun o => negb (OD.mem (tile_key o.1) d))
                   (offers_of env args gp ex tiles)).
Proof.
  intros Hnf Hany Hv Hit Hans Hids.
  destruct (open_writers_ok env args fs Hnf Hids) as (fs1 & ws & evs0 & Ho & Hps & Hws).
  destruct Hnf as (_ & _ & Hwf & Hcf).
  unfold run, zoom_index_gen.
  rewrite (drain_created _ _ _ _ _ _ _ _ Hany Hv Ho Hit).
  destruct (drain_loop env args gp ex tiles ws fs1 Hans Hwf) as (evs & _ & _ & _ & ->).
  set (offers := offers_of env args gp ex tiles).
  destruct (close_all_ok env fs1 ((fun w => feed w offers) <$> ws) Hcf) as [evs_c ->].
  eexists _, _. split; [reflexivity |].
  intros p Hp. rewrite <- Hps in Hp.
  apply list_elem_of_fmap in Hp as (w & -> & Hw).
  rewrite Forall_forall in Hws.
  destruct (Hws w Hw) as (Hcp & Hfn & Hrec & Hld).
  exists (VectorFileWriter.existing w). split; [done |].
  destruct (feed_shape w offers) as (_ & _ & _ & Hcp' & Hr).
  assert (Hpaths : (fun w => c_path (VectorFileWriter.file_obj w))
                     <$> ((fun w => feed w offers) <$> ws) = index_paths args).
  { rewrite <- Hps, <- list_fmap_compose. apply Forall_fmap_ext, Forall_forall.
    intros w' Hw'. simpl.
    destruct (feed_shape w' offers) as (_ & _ & _ & -> & _).
    by destruct (Hws w' Hw') as (-> & _). }
  unfold content at 1.
  rewrite <- Hcp, <- Hcp'.
  rewrite (stored_lookup fs1 _ (feed w offers)).
  - simpl. by rewrite Hr, Hrec, Hfn.
  - rewrite Hpaths. apply index_paths_NoDup.
  - apply list_elem_of_fmap. by exists w.
Qed.

Lemma env_ok_no_faults : no_faults env_ok.
Proof. by repeat split. Qed.

(** ** The generator: nothing happens before the first step *)

Lemma init_inr_keeps env fs out_path crs fieldname driver fs1 w q :
  VectorFileWriter.__init__ env fs out_path crs fieldname driver = (fs1, inr w) ->
  q = out_path \/ is_Some (fs !! q) -> is_Some (fs1 !! q).
Proof.
  intros Hinit Hq. destruct (init_inr _ _ _ _ _ _ _ _ Hinit) as (d & _ & _ & ->).
  destruct (decide (q = out_path)) as [->|Hne].
  - rewrite lookup_insert_eq. by eexists.
  - destruct Hq as [?|Hq]; [done |].
    by rewrite lookup_insert_ne, lookup_delete_ne.
Qed.

Lemma append_writer_keeps env args flag driver ext fs ws0 fs1 ws evs q :
  append_writer env args flag driver ext fs ws0 = (fs1, ws, evs, None) ->
  q ∈ opened evs \/ is_Some (fs !! q) -> is_Some (fs1 !! q).
Proof.
  unfold append_writer, new_writer. destruct flag.
  - destruct (VectorFileWriter.__init__ _ _ _ _ _ _) as [fs' [e|w]] eqn:Hinit; [done |].
    intros [= <- <- <-] Hq. apply (init_inr_keeps _ _ _ _ _ _ _ _ _ Hinit).
    destruct Hq as [Hq|Hq]; [left | by right].
    simpl in Hq. apply list_elem_of_singleton in Hq. subst q.
    by destruct (init_inr _ _ _ _ _ _ _ _ Hinit) as (d & _ & -> & _).
  - intros [= <- <- <-] [Hq|Hq]; [|done]. by apply elem_of_nil in Hq.
Qed.

Lemma open_writers_creates env args fs fs1 ws evs q :
  open_writers env args fs = (fs1, ws, evs, None) ->
  q ∈ opened evs -> is_Some (fs1 !! q).
Proof.
  unfold open_writers.
  destruct (append_writer env args (geojson args) "GeoJSON" "geojson" fs [])
    as [[[fs1' ws1] evs1] [e|]] eqn:H1; [done |].
  destruct (append_writer env args (gpkg args) "GPKG" "gpkg" fs1' ws1)
    as [[[fs2 ws2] evs2] r2] eqn:H2.
  intros [= <- <- <- ->] Hq. rewrite opened_app in Hq.
  apply (append_writer_keeps _ _ _ _ _ _ _ _ _ _ _ H2).
  apply elem_of_app in Hq as [Hq|Hq]; [right | by left].
  apply (append_writer_keeps _ _ _ _ _ _ _ _ _ _ _ H1). by left.
Qed.

Lemma close_all_keeps env fs ws fs' evs r q :
  close_all env fs ws = (fs', evs, r) -> is_Some (fs !! q) -> is_Some (fs' !! q).
Proof.
  revert fs fs' evs r. induction ws as [|w ws IH]; intros fs fs' evs r; simpl.
  - by intros [= <- <- <-].
  - unfold VectorFileWriter.close.
    assert (Hins : is_Some (fs !! q) ->
                   is_Some (<[c_path (VectorFileWriter.file_obj w) :=
                                c_records (VectorFileWriter.file_obj w)]> fs !! q)).
    { intros Hq. destruct (decide (c_path (VectorFileWriter.file_obj w) = q)) as [->|Hne].
      - rewrite lookup_insert_eq. by eexists.
      - by rewrite lookup_insert_ne. }
    destruct (close_fault env _) as [e|].
    + destruct (is_Exception e).
      * destruct (close_all env fs ws) as [[fs2 evs2] r2] eqn:Hc.
        intros [= <- <- <-]. by apply (IH _ _ _ _ Hc).
      * by intros [= <- <- <-].
    + destruct (close_all env _ ws) as [[fs2 evs2] r2] eqn:Hc.
      intros [= <- <- <-] Hq. apply (IH _ _ _ _ Hc). by apply Hins.
Qed.

Lemma finally_keeps env fs ws in_flight fs' st' evs o q :
  finally_ env fs ws in_flight = (fs', st', evs, o) ->
  is_Some (fs !! q) -> is_Some (fs' !! q).
Proof.
  unfold finally_. destruct (close_all env fs ws) as [[fs2 evs2] r2] eqn:Hc.
  intros [= <- <- <- <-]. by apply (close_all_keeps _ _ _ _ _ _ _ Hc).
Qed.

Lemma resume_keeps env args fs ws it fs' st' evs o q :
  resume env args fs ws it = (fs', st', evs, o) ->
  is_Some (fs !! q) -> is_Some (fs' !! q).
Proof.
  unfold resume. destruct it as [|tile rest|e]; [by apply finally_keeps | |
                                                  by apply finally_keeps].
  destruct (output_get_path (mp args) tile) as [e|orig_path]; [by apply finally_keeps |].
  destruct (output_tiles_exist (mp args) tile) as [e|[|]]; [by apply finally_keeps | |].
  - destruct (write_all env ws tile _) as [[ws' evs1] [e|]].
    + destruct (finally_ env fs ws' (Some e)) as [[[fs2 st2] evs2] o2] eqn:Hf.
      simpl. intros [= <- <- <- <-]. by apply (finally_keeps _ _ _ _ _ _ _ _ _ Hf).
    + by intros [= <- <- <- <-].
  - by intros [= <- <- <- <-].
Qed.

(** C10.  Calling the generator function runs nothing: whatever the
    arguments, it returns a generator that has not started and leaves the
    file system alone, and a consumer that drops this generator without
    pulling gets no error and no effect.  The first [next] is what raises
    [ValueError] or [NotImplementedError].  With valid flags, over index
    files that can be loaded and without I/O failure, the first [next] is
    what opens the writers: its events open exactly the writers of the
    requested formats, at least one; after it each index file exists; and
    either the generator is suspended on these writers, none closed, or it
    has finished and closed each of them. *)
Theorem generator_is_lazy env args fs :
  (zoom_index_gen args fs = (fs, Created) /\
   gen_close env fs (zoom_index_gen args fs).2 = (fs, Finished, [], None)) /\
  (Py.any [geojson args; gpkg args; vrt args] = false ->
   exists e, exn_cls e = ValueError /\
     next env args fs Created = (fs, Finished, [], Raise e)) /\
  (vrt args = true ->
   exists e, exn_cls e = NotImplementedError /\
     next env args fs Created = (fs, Finished, [], Raise e)) /\
  (Py.any [geojson args; gpkg args; vrt args] = true -> vrt args = false ->
   no_faults env ->
   (forall p, p ∈ index_paths args -> has_ids (content fs p)) ->
   exists fs' st' evs o,
     next env args fs Created = (fs', st', evs, o) /\
     index_paths args <> [] /\
     opened evs = index_paths args /\
     (forall p, p ∈ index_paths args -> is_Some (fs' !! p)) /\
     match st' with
     | Created => False
     | Suspended ws _ =>
         VectorFileWriter.path <$> ws = index_paths args /\ closed evs = []
     | Finished => closed evs = index_paths args
     end).
Proof.
  split; [done |]. split; [|split].
  - intros Hany. eexists. split; [|by apply next_no_format]. done.
  - intros Hv. eexists. split; [|by apply next_vrt]. done.
  - intros Hany Hv Hnf Hids.
    assert (Hne : index_paths args <> []).
    { unfold index_paths. unfold Py.any in Hany. simpl in Hany. rewrite Hv in Hany.
      destruct (geojson args), (gpkg args); done. }
    assert (Hcf : forall p e, close_fault env p = Some e -> is_Exception e = true).
    { intros p e He. destruct Hnf as (_ & _ & _ & Hc). by rewrite Hc in He. }
    destruct (open_writers_ok env args fs Hnf Hids) as (fs1 & ws & evs0 & Ho & Hps & _).
    pose proof (open_writers_trace _ _ _ _ _ _ _ Ho) as [Hop0 Hcl0].
    assert (Hfiles : forall p, p ∈ index_paths args -> is_Some (fs1 !! p)).
    { intros p Hp. apply (open_writers_creates _ _ _ _ _ _ _ Ho).
      by rewrite Hop0, Hps. }
    unfold next. rewrite Hany, Hv, Ho. simpl.
    destruct (tiles_from_geom (mp args) (zoom args)) as [e|it].
    + destruct (finally_ env fs1 ws (Some e)) as [[[fs' st'] evs'] o] eqn:Hf.
      pose proof Hf as Hf'.
      destruct (finally_spec env Hcf fs1 ws (Some e)) as (fs2 & evs2 & H2 & Ho2 & Hc2 & _).
      rewrite H2 in Hf'. injection Hf' as <- <- <- <-.
      exists fs2, Finished, (evs0 ++ evs2), (Raise e). split; [done |].
      split; [done |]. rewrite opened_app, closed_app, Hop0, Hcl0, Ho2, Hc2, Hps, app_nil_r.
      split; [done |]. split; [|done].
      intros p Hp. by apply (finally_keeps _ _ _ _ _ _ _ _ _ Hf), Hfiles.
    + destruct (resume env args fs1 ws it) as [[[fs' st'] evs'] o] eqn:Hr.
      pose proof (resume_inv env args Hcf _ _ _ _ _ _ _ Hr) as [Ho2 Hs].
      exists fs', st', (evs0 ++ evs'), o. split; [done |]. split; [done |].
      rewrite opened_app, closed_app, Hop0, Hcl0, Ho2, Hps, app_nil_r.
      split; [done |]. split.
      * intros p Hp. by apply (resume_keeps _ _ _ _ _ _ _ _ _ _ Hr), Hfiles.
      * destruct st' as [|ws' it'|]; [done | |].
        -- destruct Hs as (Hp & Hc & _). by rewrite Hp, Hps.
        -- destruct Hs as [Hc _]. by rewrite Hc, Hps.
Qed.

Lemma generator_is_lazy_witness :
  (zoom_index_gen args_none fs_old = (fs_old, Created) /\
   gen_close env_ok fs_old (zoom_index_gen args_none fs_old).2
   = (fs_old, Finished, [], None)) /\
  (exists e, exn_cls e = ValueError /\
     next env_ok args_none fs_old Created = (fs_old, Finished, [], Raise e)) /\
  (exists e, exn_cls e = NotImplementedError /\
     next env_ok args_vrt fs_old Created = (fs_old, Finished, [], Raise e)) /\
  (zoom_index_gen args_both ∅).1 !! "/out/5.gpkg" = None /\
  (exists fs' st' evs o,
     next env_ok args_both ∅ Created = (fs', st', evs, o) /\
     opened evs = ["/out/5.geojson"; "/out/5.gpkg"] /\
     is_Some (fs' !! "/out/5.geojson") /\ is_Some (fs' !! "/out/5.gpkg") /\
     o = Yield (tile_at 0 0)).
Proof.
  split; [exact (proj1 (generator_is_lazy env_ok args_none fs_old)) |].
  split; [exact (proj1 (proj2 (generator_is_lazy env_ok args_none fs_old)) eq_refl) |].
  split; [exact (proj1 (proj2 (proj2 (generator_is_lazy env_ok args_vrt fs_old))) eq_refl) |].
  split; [reflexivity |].
  destruct (proj2 (proj2 (proj2 (generator_is_lazy env_ok args_both ∅)))
              eq_refl eq_refl env_ok_no_faults)
    as (fs' & st' & evs & o & Hn & _ & Hop & Hfiles & _).
  { intros p _. unfold content. rewrite lookup_empty. apply Forall_nil_2. }
  exists fs', st', evs, o. split; [exact Hn |]. split; [exact Hop |].
  split; [apply Hfiles, list_elem_of_here |].
  split; [apply Hfiles, list_elem_of_further, list_elem_of_here |].
  vm_compute in Hn. by injection Hn as _ _ _ <-.
Defined.

Lemma list_filter_all {A} (P : A -> bool) (l : list A) :
  (forall x, x ∈ l -> P x = true) -> List.filter P l = l.
Proof.
  induction l as [|a l IH]; intros H; simpl; [done |].
  rewrite (H a) by apply list_elem_of_here.
  f_equal. apply IH. intros x Hx. apply H. by apply list_elem_of_further.
Qed.

Lemma list_filter_none {A} (P : A -> bool) (l : list A) :
  (forall x, x ∈ l -> P x = false) -> List.filter P l = [].
Proof.
  induction l as [|a l IH]; intros H; simpl; [done |].
  rewrite (H a) by apply list_elem_of_here.
  apply IH. intros x Hx. apply H. by apply list_elem_of_further.
Qed.

Lemma elem_of_omap_ids (k : Value) (feats : list Feature) :
  k ∈ omap tile_id_of feats <-> Some k ∈ tile_id_of <$> feats.
Proof.
  rewrite list_elem_of_omap, list_elem_of_fmap. split.
  - intros (f & Hf & Hk). by exists f.
  - intros (f & Hk & Hf). by exists f.
Qed.

Lemma new_records_ids env args gp ex tiles :
  fieldname args <> "tile_id" ->
  tile_id_of <$>
    ((fun o => VectorFileWriter.new_record (fieldname args) o.1 o.2)
       <$> offers_of env args gp ex tiles)
  = (fun tile => Some (tile_key tile)) <$> List.filter ex tiles.
Proof.
  intros Hne. unfold offers_of. rewrite <- !list_fmap_compose.
  apply list_fmap_ext. intros _ tile _. simpl. by apply new_record_tile_id.
Qed.

(** With distinct ids, the snapshot holds the features of the file as they
    are. *)
Lemma load_existing_file feats d :
  has_ids feats -> distinct_ids feats ->
  VectorFileWriter.load_existing feats [] = inr d ->
  OD.values d = feats /\ OD.keys d = omap tile_id_of feats.
Proof.
  intros Hids Hnd Hd.
  destruct (load_existing_distinct feats [] Hids Hnd) as (d' & Hd' & Hv & Hk).
  { intros ? ? _ _. apply not_elem_of_nil. }
  rewrite Hd in Hd'. by injection Hd' as <-.
Qed.

(** C4.  The code where the claim fails: with the path field named
    [tile_id], the record display lets the path take the place of the id,
    so the new records carry the path where the next run looks the id up.
    A second run over the unchanged directory, with the same four tiles,
    recognises none of the three tiles with output and appends them again:
    3 entries become 6, with repeated ids. *)
Lemma second_run_not_idempotent_for_tile_id_field :
  match run 5 env_ok args_tile_id ∅ with
  | Some (fs1, Finished, _, tiles1, None) =>
      match run 5 env_ok args_tile_id fs1 with
      | Some (fs2, Finished, _, tiles2, None) =>
          tiles1 = tiles2 /\
          length (content fs1 "/out/5.geojson") = 3 /\
          length (content fs2 "/out/5.geojson") = 6 /\
          ~ distinct_ids (content fs2 "/out/5.geojson")
      | _ => False
      end
  | _ => False
  end.
Proof.
  vm_compute. split; [done |]. split; [done |]. split; [done |].
  intros H. apply NoDup_cons in H as [H _]. apply H.
  do 2 apply list_elem_of_further. apply list_elem_of_here.
Qed.

(** X20.  Merge arithmetic, whatever the name of the path field.  A run
    without failures, over index files whose N entries carry pairwise
    distinct ids, with M tiles with output whose ids are not among those N,
    hands each requested index file the N entries as they were, in order,
    followed by one new record per tile with output: N + M entries. *)
Theorem merge_arithmetic env args fs tiles gp ex :
  no_faults env ->
  Py.any [geojson args; gpkg args; vrt args] = true -> vrt args = false ->
  tiles_from_geom (mp args) (zoom args) = inr (of_tiles tiles) ->
  answers (mp args) gp ex tiles ->
  (forall p, p ∈ index_paths args ->
     has_ids (content fs p) /\ distinct_ids (content fs p) /\
     forall tile, tile ∈ List.filter ex tiles ->
                  Some (tile_key tile) ∉ tile_id_of <$> content fs p) ->
  exists fs1 evs1,
    run (S (length tiles)) env args fs = Some (fs1, Finished, evs1, tiles, None) /\
    forall p, p ∈ index_paths args ->
      content fs1 p =
        content fs p ++
        ((fun o => VectorFileWriter.new_record (fieldname args) o.1 o.2)
           <$> offers_of env args gp ex tiles) /\
      length (content fs1 p) = length (content fs p) + length (List.filter ex tiles).
Proof.
  intros Hnf Hany Hv Hit Hans Hold.
  destruct (run_content env args fs tiles gp ex Hnf Hany Hv Hit Hans)
    as (fs1 & evs1 & Hrun1 & Hc1).
  { intros p Hp. by apply Hold. }
  exists fs1, evs1. split; [done |]. intros p Hp.
  destruct (Hc1 p Hp) as (d & Hd & Hcont).
  destruct (Hold p Hp) as (Hids & Hdis & Hnew).
  destruct (load_existing_file _ _ Hids Hdis Hd) as [Hvals Hkeys].
  assert (Heq : content fs1 p =
                content fs p ++
                ((fun o => VectorFileWriter.new_record (fieldname args) o.1 o.2)
                   <$> offers_of env args gp ex tiles)).
  { rewrite Hcont, Hvals. f_equal. f_equal.
    apply list_filter_all. intros o Ho. apply negb_true_iff, od_mem_false.
    rewrite Hkeys, elem_of_omap_ids. apply Hnew.
    unfold offers_of in Ho. by apply list_elem_of_fmap in Ho as (tile & -> & Ht). }
  split; [done |].
  rewrite Heq, length_app. unfold offers_of. by rewrite !length_fmap.
Qed.

Lemma merge_arithmetic_witness :
  exists fs1 evs1,
    run 5 env_ok args_tile_id fs_other = Some (fs1, Finished, evs1, four_tiles, None) /\
    length (content fs1 "/out/5.geojson") = 1 + 3.
Proof.
  assert (Hans : answers (mp args_tile_id) tile_path_of has_output four_tiles)
    by repeat constructor.
  destruct (merge_arithmetic env_ok args_tile_id fs_other four_tiles
              tile_path_of has_output env_ok_no_faults eq_refl eq_refl eq_refl Hans)
    as (fs1 & evs1 & H1 & Hp).
  { intros p Hp. apply list_elem_of_singleton in Hp. subst p.
    split; [|split].
    - apply Forall_cons_2; [by eexists | apply Forall_nil_2].
    - apply NoDup_singleton.
    - apply Forall_forall. apply (bool_decide_unpack _). vm_compute. exact I. }
  exists fs1, evs1. split; [exact H1 |].
  exact (proj2 (Hp "/out/5.geojson" ltac:(apply list_elem_of_here))).
Defined.

(** X21.  A second run finds the index as the first one left it, when the
    path field is not named [tile_id]: after a run as in the merge
    arithmetic, with pairwise distinct ids among the tiles with output, a
    second run over the unchanged directory yields index files with the
    same number of entries and the same ids, in the same order. *)
Theorem second_run_same_entries env args fs tiles gp ex :
  no_faults env ->
  Py.any [geojson args; gpkg args; vrt args] = true -> vrt args = false ->
  fieldname args <> "tile_id" ->
  tiles_from_geom (mp args) (zoom args) = inr (of_tiles tiles) ->
  answers (mp args) gp ex tiles ->
  NoDup (tile_key <$> List.filter ex tiles) ->
  (forall p, p ∈ index_paths args ->
     has_ids (content fs p) /\ distinct_ids (content fs p) /\
     forall tile, tile ∈ List.filter ex tiles ->
                  Some (tile_key tile) ∉ tile_id_of <$> content fs p) ->
  exists fs1 evs1 fs2 evs2,
    run (S (length tiles)) env args fs = Some (fs1, Finished, evs1, tiles, None) /\
    run (S (length tiles)) env args fs1 = Some (fs2, Finished, evs2, tiles, None) /\
    forall p, p ∈ index_paths args ->
      distinct_ids (content fs1 p) /\
      length (content fs2 p) = length (content fs1 p) /\
      tile_id_of <$> content fs2 p = tile_id_of <$> content fs1 p.
Proof.
  intros Hnf Hany Hv Hfn Hit Hans Hnd Hold.
  set (news := (fun o => VectorFileWriter.new_record (fieldname args) o.1 o.2)
                 <$> offers_of env args gp ex tiles).
  assert (Hnews : tile_id_of <$> news
                  = (fun tile => Some (tile_key tile)) <$> List.filter ex tiles)
    by by apply new_records_ids.
  assert (Hoffer : forall o, o ∈ offers_of env args gp ex tiles ->
                             o.1 ∈ List.filter ex tiles).
  { intros o Ho. unfold offers_of in Ho.
    by apply list_elem_of_fmap in Ho as (tile & -> & Ht). }
  destruct (run_content env args fs tiles gp ex Hnf Hany Hv Hit Hans)
    as (fs1 & evs1 & Hrun1 & Hc1).
  { intros p Hp. by apply Hold. }
  assert (H1 : forall p, p ∈ index_paths args -> content fs1 p = content fs p ++ news).
  { intros p Hp. destruct (Hc1 p Hp) as (d & Hd & ->).
    destruct (Hold p Hp) as (Hids & Hdis & Hnew).
    destruct (load_existing_file _ _ Hids Hdis Hd) as [Hvals Hkeys].
    rewrite Hvals. f_equal. unfold news. f_equal.
    apply list_filter_all. intros o Ho. apply negb_true_iff, od_mem_false.
    rewrite Hkeys, elem_of_omap_ids. by apply Hnew, Hoffer. }
  assert (Hdist1 : forall p, p ∈ index_paths args -> distinct_ids (content fs1 p)).
  { intros p Hp. destruct (Hold p Hp) as (Hids & Hdis & Hnew).
    unfold distinct_ids. rewrite (H1 p Hp), fmap_app, Hnews.
    apply NoDup_app. split; [done |]. split.
    - intros x Hx1 Hx2. apply list_elem_of_fmap in Hx2 as (tile & -> & Ht).
      by apply (Hnew tile Ht).
    - rewrite (list_fmap_compose tile_key Some). by apply (NoDup_fmap_2 Some). }
  assert (Hids1 : forall p, p ∈ index_paths args -> has_ids (content fs1 p)).
  { intros p Hp. destruct (Hold p Hp) as (Hids & _).
    unfold has_ids. rewrite (H1 p Hp). apply Forall_app. split; [done |].
    apply Forall_forall. intros f Hf. unfold news in Hf.
    apply list_elem_of_fmap in Hf as (o & -> & _).
    rewrite new_record_tile_id by done. by eexists. }
  destruct (run_content env args fs1 tiles gp ex Hnf Hany Hv Hit Hans Hids1)
    as (fs2 & evs2 & Hrun2 & Hc2).
  exists fs1, evs1, fs2, evs2. split; [done |]. split; [done |].
  intros p Hp. split; [by apply Hdist1 |].
  assert (Heq : content fs2 p = content fs1 p).
  { destruct (Hc2 p Hp) as (d & Hd & ->).
    destruct (load_existing_file _ _ (Hids1 p Hp) (Hdist1 p Hp) Hd) as [Hvals Hkeys].
    rewrite Hvals, list_filter_none; [by rewrite app_nil_r |].
    intros o Ho. apply negb_false_iff, od_mem_keys.
    rewrite Hkeys, elem_of_omap_ids, (H1 p Hp), fmap_app, Hnews.
    apply elem_of_app. right. apply list_elem_of_fmap. exists o.1.
    split; [done | by apply Hoffer]. }
  by rewrite Heq.
Qed.

Lemma second_run_same_entries_witness :
  exists fs1 evs1 fs2 evs2,
    run 5 env_ok args_ex fs_other = Some (fs1, Finished, evs1, four_tiles, None) /\
    run 5 env_ok args_ex fs1 = Some (fs2, Finished, evs2, four_tiles, None) /\
    distinct_ids (content fs1 "/out/5.geojson") /\
    length (content fs2 "/out/5.geojson") = length (content fs1 "/out/5.geojson") /\
    tile_id_of <$> content fs2 "/out/5.geojson"
      = tile_id_of <$> content fs1 "/out/5.geojson".
Proof.
  assert (Hans : answers (mp args_ex) tile_path_of has_output four_tiles)
    by repeat constructor.
  assert (Hnd : NoDup (tile_key <$> List.filter has_output four_tiles))
    by (apply (bool_decide_unpack _); vm_compute; exact I).
  assert (Hold : forall p, p ∈ index_paths args_ex ->
            has_ids (content fs_other p) /\ distinct_ids (content fs_other p) /\
            forall tile, tile ∈ List.filter has_output four_tiles ->
                         Some (tile_key tile) ∉ tile_id_of <$> content fs_other p).
  { intros p Hp. apply list_elem_of_singleton in Hp. subst p.
    split; [|split].
    - apply Forall_cons_2; [by eexists | apply Forall_nil_2].
    - apply NoDup_singleton.
    - apply Forall_forall. apply (bool_decide_unpack _). vm_compute. exact I. }
  destruct (second_run_same_entries env_ok args_ex fs_other four_tiles
              tile_path_of has_output env_ok_no_faults eq_refl eq_refl
              ltac:(discriminate) eq_refl Hans Hnd Hold)
    as (fs1 & evs1 & fs2 & evs2 & H1 & H2 & Hp).
  exists fs1, evs1, fs2, evs2. split; [exact H1 |]. split; [exact H2 |].
  exact (Hp "/out/5.geojson" ltac:(apply list_elem_of_here)).
Defined.

(** * Further properties of the module *)

(** ** Index file paths *)

Lemma string_length_app (a b : string) :
  String.length (a +:+ b) = String.length a + String.length b.
Proof. induction a as [|c a IH]; simpl; [done | by rewrite IH]. Qed.

Lemma string_app_inj_r (a1 a2 b : string) : a1 +:+ b = a2 +:+ b -> a1 = a2.
Proof.
  revert a2. induction a1 as [|c a1 IH]; intros [|c2 a2]; simpl; intros H.
  - done.
  - apply (f_equal String.length) in H. simpl in H.
    rewrite string_length_app in H. lia.
  - apply (f_equal String.length) in H. simpl in H.
    rewrite string_length_app in H. lia.
  - injection H as -> H. f_equal. by apply IH.
Qed.

Lemma pretty_N_go_no_slash x s :
  Py.startswith s "/" = false -> Py.startswith (pretty_N_go x s) "/" = false.
Proof.
  revert s. induction (N.lt_wf_0 x) as [x _ IH]; intros s Hs.
  assert (x = 0 \/ 0 < x)%N as [->|Hx] by lia.
  - by rewrite pretty_N_go_0.
  - rewrite pretty_N_go_step by done. apply IH.
    + by apply N.div_lt.
    + unfold pretty_N_char. simpl. by repeat case_match.
Qed.

Lemma str_int_no_slash z : Py.startswith (Py.str_int z) "/" = false.
Proof.
  unfold Py.str_int, pretty, pretty_Z. destruct z as [|p|p]; [done | | done].
  unfold pretty, pretty_positive, pretty, pretty_N.
  case_decide; [done |]. by apply pretty_N_go_no_slash.
Qed.

Lemma startswith_app_nonempty a b c :
  a <> "" -> Py.startswith (a +:+ b) c = Py.startswith a c.
Proof. by destruct a. Qed.

Lemma str_int_nonempty z : Py.str_int z <> "".
Proof.
  unfold Py.str_int, pretty, pretty_Z. destruct z as [|p|p]; [done | | done].
  unfold pretty, pretty_positive, pretty, pretty_N.
  case_decide; [done |].
  rewrite pretty_N_go_step by lia.
  intros Hempty. apply (f_equal String.length) in Hempty. simpl in Hempty.
  assert (Hlen : forall x s, String.length s <= String.length (pretty_N_go x s)).
  { clear. intros x. induction (N.lt_wf_0 x) as [x _ IH]; intros s.
    assert (x = 0 \/ 0 < x)%N as [->|Hx] by lia; [by rewrite pretty_N_go_0 |].
    rewrite pretty_N_go_step by done.
    etrans; [|apply IH; by apply N.div_lt]. simpl. lia. }
  specialize (Hlen (N.pos p `div` 10)%N
                (String (pretty_N_char (N.pos p `mod` 10)) "")).
  simpl in Hlen. lia.
Qed.

Lemma index_file_path_shape out_dir zoom ext :
  _index_file_path out_dir zoom ext =
    out_dir +:+
    (if negb (Py.truthy out_dir) || Py.endswith out_dir "/" then "" else "/") +:+
    Py.str_int zoom +:+ "." +:+ ext.
Proof.
  unfold _index_file_path, Py.os_path_join.
  rewrite startswith_app_nonempty, str_int_no_slash by apply str_int_nonempty.
  by destruct (negb (Py.truthy out_dir) || Py.endswith out_dir "/").
Qed.

(** X1.  The index file of a run lies in [out_dir]: its path is [out_dir], a
    slash unless [out_dir] is empty or ends with one, and
    [<zoom>.<ext>]. *)
Theorem index_file_path_in_out_dir out_dir zoom ext :
  _index_file_path out_dir zoom ext =
    out_dir +:+
    (if negb (Py.truthy out_dir) || Py.endswith out_dir "/" then "" else "/") +:+
    Py.str_int zoom +:+ "." +:+ ext.
Proof.
  unfold _index_file_path, Py.os_path_join.
  rewrite startswith_app_nonempty by apply str_int_nonempty.
  rewrite str_int_no_slash.
  by destruct (negb (Py.truthy out_dir) || Py.endswith out_dir "/").
Qed.

(** X2.  Index files of one directory do not collide: two different extensions,
    or two different zoom levels, give two different paths. *)
Theorem index_file_path_inj out_dir zoom1 zoom2 ext1 ext2 :
  (ext1 <> ext2 ->
   _index_file_path out_dir zoom1 ext1 <> _index_file_path out_dir zoom1 ext2) /\
  (zoom1 <> zoom2 ->
   _index_file_path out_dir zoom1 ext1 <> _index_file_path out_dir zoom2 ext1).
Proof.
  rewrite !index_file_path_shape. split; intros Hne H; apply Hne.
  - do 4 apply String.app_inj in H. done.
  - do 2 apply String.app_inj in H.
    apply string_app_inj_r in H. by apply (inj pretty) in H.
Qed.

Lemma index_file_path_inj_witness :
  _index_file_path "/out" 5 "geojson" <> _index_file_path "/out" 5 "gpkg" /\
  _index_file_path "/out" 5 "geojson" <> _index_file_path "/out" 6 "geojson".
Proof.
  split.
  - apply (proj1 (index_file_path_inj "/out" 5 5 "geojson" "gpkg")). discriminate.
  - apply (proj2 (index_file_path_inj "/out" 5 6 "geojson" "gpkg")). discriminate.
Defined.

(** ** Building a writer *)

(** X3.  [__init__] reads, removes and creates the file at [out_path] only:
    whether it returns or raises, every other file is as before. *)
Theorem init_touches_own_path env fs out_path crs fieldname driver fs1 r q :
  VectorFileWriter.__init__ env fs out_path crs fieldname driver = (fs1, r) ->
  q <> out_path -> fs1 !! q = fs !! q.
Proof.
  intros Hinit Hne. unfold VectorFileWriter.__init__ in Hinit.
  assert (Hd : delete out_path fs !! q = fs !! q) by by apply lookup_delete_ne.
  assert (Hi : forall m : FS, <[out_path := []]> m !! q = m !! q)
    by (intros m; by apply lookup_insert_ne).
  destruct (negb _); [by injection Hinit as <- _ |].
  destruct (fs !! out_path) as [feats|].
  - destruct (read_fault env out_path); [by injection Hinit as <- _ |].
    destruct (VectorFileWriter.load_existing feats []); [by injection Hinit as <- _ |].
    destruct (open_fault env out_path); [by injection Hinit as <- _ |].
    destruct (writerecords _ _ _); injection Hinit as <- _; by rewrite Hi.
  - destruct (open_fault env out_path); [by injection Hinit as <- _ |].
    simpl in Hinit. injection Hinit as <- _. by rewrite Hi.
Qed.

Lemma init_touches_own_path_witness :
  exists fs1 r,
    VectorFileWriter.__init__ env_ok
      (<["/out/5.gpkg" := [old_feature]]> fs_old) "/out/5.geojson"
      "EPSG:4326" "location" "GeoJSON" = (fs1, r) /\
    fs1 !! "/out/5.gpkg" = Some [old_feature].
Proof.
  destruct (VectorFileWriter.__init__ env_ok
              (<["/out/5.gpkg" := [old_feature]]> fs_old) "/out/5.geojson"
              "EPSG:4326" "location" "GeoJSON") as [fs1 r] eqn:H.
  exists fs1, r. split; [reflexivity |].
  rewrite (init_touches_own_path _ _ _ _ _ _ _ _ "/out/5.gpkg" H) by discriminate.
  reflexivity.
Defined.

Lemma load_existing_missing_id feats acc :
  Exists (fun f => tile_id_of f = None) feats ->
  VectorFileWriter.load_existing feats acc = inl (Exn KeyError "tile_id").
Proof.
  intros H. revert acc. induction H as [f feats Hf|f feats _ IH]; intros acc; simpl.
  - unfold tile_id_of in Hf. by rewrite Hf.
  - by destruct (OD.get "tile_id" (properties f)).
Qed.

(** X4.  [__init__] fails before it touches anything when the driver is not
    supported ([ValueError]), when the old index cannot be read (the
    reader's error), and when a stored feature has no [tile_id]
    ([KeyError]): in each case the file system is as it was, so the file
    that was there is still there. *)
Theorem init_early_failure_keeps_files env fs out_path crs fieldname driver :
  (driver ∉ ["GeoJSON"; "GPKG"] ->
   VectorFileWriter.__init__ env fs out_path crs fieldname driver
   = (fs, inl (Exn ValueError "only GeoJSON and GPKG are allowed"))) /\
  (forall e, driver ∈ ["GeoJSON"; "GPKG"] -> is_Some (fs !! out_path) ->
     read_fault env out_path = Some e ->
     VectorFileWriter.__init__ env fs out_path crs fieldname driver = (fs, inl e)) /\
  (driver ∈ ["GeoJSON"; "GPKG"] -> read_fault env out_path = None ->
   Exists (fun f => tile_id_of f = None) (content fs out_path) ->
   VectorFileWriter.__init__ env fs out_path crs fieldname driver
   = (fs, inl (Exn KeyError "tile_id"))).
Proof.
  unfold VectorFileWriter.__init__, content. split; [|split].
  - intros Hdrv. by rewrite bool_decide_false.
  - intros e Hdrv [feats Hfs] Hr. rewrite bool_decide_true by done. simpl.
    by rewrite Hfs, Hr.
  - intros Hdrv Hr Hex. rewrite bool_decide_true by done. simpl.
    destruct (fs !! out_path) as [feats|]; simpl in *.
    + by rewrite Hr, (load_existing_missing_id feats [] Hex).
    + by apply Exists_nil in Hex.
Qed.

Lemma init_early_failure_keeps_files_witness :
  VectorFileWriter.__init__ env_ok fs_foreign "/out/5.geojson" "EPSG:4326" "location"
    "ESRI Shapefile"
  = (fs_foreign, inl (Exn ValueError "only GeoJSON and GPKG are allowed")) /\
  VectorFileWriter.__init__ env_read_fails fs_old "/out/5.geojson" "EPSG:4326" "location"
    "GeoJSON"
  = (fs_old, inl (Exn OSError "corrupt")) /\
  VectorFileWriter.__init__ env_ok fs_foreign "/out/5.geojson" "EPSG:4326" "location"
    "GeoJSON"
  = (fs_foreign, inl (Exn KeyError "tile_id")).
Proof.
  split; [|split].
  - apply (proj1 (init_early_failure_keeps_files env_ok fs_foreign "/out/5.geojson"
                     "EPSG:4326" "location" "ESRI Shapefile")).
    intros Hin. apply (bool_decide_pack _) in Hin. vm_compute in Hin. exact Hin.
  - apply (proj1 (proj2 (init_early_failure_keeps_files env_read_fails fs_old
                           "/out/5.geojson" "EPSG:4326" "location" "GeoJSON"))).
    + apply list_elem_of_here.
    + by eexists.
    + reflexivity.
  - apply (proj2 (proj2 (init_early_failure_keeps_files env_ok fs_foreign
                           "/out/5.geojson" "EPSG:4326" "location" "GeoJSON"))).
    + apply list_elem_of_here.
    + reflexivity.
    + apply Exists_cons_hd. reflexivity.
Defined.



Lemma od_set_length {K V} `{EqDecision K} (k : K) (v : V) (d : OD.odict K V) :
  length (OD.set k v d) <= S (length d).
Proof.
  induction d as [|[k' v'] d IH]; simpl; [lia |].
  destruct (decide (k = k')); simpl; lia.
Qed.

Lemma load_existing_length feats acc d :
  VectorFileWriter.load_existing feats acc = inr d ->
  length d <= length acc + length feats.
Proof.
  revert acc. induction feats as [|f feats IH]; intros acc; simpl.
  - intros [= <-]. lia.
  - destruct (OD.get "tile_id" (properties f)) as [k|]; [|done].
    intros H. apply IH in H. pose proof (od_set_length k f acc). lia.
Qed.

Lemma load_existing_get feats acc d k :
  VectorFileWriter.load_existing feats acc = inr d ->
  OD.get k d =
    match last_with k feats with Some g => Some g | None => OD.get k acc end.
Proof.
  revert acc. induction feats as [|f feats IH]; intros acc; simpl.
  - by intros [= <-].
  - unfold tile_id_of.
    destruct (OD.get "tile_id" (properties f)) as [k0|] eqn:Hk0; [|done].
    intros H. rewrite (IH _ H).
    destruct (last_with k feats); [done |].
    destruct (decide (Some k0 = Some k)) as [[= ->]|Hne].
    + apply od_get_set_eq.
    + apply od_get_set_ne. congruence.
Qed.

(** X6.  A writer built over an index with repeated ids keeps one record per
    id, the last one of the old file: the records it re-emits have pairwise
    distinct ids and are at most as many as the file had. *)
Theorem init_deduplicates env fs out_path crs fieldname driver fs1 w :
  VectorFileWriter.__init__ env fs out_path crs fieldname driver = (fs1, inr w) ->
  distinct_ids (records w) /\
  length (records w) <= length (content fs out_path) /\
  (forall k, OD.get k (VectorFileWriter.existing w) = last_with k (content fs out_path)) /\
  (forall f, f ∈ records w ->
     exists k, tile_id_of f = Some k /\ last_with k (content fs out_path) = Some f).
Proof.
  intros Hinit.
  destruct (init_snapshot_wf _ _ _ _ _ _ _ _ Hinit) as (Hwf & Hrec & _).
  destruct (init_inr _ _ _ _ _ _ _ _ Hinit) as (d & Hd & -> & _).
  simpl in *. unfold records. simpl.
  assert (Hget : forall k, OD.get k d = last_with k (content fs out_path)).
  { intros k. rewrite (load_existing_get _ _ _ k Hd). by destruct (last_with _ _). }
  split; [|split; [|split]].
  - unfold distinct_ids. rewrite (snapshot_ids _ Hwf).
    apply (NoDup_fmap_2 Some). apply Hwf.
  - unfold OD.values. rewrite length_fmap.
    apply load_existing_length in Hd. simpl in Hd. lia.
  - done.
  - intros f Hf. apply list_elem_of_fmap in Hf as [[k f'] [-> Hin]]. simpl.
    destruct Hwf as [Hnd Hown]. exists k. split; [by apply Hown |].
    rewrite <- Hget. by apply od_elem_get.
Qed.

Lemma init_deduplicates_witness :
  exists fs1 w,
    VectorFileWriter.__init__ env_ok fs_dup "/out/5.geojson" "EPSG:4326" "location" "GeoJSON"
      = (fs1, inr w) /\
    length (content fs_dup "/out/5.geojson") = 3 /\
    length (records w) = 2 /\
    distinct_ids (records w) /\
    OD.get (tile_key (tile_at 0 0)) (VectorFileWriter.existing w)
      = Some (VectorFileWriter.new_record "location" (tile_at 0 0) "/out/5/0/0.tif").
Proof.
  destruct (VectorFileWriter.__init__ env_ok fs_dup "/out/5.geojson" "EPSG:4326"
              "location" "GeoJSON") as [fs1 [e|w]] eqn:Hinit;
    [vm_compute in Hinit; discriminate |].
  exists fs1, w. split; [reflexivity |]. split; [reflexivity |].
  destruct (init_deduplicates _ _ _ _ _ _ _ _ Hinit) as (Hd & _ & Hget & _).
  split; [|split; [exact Hd |]].
  - vm_compute in Hinit. by injection Hinit as <- <-.
  - rewrite Hget. reflexivity.
Defined.

(** ** Writing and the counter of new entries *)

Lemma feed_new_entries w offers :
  VectorFileWriter.new_entries (feed w offers) =
    VectorFileWriter.new_entries w +
    length (List.filter (fun o => negb (VectorFileWriter.entry_exists w o.1)) offers).
Proof.
  unfold feed. revert w. induction offers as [|[tile tp] offers IH]; intros w; simpl.
  - lia.
  - rewrite IH.
    rewrite (List.filter_ext _ (fun o => negb (VectorFileWriter.entry_exists w o.1))).
    + unfold write_ok. destruct (VectorFileWriter.entry_exists w tile); simpl; lia.
    + intros o. unfold VectorFileWriter.entry_exists. by rewrite write_ok_existing.
Qed.

(** X7.  The counter [new_entries] counts what the run added: after any
    successful [write] calls on a writer built by [__init__], the artifact
    holds the records of the snapshot and [new_entries] more, one for each
    offer whose tile was not in the snapshot. *)
Theorem new_entries_counts_appended env fs out_path crs fieldname driver fs1 w0 offers w :
  VectorFileWriter.__init__ env fs out_path crs fieldname driver = (fs1, inr w0) ->
  write_seq env w0 offers = inr w ->
  length (records w) =
    length (OD.values (VectorFileWriter.existing w)) + VectorFileWriter.new_entries w /\
  VectorFileWriter.new_entries w =
    length (List.filter
              (fun o => negb (OD.mem (tile_key o.1) (VectorFileWriter.existing w0))) offers).
Proof.
  intros Hinit Hseq. apply write_seq_inr in Hseq. subst w.
  destruct (init_inr _ _ _ _ _ _ _ _ Hinit) as (d & _ & Hw0 & _).
  destruct (feed_shape w0 offers) as (He & _ & _ & _ & Hr).
  rewrite Hr, He, feed_new_entries, length_app, length_fmap.
  subst w0. unfold records. simpl. split; done.
Qed.

Lemma new_entries_counts_appended_witness :
  let offers := [(tile_at 0 1, "/out/5/0/1.tif"); (tile_at 0 0, "/out/5/0/0.tif");
                 (tile_at 1 0, "/out/5/1/0.tif")] in
  exists w,
    write_seq env_ok writer_old offers = inr w /\
    length (records w) = 3 /\ VectorFileWriter.new_entries w = 2.
Proof.
  cbv zeta.
  assert (Hinit : VectorFileWriter.__init__ env_ok fs_old "/out/5.geojson"
                    "EPSG:4326" "location" "GeoJSON"
                  = ({[ "/out/5.geojson" := [] ]}, inr writer_old))
    by (vm_compute; reflexivity).
  eexists. split; [vm_compute; reflexivity |].
  match goal with
  | |- context [VectorFileWriter.new_entries ?w] =>
      destruct (new_entries_counts_appended env_ok _ _ _ _ _ _ writer_old
                  [(tile_at 0 1, "/out/5/0/1.tif"); (tile_at 0 0, "/out/5/0/0.tif");
                   (tile_at 1 0, "/out/5/1/0.tif")] w Hinit) as [H1 H2]
  end.
  - vm_compute. reflexivity.
  - split; [rewrite H1 |]; reflexivity.
Defined.

(** ** Closing and reopening *)

(** X8.  What a writer stores when it is closed is what the next writer on
    the same path starts from: when the records carry pairwise distinct ids,
    closing and building a writer again gives a writer whose snapshot has
    exactly the ids of the stored records, in their order, and that holds as
    many records, with these ids, and has added nothing. *)
Theorem close_then_init_same_ids env fs w crs fieldname driver :
  driver ∈ ["GeoJSON"; "GPKG"] ->
  no_faults env ->
  has_ids (records w) -> distinct_ids (records w) ->
  let p := c_path (VectorFileWriter.file_obj w) in
  exists fs1 fs2 w',
    VectorFileWriter.close env fs w = (fs1, None) /\
    VectorFileWriter.__init__ env fs1 p crs fieldname driver = (fs2, inr w') /\
    OD.keys (VectorFileWriter.existing w') = omap tile_id_of (records w) /\
    tile_id_of <$> records w' = tile_id_of <$> records w /\
    length (records w') = length (records w) /\
    VectorFileWriter.new_entries w' = 0.
Proof.
  intros Hdrv (Hr & Ho & Hw & Hc) Hids Hnd p.
  unfold VectorFileWriter.close. fold p. rewrite Hc.
  set (fs1 := <[p := c_records (VectorFileWriter.file_obj w)]> fs).
  assert (Hcont : content fs1 p = records w).
  { unfold content, fs1. by rewrite lookup_insert_eq. }
  destruct (load_existing_total (content fs1 p) []) as [d Hd].
  { by rewrite Hcont. }
  pose proof Hd as Hd'. rewrite Hcont in Hd'.
  destruct (load_existing_file _ _ Hids Hnd Hd') as [Hvals Hkeys].
  eexists fs1, _, _. split; [done |].
  split; [by apply init_ok |].
  unfold records at 1 3. simpl. rewrite Hvals. by split.
Qed.

Lemma close_then_init_same_ids_witness :
  let w := feed writer_old [(tile_at 0 1, "/out/5/0/1.tif")] in
  exists fs1 fs2 w',
    VectorFileWriter.close env_ok ∅ w = (fs1, None) /\
    VectorFileWriter.__init__ env_ok fs1 "/out/5.geojson" "EPSG:4326" "location" "GPKG"
      = (fs2, inr w') /\
    OD.keys (VectorFileWriter.existing w')
      = [tile_key (tile_at 0 0); tile_key (tile_at 0 1)] /\
    length (records w') = 2.
Proof.
  cbv zeta.
  destruct (close_then_init_same_ids env_ok ∅
              (feed writer_old [(tile_at 0 1, "/out/5/0/1.tif")])
              "EPSG:4326" "location" "GPKG")
    as (fs1 & fs2 & w' & H1 & H2 & H3 & _ & H4 & _).
  - apply list_elem_of_further, list_elem_of_here.
  - exact env_ok_no_faults.
  - repeat (apply Forall_cons_2; [by eexists |]). apply Forall_nil_2.
  - apply (bool_decide_unpack _). vm_compute. exact I.
  - exists fs1, fs2, w'. split; [exact H1 |]. split; [exact H2 |].
    split; [by rewrite H3 |]. by rewrite H4.
Defined.

(** ** The generator: the inert flag and interrupted runs *)

Lemma next_with_txt b env args fs st :
  next env (with_txt b args) fs st = next env args fs st.
Proof. by destruct args. Qed.

(** X9.  The [txt] flag has no effect: a run with it set does what the run
    without it does, to the file system, in its events, tiles and outcome;
    no text listing is ever written. *)
Theorem txt_flag_is_inert b fuel env args fs :
  run fuel env (with_txt b args) fs = run fuel env args fs.
Proof.
  unfold run, zoom_index_gen. generalize Created. revert fs.
  induction fuel as [|fuel IH]; intros fs st; [done |].
  rewrite !drain_S, next_with_txt.
  destruct (next env args fs st) as [[[fs' st'] evs] [tile| |e]]; [|done..].
  by rewrite IH.
Qed.

Lemma feed_app w offers1 offers2 :
  feed w (offers1 ++ offers2) = feed (feed w offers1) offers2.
Proof. unfold feed. apply foldl_app. Qed.

Lemma offers_of_cons env args gp ex tile tiles :
  offers_of env args gp ex (tile :: tiles) =
    if ex tile then (tile, resolved env args gp tile) :: offers_of env args gp ex tiles
    else offers_of env args gp ex tiles.
Proof. unfold offers_of. simpl. by destruct (ex tile). Qed.

(** Iterating over a first stretch of tiles that the process answers
    for. *)
Lemma drain_prefix env args gp ex tiles rest fuel ws fs :
  answers (mp args) gp ex tiles ->
  (forall p r, write_fault env p r = None) ->
  exists evs,
    closed evs = [] /\
    drain (length tiles + fuel) env args fs (Suspended ws (tiles_then tiles rest)) =
      match drain fuel env args fs
              (Suspended ((fun w => feed w (offers_of env args gp ex tiles)) <$> ws) rest)
      with
      | Some (fs', st', evs', ts, r) => Some (fs', st', evs ++ evs', tiles ++ ts, r)
      | None => None
      end.
Proof.
  intros Hans Hok. revert ws. unfold answers in Hans.
  induction Hans as [|tile tiles [Hgp Hex] _ IH]; intros ws.
  - exists []. split; [done |].
    assert (Hid : (fun w => feed w (offers_of env args gp ex [])) <$> ws = ws).
    { unfold offers_of. simpl. change (fun w => feed w []) with (@id Writer).
      apply list_fmap_id. }
    rewrite Hid. cbn [length tiles_then Nat.add app].
    by destruct (drain fuel env args fs (Suspended ws rest))
      as [[[[[fs' st'] evs'] ts] r]|].
  - cbn [length tiles_then Nat.add]. rewrite drain_S. cbn [next resume].
    rewrite Hgp, Hex. fold (resolved env args gp tile).
    assert (Hfeed : forall ws0 : list Writer,
      (fun w => feed w (offers_of env args gp ex tiles))
        <$> ((fun w => write_ok w tile (resolved env args gp tile)) <$> ws0)
      = (fun w => feed w ((tile, resolved env args gp tile)
                            :: offers_of env args gp ex tiles)) <$> ws0).
    { intros ws0. by rewrite <- list_fmap_compose. }
    rewrite offers_of_cons.
    destruct (ex tile).
    + rewrite write_all_ok by done.
      destruct (IH ((fun w => write_ok w tile (resolved env args gp tile)) <$> ws))
        as (evs & Hc & ->).
      rewrite Hfeed.
      exists (((fun w => EvWrite (VectorFileWriter.path w) tile (resolved env args gp tile))
                 <$> ws) ++ evs).
      split.
      * rewrite closed_app, Hc, app_nil_r. clear. by induction ws.
      * destruct (drain fuel env args fs _) as [[[[[fs' st'] evs'] ts] r]|]; [|done].
        by rewrite app_assoc.
    + destruct (IH ws) as (evs & Hc & ->).
      exists evs. split; [done |].
      by destruct (drain fuel env args fs _) as [[[[[fs' st'] evs'] ts] r]|].
Qed.

Lemma close_all_closed env fs ws fs' evs r :
  (forall p, close_fault env p = None) ->
  close_all env fs ws = (fs', evs, r) ->
  closed evs = VectorFileWriter.path <$> ws.
Proof.
  intros Hcf. revert fs fs' evs r.
  induction ws as [|w ws IH]; intros fs fs' evs r; simpl.
  - by intros [= <- <- <-].
  - unfold VectorFileWriter.close. rewrite Hcf.
    destruct (close_all env _ ws) as [[fs2 evs2] r2] eqn:Hc2.
    intros [= <- <- <-]. simpl. f_equal. by apply (IH _ _ _ _ Hc2).
Qed.

(** X10.  A run whose enumeration raises after some tiles: the consumer has
    received those tiles and gets the exception; every writer was closed,
    and each index file holds its old entries and the new records of the
    tiles that were reached. *)
Theorem interrupted_run_keeps_entries env args fs tiles e gp ex :
  no_faults env ->
  Py.any [geojson args; gpkg args; vrt args] = true -> vrt args = false ->
  tiles_from_geom (mp args) (zoom args) = inr (tiles_then tiles (it_raise e)) ->
  answers (mp args) gp ex tiles ->
  (forall p, p ∈ index_paths args -> has_ids (content fs p)) ->
  exists fs' evs,
    run (S (length tiles)) env args fs = Some (fs', Finished, evs, tiles, Some e) /\
    closed evs = index_paths args /\
    forall p, p ∈ index_paths args ->
      exists d,
        VectorFileWriter.load_existing (content fs p) [] = inr d /\
        content fs' p =
          OD.values d ++
          ((fun o => VectorFileWriter.new_record (fieldname args) o.1 o.2)
             <$> List.filter (fun o => negb (OD.mem (tile_key o.1) d))
                   (offers_of env args gp ex tiles)).
Proof.
  intros Hnf Hany Hv Hit Hans Hids.
  destruct (open_writers_ok env args fs Hnf Hids) as (fs1 & ws & evs0 & Ho & Hps & Hws).
  pose proof (open_writers_trace _ _ _ _ _ _ _ Ho) as [_ Hc0].
  destruct Hnf as (_ & _ & Hwf & Hcf).
  unfold run, zoom_index_gen.
  rewrite (drain_created _ _ _ _ _ _ _ _ Hany Hv Ho Hit).
  replace (S (length tiles)) with (length tiles + 1) by lia.
  destruct (drain_prefix env args gp ex tiles (it_raise e) 1 ws fs1 Hans Hwf)
    as (evs & Hc & ->).
  set (offers := offers_of env args gp ex tiles).
  set (ws' := (fun w => feed w offers) <$> ws).
  rewrite drain_S. cbn [next resume]. unfold finally_.
  destruct (close_all_ok env fs1 ws' Hcf) as [evs_c Hca]. rewrite Hca.
  assert (Hpaths' : VectorFileWriter.path <$> ws' = index_paths args).
  { rewrite <- Hps. unfold ws'. rewrite <- list_fmap_compose.
    apply Forall_fmap_ext, Forall_forall. intros w' _. simpl.
    by destruct (feed_shape w' offers) as (_ & _ & -> & _). }
  assert (Hcc : closed evs_c = index_paths args).
  { rewrite <- Hpaths'. by apply (close_all_closed _ _ _ _ _ _ Hcf Hca). }
  eexists _, _. split; [by rewrite app_nil_r |].
  split; [by rewrite !closed_app, Hc0, Hc, Hcc |].
  intros p Hp. rewrite <- Hps in Hp.
  apply list_elem_of_fmap in Hp as (w & -> & Hw).
  rewrite Forall_forall in Hws.
  destruct (Hws w Hw) as (Hcp & Hfn & Hrec & Hld).
  exists (VectorFileWriter.existing w). split; [done |].
  destruct (feed_shape w offers) as (_ & _ & _ & Hcp' & Hr).
  assert (Hpaths : (fun w => c_path (VectorFileWriter.file_obj w)) <$> ws'
                   = index_paths args).
  { rewrite <- Hps. unfold ws'. rewrite <- list_fmap_compose.
    apply Forall_fmap_ext, Forall_forall. intros w' Hw'. simpl.
    destruct (feed_shape w' offers) as (_ & _ & _ & -> & _).
    by destruct (Hws w' Hw') as (-> & _). }
  unfold content at 1. rewrite <- Hcp, <- Hcp'.
  rewrite (stored_lookup fs1 ws' (feed w offers)).
  - simpl. by rewrite Hr, Hrec, Hfn.
  - rewrite Hpaths. apply index_paths_NoDup.
  - apply list_elem_of_fmap. by exists w.
Qed.

Lemma interrupted_run_keeps_entries_witness :
  exists fs' evs,
    run 3 env_ok args_breaks fs_other
      = Some (fs', Finished, evs, [tile_at 0 0; tile_at 0 1], Some (Exn OSError "grid")) /\
    closed evs = ["/out/5.geojson"] /\
    length (content fs' "/out/5.geojson") = 3.
Proof.
  assert (Hans : answers (mp args_breaks) tile_path_of has_output [tile_at 0 0; tile_at 0 1])
    by repeat constructor.
  destruct (interrupted_run_keeps_entries env_ok args_breaks fs_other
              [tile_at 0 0; tile_at 0 1] (Exn OSError "grid") tile_path_of has_output
              env_ok_no_faults eq_refl eq_refl eq_refl Hans)
    as (fs' & evs & Hrun & Hc & Hcont).
  { intros p Hp. apply list_elem_of_singleton in Hp. subst p.
    apply Forall_cons_2; [by eexists | apply Forall_nil_2]. }
  exists fs', evs. split; [exact Hrun |]. split; [exact Hc |].
  destruct (Hcont "/out/5.geojson" ltac:(apply list_elem_of_here)) as (d & Hd & ->).
  vm_compute in Hd. injection Hd as <-. reflexivity.
Defined.

(** ** Splitting and joining paths *)

Lemma join_cons_nonempty sep x l :
  l <> [] -> Py.join sep (x :: l) = x +:+ sep +:+ Py.join sep l.
Proof. by destruct l. Qed.

(** Joining what [split] gave with the separator gives the string back. *)
Theorem join_split c s : Py.join (String c "") (Py.split c s) = s.
Proof.
  induction s as [|a s IH]; [done |]. cbn [Py.split].
  destruct (decide (a = c)) as [->|Hne].
  - rewrite join_cons_nonempty by apply split_nonempty. by rewrite IH.
  - pose proof (split_nonempty c s) as Hn.
    destruct (Py.split c s) as [|h t]; [done |].
    destruct t as [|h' t].
    + simpl in *. by rewrite IH.
    + rewrite join_cons_nonempty in IH by done.
      rewrite join_cons_nonempty by done. by rewrite <- IH.
Qed.

(** [split] finds exactly the segments that were joined, when none of them
    contains the separator. *)
Theorem split_join c l :
  l <> [] -> Forall (fun x => Py.split c x = [x]) l ->
  Py.split c (Py.join (String c "") l) = l.
Proof.
  intros Hne Hall. induction Hall as [|x l Hx Hall IH]; [done |].
  destruct l as [|y l]; [done |].
  rewrite join_cons_nonempty by done.
  change (String c "" +:+ Py.join (String c "") (y :: l))
    with (String c (Py.join (String c "") (y :: l))).
  rewrite split_app_sep, Hx, IH by done. done.
Qed.

Lemma split_join_witness :
  Py.split "/" (Py.join "/" ["out"; "5"; "3"; "7.tif"]) = ["out"; "5"; "3"; "7.tif"].
Proof.
  apply (split_join "/" ["out"; "5"; "3"; "7.tif"]); [discriminate |].
  repeat constructor.
Defined.

(** X11.  A path of at most three segments keeps all of them under the base
    path, and a base path is dropped altogether when such a path starts
    with a slash: [os.path.join] restarts at an absolute component. *)
Theorem tile_path_few_segments remote orig_path base for_gdal :
  length (Py.split "/" orig_path) <= 3 ->
  Py.truthy base = true ->
  let path := if Py.startswith orig_path "/" then orig_path
              else Py.os_path_join base orig_path in
  _tile_path remote orig_path (Some base) for_gdal =
    if for_gdal && remote path then "/vsicurl/" +:+ path else path.
Proof.
  intros Hlen Hb. unfold _tile_path. rewrite Hb.
  unfold Py.last_n. replace (length (Py.split "/" orig_path) - 3) with 0 by lia.
  rewrite drop_0, (join_split "/" orig_path).
  unfold Py.os_path_join. by destruct (Py.startswith orig_path "/").
Qed.

Lemma tile_path_few_segments_witness :
  _tile_path (path_is_remote env_ok) "/3/7.tif" (Some "http://host/base") true = "/3/7.tif" /\
  _tile_path (path_is_remote env_ok) "3/7.tif" (Some "http://host/base") true
    = "/vsicurl/http://host/base/3/7.tif".
Proof.
  split.
  - apply (tile_path_few_segments (path_is_remote env_ok) "/3/7.tif" "http://host/base" true).
    + vm_compute. lia.
    + reflexivity.
  - apply (tile_path_few_segments (path_is_remote env_ok) "3/7.tif" "http://host/base" true).
    + vm_compute. lia.
    + reflexivity.
Defined.

(** * The driver registry and the convert command *)

Example splitext_ex :
  PyOs.splitext "/out/dir.d/file.tar.gz" = ("/out/dir.d/file.tar", ".gz") /\
  PyOs.splitext "/out/dir.d/file" = ("/out/dir.d/file", "") /\
  PyOs.splitext "/out/.tif" = ("/out/.tif", "") /\
  PyOs.splitext "/out/..tif" = ("/out/..tif", "") /\
  PyOs.splitext "a.tif" = ("a", ".tif").
Proof. repeat split. Qed.

Example file_ext_to_driver_ex :
  Formats._file_ext_to_driver eps_ex [] =
    ([("tif", ["GTiff"]); ("tiff", ["GTiff"]); ("vrt", ["raster_file"])],
     inr [("tif", ["GTiff"]); ("tiff", ["GTiff"]); ("vrt", ["raster_file"])]).
Proof. reflexivity. Qed.

(** ** File extensions *)

Lemma char_free_cons c a s :
  char_free c (String a s) <-> a <> c /\ char_free c s.
Proof.
  unfold char_free. simpl. destruct (decide (a = c)) as [->|Hne].
  - split; [|by intros [? _]]. intros H. injection H as H.
    by destruct (split_nonempty c s).
  - pose proof (split_nonempty c s).
    destruct (Py.split c s) as [|h t]; [done |]. split.
    + intros H'. injection H' as Hh Ht. by subst.
    + intros [_ H']. injection H' as Hh Ht. by subst.
Qed.

Lemma char_free_nil c : char_free c "".
Proof. done. Qed.

Lemma rfind_from_app c a b i last :
  PyOs.rfind_from c (a +:+ b) i last =
  PyOs.rfind_from c b (i + Z.of_nat (String.length a)) (PyOs.rfind_from c a i last).
Proof.
  revert i last. induction a as [|x a IH]; intros i last; simpl.
  - f_equal. lia.
  - rewrite IH. f_equal. lia.
Qed.

Lemma rfind_from_free c s i last :
  char_free c s -> PyOs.rfind_from c s i last = last.
Proof.
  revert i last. induction s as [|a s IH]; intros i last Hf; [done |].
  apply char_free_cons in Hf as [Hne Hf]. simpl.
  rewrite decide_False by done. by apply IH.
Qed.

Lemma rfind_from_bounds c s i last :
  (last < i)%Z ->
  (last <= PyOs.rfind_from c s i last < i + Z.of_nat (String.length s))%Z.
Proof.
  revert i last. induction s as [|a s IH]; intros i last Hlt; simpl; [lia |].
  destruct (decide (a = c)).
  - specialize (IH (i + 1)%Z i). lia.
  - specialize (IH (i + 1)%Z last). lia.
Qed.

Lemma string_get_app_length pre a rest :
  String.get (String.length pre) (pre +:+ String a rest) = Some a.
Proof. induction pre as [|x pre IH]; simpl; done. Qed.

Lemma str_take_app s x : PyOs.str_take (String.length s) (s +:+ x) = s.
Proof.
  induction s as [|a s IH]; simpl; [by destruct x | by rewrite IH].
Qed.

Lemma str_drop_app s x : PyOs.str_drop (String.length s) (s +:+ x) = x.
Proof. induction s as [|a s IH]; simpl; [by destruct x | done]. Qed.

(** The extension of [<stem>.<e>] is [.<e>], when [e] has neither a dot nor
    a slash and the file name part of [stem] has a character that is not a
    dot. *)
Lemma splitext_ext pre a post e :
  a <> "."%char -> char_free "/" (String a post) ->
  char_free "." e -> char_free "/" e ->
  PyOs.splitext ((pre +:+ String a post) +:+ String "." e)
  = (pre +:+ String a post, String "." e).
Proof.
  intros Ha Hpost He Hes. set (stem := pre +:+ String a post).
  unfold PyOs.splitext, PyOs.rfind.
  assert (Hdot : PyOs.rfind_from "." (stem +:+ String "." e) 0 (-1)
                 = Z.of_nat (String.length stem)).
  { rewrite rfind_from_app. simpl. by rewrite rfind_from_free. }
  assert (Hsep : PyOs.rfind_from "/" (stem +:+ String "." e) 0 (-1)
                 = PyOs.rfind_from "/" pre 0 (-1)).
  { rewrite rfind_from_app. simpl. rewrite rfind_from_free by done.
    unfold stem. rewrite rfind_from_app. by rewrite rfind_from_free. }
  rewrite Hdot, Hsep.
  pose proof (rfind_from_bounds "/" pre 0 (-1) ltac:(lia)) as Hb.
  assert (Hlen : String.length stem = String.length pre + S (String.length post)).
  { unfold stem. by rewrite string_length_app. }
  rewrite bool_decide_true by lia. simpl.
  assert (Hex : existsb (PyOs.not_dot_at (stem +:+ String "." e))
                  (seqZ (PyOs.rfind_from "/" pre 0 (-1) + 1)
                        (Z.of_nat (String.length stem)
                         - (PyOs.rfind_from "/" pre 0 (-1) + 1))) = true).
  { apply existsb_exists. exists (Z.of_nat (String.length pre)). split.
    - apply list_elem_of_In, elem_of_seqZ. lia.
    - unfold PyOs.not_dot_at, stem. rewrite Nat2Z.id, string_app_assoc.
      change (String a post +:+ String "." e) with (String a (post +:+ String "." e)).
      rewrite string_get_app_length. by rewrite bool_decide_false. }
  rewrite Hex, Nat2Z.id. by rewrite str_take_app, str_drop_app.
Qed.

(** A path whose last component has no dot has no extension. *)
Lemma splitext_no_ext p name :
  char_free "." name ->
  p = name \/ (exists dir, p = dir +:+ String "/" name) ->
  PyOs.splitext p = (p, "").
Proof.
  intros Hn Hp. unfold PyOs.splitext, PyOs.rfind.
  enough (Hle : (PyOs.rfind_from "." p 0 (-1) <= PyOs.rfind_from "/" p 0 (-1))%Z).
  { by rewrite bool_decide_false by lia. }
  destruct Hp as [->|[dir ->]].
  - rewrite (rfind_from_free "." name) by done.
    pose proof (rfind_from_bounds "/" name 0 (-1) ltac:(lia)). lia.
  - rewrite !rfind_from_app. simpl. rewrite (rfind_from_free "." name) by done.
    pose proof (rfind_from_bounds "." dir 0 (-1) ltac:(lia)).
    pose proof (rfind_from_bounds "/" name (0 + Z.of_nat (String.length dir) + 1)
                  (0 + Z.of_nat (String.length dir)) ltac:(lia)).
    lia.
Qed.

(** ** The table from file extensions to drivers *)

Lemma register_get name exts t ext l :
  OD.get ext (Formats.register name exts t) = Some l ->
  OD.get ext t = Some l \/ l = [name].
Proof.
  revert t. induction exts as [|x exts IH]; intros t; simpl; [by left |].
  destruct (OD.mem x t); [by left |].
  intros H. apply IH in H as [H|H]; [|by right].
  destruct (decide (x = ext)) as [->|Hne].
  - rewrite od_get_set_eq in H. right. congruence.
  - rewrite od_get_set_ne in H by done. by left.
Qed.

Lemma register_keeps name exts t ext l :
  OD.get ext t = Some l -> OD.get ext (Formats.register name exts t) = Some l.
Proof.
  revert t. induction exts as [|x exts IH]; intros t H; simpl; [done |].
  destruct (OD.mem x t) eqn:Hm; [done |].
  apply IH. rewrite od_get_set_ne; [done |].
  intros ->. unfold OD.mem in Hm. by rewrite H in Hm.
Qed.

Lemma register_driver_get d t ext l :
  OD.get ext (Formats.register_driver d t) = Some l ->
  OD.get ext t = Some l \/ exists name, l = [name].
Proof.
  unfold Formats.register_driver.
  destruct (Formats.METADATA d) as [m|]; [|by left].
  destruct (Formats.driver_name m) as [name|]; [|by left].
  destruct (Formats.file_extensions m) as [exts|]; [|by left].
  intros H. apply register_get in H as [H|H]; [by left | right; by exists name].
Qed.

Lemma register_driver_keeps d t ext l :
  OD.get ext t = Some l -> OD.get ext (Formats.register_driver d t) = Some l.
Proof.
  unfold Formats.register_driver. intros H.
  destruct (Formats.METADATA d) as [m|]; [|done].
  destruct (Formats.driver_name m) as [name|]; [|done].
  destruct (Formats.file_extensions m) as [exts|]; [|done].
  by apply register_keeps.
Qed.

Lemma scan_get eps t t' r ext l :
  Formats.scan eps t = (t', r) ->
  OD.get ext t' = Some l ->
  OD.get ext t = Some l \/ exists name, l = [name].
Proof.
  revert t. induction eps as [|[e|d] eps IH]; intros t; simpl.
  - intros [= <- <-]. by left.
  - intros [= <- <-]. by left.
  - intros Hs Hg. destruct (IH _ Hs Hg) as [H|H]; [|by right].
    by apply register_driver_get in H.
Qed.

Lemma scan_keeps eps t t' r ext l :
  Formats.scan eps t = (t', r) ->
  OD.get ext t = Some l -> OD.get ext t' = Some l.
Proof.
  revert t. induction eps as [|[e|d] eps IH]; intros t; simpl.
  - by intros [= <- <-].
  - by intros [= <- <-].
  - intros Hs Hg. apply (IH _ Hs). by apply register_driver_keeps.
Qed.

(** X12.  Every extension of the table has exactly one driver, whatever the
    drivers declare: the list of an extension is never extended. *)
Theorem file_ext_to_driver_single_driver eps cache r ext l :
  Formats._file_ext_to_driver eps [] = (cache, r) ->
  OD.get ext cache = Some l -> exists name, l = [name].
Proof.
  unfold Formats._file_ext_to_driver.
  destruct (Formats.scan eps []) as [t o] eqn:Hs.
  destruct t as [|kv t], o as [e|]; intros [= <- <-] Hg; try done.
  all: by destruct (scan_get _ _ _ _ _ _ Hs Hg).
Qed.

Lemma file_ext_to_driver_single_driver_witness :
  exists cache r,
    Formats._file_ext_to_driver eps_ex [] = (cache, r) /\
    OD.get "tif" cache = Some ["GTiff"] /\ exists name, ["GTiff"] = [name].
Proof.
  destruct (Formats._file_ext_to_driver eps_ex []) as [cache r] eqn:H.
  exists cache, r. split; [reflexivity |].
  assert (Hg : OD.get "tif" cache = Some ["GTiff"])
    by (vm_compute in H; by injection H as <- <-).
  split; [exact Hg |].
  exact (file_ext_to_driver_single_driver eps_ex cache r "tif" ["GTiff"] H Hg).
Defined.

(** X13.  The first driver to declare an extension keeps it.  A driver that
    declares an extension that is taken registers the extensions it lists
    before that one and none of those it lists after it. *)
Theorem register_first_wins name exts1 ext exts2 t l :
  OD.get ext t = Some l ->
  Formats.register name (exts1 ++ ext :: exts2) t = Formats.register name exts1 t /\
  OD.get ext (Formats.register name (exts1 ++ ext :: exts2) t) = Some l.
Proof.
  intros Hg.
  assert (Heq : Formats.register name (exts1 ++ ext :: exts2) t
                = Formats.register name exts1 t).
  { revert t Hg. induction exts1 as [|x exts1 IH]; intros t Hg; simpl.
    - unfold OD.mem. by rewrite Hg.
    - destruct (OD.mem x t) eqn:Hm; [done |].
      apply IH. rewrite od_get_set_ne; [done |].
      intros ->. unfold OD.mem in Hm. by rewrite Hg in Hm. }
  split; [done |]. rewrite Heq. by apply register_keeps.
Qed.

Lemma register_first_wins_witness :
  Formats.register "raster_file" (["vrt"] ++ "tif" :: ["jp2"]) [("tif", ["GTiff"])]
    = [("tif", ["GTiff"]); ("vrt", ["raster_file"])] /\
  OD.get "tif"
    (Formats.register "raster_file" (["vrt"] ++ "tif" :: ["jp2"]) [("tif", ["GTiff"])])
    = Some ["GTiff"].
Proof.
  destruct (register_first_wins "raster_file" ["vrt"] "tif" ["jp2"]
              [("tif", ["GTiff"])] ["GTiff"] eq_refl) as [H1 H2].
  split; [by rewrite H1 | exact H2].
Defined.

(** X14.  The table is computed once: after a call that returned it, and also
    after a call that raised while loading a driver when some extension had
    been registered before, every later call returns the stored table
    without looking at the entry points. *)
Theorem file_ext_to_driver_computed_once eps cache r :
  Formats._file_ext_to_driver eps [] = (cache, r) ->
  cache <> [] ->
  (forall t, r = inr t -> t = cache) /\
  forall eps', Formats._file_ext_to_driver eps' cache = (cache, inr cache).
Proof.
  unfold Formats._file_ext_to_driver. intros H Hne. split.
  - intros t Hr. subst r. destruct (Formats.scan eps []) as [t' o].
    destruct t', o; by simplify_eq.
  - intros eps'. by destruct cache.
Qed.

Lemma file_ext_to_driver_computed_once_witness :
  let broken := [inr gtiff_driver; inl (Exn OSError "import")] in
  exists cache,
    Formats._file_ext_to_driver broken [] = (cache, inl (Formats.Raised (Exn OSError "import"))) /\
    Formats._file_ext_to_driver [] cache = (cache, inr cache) /\
    OD.get "tif" cache = Some ["GTiff"].
Proof.
  cbv zeta. eexists. split; [reflexivity |]. split; [|reflexivity].
  apply (file_ext_to_driver_computed_once
           [inr gtiff_driver; inl (Exn OSError "import")] _ _ eq_refl).
  discriminate.
Defined.

Lemma file_ext_to_driver_inr eps cache t :
  Formats._file_ext_to_driver eps [] = (cache, inr t) ->
  cache = t /\ t <> [] /\
  (forall ext l, OD.get ext t = Some l -> exists name, l = [name]).
Proof.
  unfold Formats._file_ext_to_driver.
  destruct (Formats.scan eps []) as [t' o] eqn:Hs.
  destruct t' as [|kv t'], o as [e|]; intros H; simplify_eq.
  split; [done |]. split; [done |].
  intros ext l Hg. by destruct (scan_get _ _ _ _ _ _ Hs Hg).
Qed.

Lemma split_dot_ext e : char_free "." e -> Py.split "." (String "." e) = [""; e].
Proof. intros He. simpl. by rewrite He. Qed.

(** ** Guessing a driver from a file name *)

(** X15.  For a file name without extension [driver_from_file] raises
    [IndexError]: it indexes the pieces of the empty extension before it
    looks at the registry, which stays as it was. *)
Theorem driver_from_file_no_extension eps cache p name :
  char_free "." name ->
  p = name \/ (exists dir, p = dir +:+ String "/" name) ->
  Formats.driver_from_file eps cache p = (cache, inl Formats.IndexError).
Proof.
  intros Hn Hp. unfold Formats.driver_from_file.
  by rewrite (splitext_no_ext p name Hn Hp).
Qed.

Lemma driver_from_file_no_extension_witness :
  Formats.driver_from_file eps_ex [] "/data/out.d/README" = ([], inl Formats.IndexError).
Proof.
  apply (driver_from_file_no_extension eps_ex [] "/data/out.d/README" "README").
  - reflexivity.
  - right. by exists "/data/out.d".
Defined.

(** X16.  For a file [<stem>.<e>], on first use of the registry: when the
    registry cannot be built its error is raised; when no driver has
    registered [e], [MapcheteDriverError] is raised; otherwise the one
    driver registered for [e] is returned, and the warning about several
    drivers is never issued. *)
Theorem driver_from_file_by_extension eps pre a post e :
  a <> "."%char -> char_free "/" (String a post) ->
  char_free "." e -> char_free "/" e ->
  let input_file := (pre +:+ String a post) +:+ String "." e in
  match Formats._file_ext_to_driver eps [] with
  | (c, inl err) => Formats.driver_from_file eps [] input_file = (c, inl err)
  | (c, inr t) =>
      match OD.get e t with
      | None =>
          Formats.driver_from_file eps [] input_file =
            (c, inl (Formats.MapcheteDriverError
                       ("no driver could be found for file extension " +:+ e)))
      | Some l =>
          exists name, l = [name] /\
            Formats.driver_from_file eps [] input_file = (c, inr (name, false))
      end
  end.
Proof.
  intros Ha Hpost He Hes input_file. unfold Formats.driver_from_file, input_file.
  rewrite (splitext_ext pre a post e Ha Hpost He Hes). cbn [snd].
  rewrite (split_dot_ext e He).
  destruct (Formats._file_ext_to_driver eps []) as [c [err|t]] eqn:H1; [done |].
  apply file_ext_to_driver_inr in H1 as (-> & Hne & Hsing).
  unfold OD.mem. destruct (OD.get e t) as [l|] eqn:Hg; simpl; [|done].
  destruct (Hsing e l Hg) as [name ->]. exists name. split; [done |].
  unfold Formats._file_ext_to_driver. destruct t as [|kv t]; [done |].
  by rewrite Hg.
Qed.

Lemma driver_from_file_by_extension_witness :
  (exists name, ["GTiff"] = [name] /\
     Formats.driver_from_file eps_ex [] "/data/in/dem.tif"
     = ([("tif", ["GTiff"]); ("tiff", ["GTiff"]); ("vrt", ["raster_file"])],
        inr (name, false))) /\
  Formats.driver_from_file eps_ex [] "/data/in/dem.jp2"
  = ([("tif", ["GTiff"]); ("tiff", ["GTiff"]); ("vrt", ["raster_file"])],
     inl (Formats.MapcheteDriverError "no driver could be found for file extension jp2")).
Proof.
  split.
  - apply (driver_from_file_by_extension eps_ex "/data/in/" "d" "em" "tif");
      [discriminate | reflexivity | reflexivity | reflexivity].
  - apply (driver_from_file_by_extension eps_ex "/data/in/" "d" "em" "jp2");
      [discriminate | reflexivity | reflexivity | reflexivity].
Defined.

(** ** The output of the convert command *)

(** X17.  [_get_output_info] goes by the extension: a path whose last component
    has no dot is a tile directory without driver; [<stem>.tif] is a single
    file for the GTiff driver; any other extension raises [TypeError]. *)
Theorem get_output_info_by_extension :
  (forall p name,
      char_free "." name ->
      p = name \/ (exists dir, p = dir +:+ String "/" name) ->
      Convert._get_output_info p
      = inr {| Convert.type := "TileDirectory"; Convert.driver := None |}) /\
  (forall pre a post e,
      a <> "."%char -> char_free "/" (String a post) ->
      char_free "." e -> char_free "/" e ->
      Convert._get_output_info ((pre +:+ String a post) +:+ String "." e) =
        if decide (e = "tif")
        then inr {| Convert.type := "SingleFile"; Convert.driver := Some "GTiff" |}
        else inl (Formats.TypeError "Output file extension not recognized: %s")).
Proof.
  split.
  - intros p name Hn Hp. unfold Convert._get_output_info.
    by rewrite (splitext_no_ext p name Hn Hp).
  - intros pre a post e Ha Hpost He Hes. unfold Convert._get_output_info.
    rewrite (splitext_ext pre a post e Ha Hpost He Hes). cbn [snd Py.truthy negb].
    destruct (decide (e = "tif")) as [->|Hne]; [done |].
    rewrite decide_False; [done |]. intros [= ?]. done.
Qed.

Lemma get_output_info_by_extension_witness :
  Convert._get_output_info "/data/out.d/tiles"
    = inr {| Convert.type := "TileDirectory"; Convert.driver := None |} /\
  Convert._get_output_info "/data/out.d/mosaic.tif"
    = inr {| Convert.type := "SingleFile"; Convert.driver := Some "GTiff" |} /\
  Convert._get_output_info "/data/out.d/mosaic.png"
    = inl (Formats.TypeError "Output file extension not recognized: %s").
Proof.
  destruct get_output_info_by_extension as [Hdir Hext].
  split; [|split].
  - apply (Hdir "/data/out.d/tiles" "tiles"); [reflexivity |].
    right. by exists "/data/out.d".
  - apply (Hext "/data/out.d/" "m"%char "osaic" "tif");
      [discriminate | reflexivity | reflexivity | reflexivity].
  - apply (Hext "/data/out.d/" "m"%char "osaic" "png");
      [discriminate | reflexivity | reflexivity | reflexivity].
Defined.

(** ** Available formats *)

Lemma available_formats_acc modes eps acc :
  well_formed_drivers eps ->
  Formats.available_formats modes eps acc = inr (acc ++ names_with_mode modes eps).
Proof.
  intros Hwf. revert acc. unfold well_formed_drivers in Hwf.
  induction Hwf as [|[e|d] eps Hd _ IH]; intros acc; simpl.
  - by rewrite app_nil_r.
  - done.
  - unfold names_with_mode. simpl.
    destruct (Formats.METADATA d) as [m|]; simpl; [|apply IH].
    destruct Hd as [[md Hmd] [name Hname]]. rewrite Hmd, Hname. simpl.
    destruct (bool_decide (md ∈ modes)); simpl.
    + rewrite IH. by rewrite <- app_assoc.
    + apply IH.
Qed.

(** X18.  When every driver module loads and declares a mode and a name, the
    output formats are the names of the drivers of mode [w] or [rw] and the
    input formats those of mode [r] or [rw], in the order of the entry
    points; a driver of mode [rw] is in both lists.  A [METADATA] without a
    mode makes the listing raise [KeyError]. *)
Theorem available_formats_by_mode eps :
  well_formed_drivers eps ->
  Formats.available_output_formats eps = inr (names_with_mode ["w"; "rw"] eps) /\
  Formats.available_input_formats eps = inr (names_with_mode ["r"; "rw"] eps) /\
  (forall d m name,
      inr d ∈ eps -> Formats.METADATA d = Some m ->
      Formats.mode m = Some "rw" -> Formats.driver_name m = Some name ->
      name ∈ names_with_mode ["w"; "rw"] eps /\ name ∈ names_with_mode ["r"; "rw"] eps) /\
  (forall modes d m rest,
      Formats.METADATA d = Some m -> Formats.mode m = None ->
      Formats.available_formats modes (eps ++ inr d :: rest) []
      = inl (Formats.KeyError "mode")).
Proof.
  intros Hwf. split; [by apply (available_formats_acc _ _ []) |].
  split; [by apply (available_formats_acc _ _ []) |]. split.
  - intros d m name Hin Hm Hmode Hname.
    split; apply list_elem_of_omap; exists (inr d); (split; [done |]);
      rewrite Hm; simpl; rewrite Hmode; simpl; by rewrite Hname.
  - intros modes d m rest Hm Hmode. generalize (@nil string).
    unfold well_formed_drivers in Hwf.
    induction Hwf as [|[e|d'] eps Hd _ IH]; intros acc; simpl.
    + by rewrite Hm, Hmode.
    + done.
    + destruct (Formats.METADATA d') as [m'|]; [|apply IH].
      destruct Hd as [[md ->] [name' ->]].
      destruct (bool_decide (md ∈ modes)); apply IH.
Qed.

Lemma available_formats_by_mode_witness :
  Formats.available_output_formats eps_ex = inr ["GTiff"] /\
  Formats.available_input_formats eps_ex = inr ["GTiff"; "raster_file"].
Proof.
  assert (Hwf : well_formed_drivers eps_ex).
  { repeat constructor; by eexists. }
  destruct (available_formats_by_mode eps_ex Hwf) as (Ho & Hi & _).
  split; [exact Ho | exact Hi].
Defined.

(** ** Dumping output parameters *)

Lemma od_get_filter {V} (P : string -> bool) (d : OD.odict string V) k :
  OD.get k (List.filter (fun kv => P kv.1) d) = if P k then OD.get k d else None.
Proof.
  induction d as [|[k' v] d IH]; simpl; [by destruct (P k) |].
  destruct (P k') eqn:Hk'; simpl.
  - destruct (decide (k = k')) as [->|Hne]; [by rewrite Hk' | done].
  - destruct (decide (k = k')) as [->|Hne]; [by rewrite IH, Hk' | done].
Qed.

(** X19.  The driver part of the dumped parameters has every parameter as
    it was given, the tile size and the format among them, except [path],
    [grid], [pixelbuffer] and [metatiling], which it never has.  When the
    parameters give a grid and none of tile size, metatiling and pixel
    buffer, the pyramid is built with 256, 1 and 0; without a grid,
    [KeyError] is raised and no pyramid is built. *)
Theorem params_to_dump_driver_part pyramid_dict params :
  (forall pyramid drv,
      FormatsParams.params_to_dump pyramid_dict params = inr (pyramid, drv) ->
      forall k, OD.get k drv =
                if bool_decide (k ∈ FormatsParams.not_dumped) then None
                else OD.get k params) /\
  (forall grid,
      OD.get "grid" params = Some grid ->
      OD.get "tile_size" params = None -> OD.get "metatiling" params = None ->
      OD.get "pixelbuffer" params = None ->
      FormatsParams.params_to_dump pyramid_dict params =
        match pyramid_dict grid (FormatsParams.Int 256) (FormatsParams.Int 1)
                (FormatsParams.Int 0) with
        | inl e => inl e
        | inr pyramid =>
            inr (pyramid,
                 List.filter
                   (fun kv => negb (bool_decide (kv.1 ∈ FormatsParams.not_dumped))) params)
        end) /\
  (OD.get "grid" params = None ->
   FormatsParams.params_to_dump pyramid_dict params = inl (Formats.KeyError "grid")).
Proof.
  unfold FormatsParams.params_to_dump. split; [|split].
  - intros pyramid drv H k.
    destruct (OD.get "grid" params) as [grid|]; [|done].
    destruct (pyramid_dict grid _ _ _) as [e|pyr]; [done |].
    injection H as <- <-.
    pose proof (od_get_filter
                  (fun k => negb (bool_decide (k ∈ FormatsParams.not_dumped))) params k)
      as Hf.
    cbv beta in Hf. rewrite Hf.
    by destruct (bool_decide (k ∈ FormatsParams.not_dumped)).
  - intros grid -> -> -> ->. done.
  - by intros ->.
Qed.

Lemma params_to_dump_driver_part_witness :
  FormatsParams.params_to_dump FormatsParams.pyramid_of_args FormatsParams.params_ex
  = inr (FormatsParams.Dict
           [("grid", FormatsParams.Str "geodetic"); ("tile_size", FormatsParams.Int 512);
            ("metatiling", FormatsParams.Int 1); ("pixelbuffer", FormatsParams.Int 0)],
         [("format", FormatsParams.Str "GTiff"); ("tile_size", FormatsParams.Int 512);
          ("bands", FormatsParams.Int 3)]) /\
  (forall k, OD.get k [("format", FormatsParams.Str "GTiff");
                       ("tile_size", FormatsParams.Int 512);
                       ("bands", FormatsParams.Int 3)] =
             if bool_decide (k ∈ FormatsParams.not_dumped) then None
             else OD.get k FormatsParams.params_ex).
Proof.
  assert (H : FormatsParams.params_to_dump FormatsParams.pyramid_of_args
                FormatsParams.params_ex
              = inr (FormatsParams.Dict
                       [("grid", FormatsParams.Str "geodetic");
                        ("tile_size", FormatsParams.Int 512);
                        ("metatiling", FormatsParams.Int 1);
                        ("pixelbuffer", FormatsParams.Int 0)],
                     [("format", FormatsParams.Str "GTiff");
                      ("tile_size", FormatsParams.Int 512);
                      ("bands", FormatsParams.Int 3)]))
    by reflexivity.
  split; [exact H |].
  exact (proj1 (params_to_dump_driver_part FormatsParams.pyramid_of_args
                  FormatsParams.params_ex) _ _ H).
Defined.
